(** * Patient appointment API: scheduling rules, status transitions and
      read-side aggregates.

    Shallow embedding of [appointments/models.py], [appointments/serializers.py]
    and [appointments/views.py].

    Conventions of the embedding.
    - The database is an explicit value [DB]; every ORM call and every view
      is a computation in a state-and-exception monad [M] over it.  The
      state is threaded through a raised exception as well, so that "a
      rejected write leaves the store as it was" is a statement to prove
      and not a by-product of the encoding.
    - [timezone.now()] is an argument [now] of each request: a request is
      validated against one reading of the clock.
    - All date-times live in one time zone (Django's default, UTC), so a
      date-time is a calendar date and a time of day, ordered as Python
      orders them, and [__date] lookups agree with [.date()].
    - Requests come from an authenticated client and arrive parsed: a
      field of the request body is either absent or a value of the
      field's type, as the field classes of the framework hand it to the
      validators of the source.  A [string] holds the UTF-8 encoding of
      a Python [str].
    - The validators the framework adds on its own account (lengths,
      blank strings, integer ranges, the syntax of an e-mail address) are
      not modelled: a body of the model is one that passes them.  The
      views of the model therefore accept every body the code accepts and
      answer it as the code does, so that what holds of every accepted
      request and of every reachable store of the model holds of the
      code. *)

From Stdlib Require Import ZArith List String Ascii Bool Lia Permutation.
From Stdlib Require Import DecimalString DecimalZ.
Import ListNotations.
Open Scope Z_scope.

(* ================================================================== *)
(** * Calendar dates and date-times (Python's [datetime] module)       *)
(* ================================================================== *)

(** Python compares tuples lexicographically; [(a, b) < (c, d)]. *)
Definition pair_ltb (p q : Z * Z) : bool :=
  (fst p <? fst q) || ((fst p =? fst q) && (snd p <? snd q)).

Module Date.

Record t := mk { year : Z; month : Z; day : Z }.

Definition eqb (a b : t) : bool :=
  (year a =? year b) && (month a =? month b) && (day a =? day b).

Definition ltb (a b : t) : bool :=
  (year a <? year b)
  || ((year a =? year b) && pair_ltb (month a, day a) (month b, day b)).

(** [a > b] on dates. *)
Definition gtb (a b : t) : bool := ltb b a.

(** Proleptic Gregorian ordinals, as [date.toordinal] and
    [date.fromordinal] compute them; [timedelta] arithmetic goes
    through them. *)
Definition is_leap (y : Z) : bool :=
  (y mod 4 =? 0) && (negb (y mod 100 =? 0) || (y mod 400 =? 0)).

Definition days_before_year (y : Z) : Z :=
  let y1 := y - 1 in y1 * 365 + y1 / 4 - y1 / 100 + y1 / 400.

Definition days_in_month_table : list Z :=
  [(-1); 31; 28; 31; 30; 31; 30; 31; 31; 30; 31; 30; 31].

Definition days_before_month_table : list Z :=
  [(-1); 0; 31; 59; 90; 120; 151; 181; 212; 243; 273; 304; 334].

Definition b2z (b : bool) : Z := if b then 1 else 0.

Definition days_before_month (y m : Z) : Z :=
  nth (Z.to_nat m) days_before_month_table 0
  + b2z ((2 <? m) && is_leap y).

Definition toordinal (d : t) : Z :=
  days_before_year (year d) + days_before_month (year d) (month d) + day d.

Definition DI400Y : Z := 146097.
Definition DI100Y : Z := 36524.
Definition DI4Y : Z := 1461.

Definition ord2ymd (n0 : Z) : t :=
  let n := n0 - 1 in
  let n400 := n / DI400Y in
  let n := n mod DI400Y in
  let n100 := n / DI100Y in
  let n := n mod DI100Y in
  let n4 := n / DI4Y in
  let n := n mod DI4Y in
  let n1 := n / 365 in
  let n := n mod 365 in
  let y := n400 * 400 + 1 + n100 * 100 + n4 * 4 + n1 in
  if (n1 =? 4) || (n100 =? 4) then mk (y - 1) 12 31
  else
    let leapyear := (n1 =? 3) && (negb (n4 =? 24) || (n100 =? 3)) in
    let m := Z.shiftr (n + 50) 5 in
    let preceding :=
      nth (Z.to_nat m) days_before_month_table 0
      + b2z ((2 <? m) && leapyear) in
    if n <? preceding then
      let m' := m - 1 in
      let preceding' :=
        preceding
        - (nth (Z.to_nat m') days_in_month_table 0
           + b2z ((m' =? 2) && leapyear)) in
      mk y m' (n - preceding' + 1)
    else mk y m (n - preceding + 1).

(** [date.max.toordinal()]. *)
Definition MAXORDINAL : Z := 3652059.

(** [date.fromordinal]: a [ValueError]/[OverflowError] outside the
    supported years 1..9999 is [None]. *)
Definition fromordinal (n : Z) : option t :=
  if (1 <=? n) && (n <=? MAXORDINAL) then Some (ord2ymd n) else None.

End Date.

Module DateTime.

(** A date-time is its calendar date and its time of day, the latter
    in microseconds since midnight. *)
Record t := mk { date : Date.t; tod : Z }.

(** [a < b]. *)
Definition ltb (a b : t) : bool :=
  Date.ltb (date a) (date b)
  || (Date.eqb (date a) (date b) && (tod a <? tod b)).

(** [a >= b] and [a <= b]. *)
Definition geb (a b : t) : bool := negb (ltb a b).
Definition leb (a b : t) : bool := negb (ltb b a).

(** [dt + timedelta(days=n)]: [timedelta] itself refuses more than
    999999999 days, and the sum must stay within the supported years. *)
Definition add_days (dt : t) (n : Z) : option t :=
  if (Z.abs n <=? 999999999) then
    match Date.fromordinal (Date.toordinal (date dt) + n) with
    | Some d => Some (mk d (tod dt))
    | None => None
    end
  else None.

End DateTime.

Definition ymd (y m d : Z) : Date.t := Date.mk y m d.

(** A date-time given as date, hour and minute. *)
Definition at_time (d : Date.t) (h m : Z) : DateTime.t :=
  DateTime.mk d ((h * 60 + m) * 60 * 1000000).

(* ================================================================== *)
(** * models.py: the two tables                                         *)
(* ================================================================== *)

(** [Appointment.EXAM_TYPE_CHOICES]. *)
Inductive exam_type_choice :=
| MRI_BRAIN | MRI_SPINE | MRI_KNEE | MRI_SHOULDER | MRI_ABDOMEN
| CT_HEAD | CT_CHEST | CT_ABDOMEN
| XRAY_CHEST | XRAY_SPINE
| ULTRASOUND.

(** [Appointment.STATUS_CHOICES]. *)
Inductive status_choice :=
| SCHEDULED | CONFIRMED | CHECKED_IN | IN_PROGRESS | COMPLETED | NO_SHOW
| CANCELLED.

Definition exam_type_eqb (a b : exam_type_choice) : bool :=
  match a, b with
  | MRI_BRAIN, MRI_BRAIN | MRI_SPINE, MRI_SPINE | MRI_KNEE, MRI_KNEE
  | MRI_SHOULDER, MRI_SHOULDER | MRI_ABDOMEN, MRI_ABDOMEN
  | CT_HEAD, CT_HEAD | CT_CHEST, CT_CHEST | CT_ABDOMEN, CT_ABDOMEN
  | XRAY_CHEST, XRAY_CHEST | XRAY_SPINE, XRAY_SPINE
  | ULTRASOUND, ULTRASOUND => true
  | _, _ => false
  end.

Definition status_eqb (a b : status_choice) : bool :=
  match a, b with
  | SCHEDULED, SCHEDULED | CONFIRMED, CONFIRMED | CHECKED_IN, CHECKED_IN
  | IN_PROGRESS, IN_PROGRESS | COMPLETED, COMPLETED | NO_SHOW, NO_SHOW
  | CANCELLED, CANCELLED => true
  | _, _ => false
  end.

(** [x in [s1, s2, ...]] and the [status__in] lookup. *)
Definition status_in (l : list status_choice) (s : status_choice) : bool :=
  existsb (status_eqb s) l.

(** The statuses the double-booking queries look for. *)
Definition ACTIVE : list status_choice := [SCHEDULED; CONFIRMED; CHECKED_IN].

Module Patient.

(** A row of the patient table; [pk] is the auto-assigned key and
    [patient_id] the clinic's identifier. *)
Record t := mk {
  pk : Z;
  patient_id : string;
  first_name : string;
  last_name : string;
  date_of_birth : Date.t;
  phone : string;
  email : option string
}.

(** [Patient.age], with [today = timezone.now().date()].  A Python
    [bool] subtracts as 0 or 1. *)
Definition age (today : Date.t) (self : t) : Z :=
  Date.year today - Date.year (date_of_birth self)
  - Date.b2z (pair_ltb (Date.month today, Date.day today)
                       (Date.month (date_of_birth self),
                        Date.day (date_of_birth self))).

End Patient.

Module Appointment.

(** An appointment object.  [pk] is [None] until the first save;
    [patient_id] is the foreign-key column of the [patient] field. *)
Record t := mk {
  pk : option Z;
  patient_id : Z;
  appointment_date : DateTime.t;
  exam_type : exam_type_choice;
  status : status_choice;
  referring_physician : string;
  clinical_indication : string;
  special_instructions : string;
  duration_minutes : Z;
  room_number : string;
  created_at : option DateTime.t;
  updated_at : option DateTime.t
}.

Definition set_pk (k : option Z) (a : t) : t :=
  mk k (patient_id a) (appointment_date a) (exam_type a) (status a)
     (referring_physician a) (clinical_indication a)
     (special_instructions a) (duration_minutes a) (room_number a)
     (created_at a) (updated_at a).

Definition set_status (s : status_choice) (a : t) : t :=
  mk (pk a) (patient_id a) (appointment_date a) (exam_type a) s
     (referring_physician a) (clinical_indication a)
     (special_instructions a) (duration_minutes a) (room_number a)
     (created_at a) (updated_at a).

Definition set_stamps (c u : option DateTime.t) (a : t) : t :=
  mk (pk a) (patient_id a) (appointment_date a) (exam_type a) (status a)
     (referring_physician a) (clinical_indication a)
     (special_instructions a) (duration_minutes a) (room_number a) c u.

(** [is_past] and [is_today]. *)
Definition is_past (now : DateTime.t) (self : t) : bool :=
  DateTime.ltb (appointment_date self) now.

Definition is_today (now : DateTime.t) (self : t) : bool :=
  Date.eqb (DateTime.date (appointment_date self)) (DateTime.date now).

End Appointment.

(** The database: both tables in insertion order, and the next key of
    each. *)
Record DB := mkDB {
  patients : list Patient.t;
  appointments : list Appointment.t;
  patient_seq : Z;
  appointment_seq : Z
}.

Definition empty_db : DB := mkDB [] [] 1 1.

(* ================================================================== *)
(** * Exceptions, responses and the request monad                       *)
(* ================================================================== *)

(** The texts the code raises or returns, by what they say. *)
Inductive message :=
| CannotSchedulePast
    (* "Cannot schedule appointments in the past" *)
| AlreadyHasAppointmentOnThisDate (patient_pk : Z)
    (* models.py: "Patient {id} already has an appointment on this date";
       the identifier is read from the patient row with this key *)
| AlreadyHasAppointmentOn (patient_id : string) (d : Date.t)
    (* serializers.py: "Patient {id} already has an appointment on {date}" *)
| PatientDoesNotExist (patient_id : string)
    (* "Patient with ID '{value}' does not exist" *)
| PatientIdMustStartWithPT
| DateOfBirthInFuture
| PhoneFormat
| NotUnique
| FieldRequired.

Inductive exn :=
| SerializerValidationError (errors : list (string * message))
    (* rest_framework.serializers.ValidationError, keyed by field *)
| ValidationError (m : message)
    (* django.core.exceptions.ValidationError, raised by [full_clean] *)
| DoesNotExist
| KeyError
| Http404
| OverflowError.

Inductive outcome (A : Type) :=
| Return (a : A)
| Raise (e : exn).
Arguments Return {A} a.
Arguments Raise {A} e.

Definition M (A : Type) : Type := DB -> outcome A * DB.

Definition ret {A} (a : A) : M A := fun db => (Return a, db).
Definition raise {A} (e : exn) : M A := fun db => (Raise e, db).
Definition bind {A B} (c : M A) (k : A -> M B) : M B :=
  fun db =>
    match c db with
    | (Return a, db') => k a db'
    | (Raise e, db') => (Raise e, db')
    end.
Definition get_db : M DB := fun db => (Return db, db).
Definition put_db (db' : DB) : M unit := fun _ => (Return tt, db').

Notation "x <- c ;; k" := (bind c (fun x => k))
  (at level 61, c at next level, right associativity).
Notation "c ;;; k" := (bind c (fun _ => k))
  (at level 61, right associativity).

(* ================================================================== *)
(** * QuerySet operations used by the code                              *)
(* ================================================================== *)

(** [pk=k]: a row matches a key, never [None]. *)
Definition pk_is (k : option Z) (r : Appointment.t) : bool :=
  match Appointment.pk r, k with
  | Some i, Some j => i =? j
  | _, _ => false
  end.

(** [.exclude(pk=k)]. *)
Definition exclude_pk (k : option Z) (q : list Appointment.t)
  : list Appointment.t :=
  filter (fun r => negb (pk_is k r)) q.

(** [.exists()] and [.count()]. *)
Definition exists_ {A} (q : list A) : bool :=
  match q with [] => false | _ :: _ => true end.

Definition count {A} (q : list A) : Z := Z.of_nat (List.length q).

(** The condition of
    [filter(patient=p, appointment_date__date=d,
            status__in=['SCHEDULED', 'CONFIRMED', 'CHECKED_IN'])]. *)
Definition same_day_active (p : Z) (d : Date.t) (r : Appointment.t) : bool :=
  (Appointment.patient_id r =? p)
  && Date.eqb (DateTime.date (Appointment.appointment_date r)) d
  && status_in ACTIVE (Appointment.status r).

(** [Patient.objects.get(patient_id=value)], [None] for [DoesNotExist]. *)
Definition Patient_objects_get (value : string) (db : DB)
  : option Patient.t :=
  find (fun p => String.eqb (Patient.patient_id p) value) (patients db).

(** Python truthiness of an integer key. *)
Definition truthy (k : Z) : bool := negb (k =? 0).

(* ================================================================== *)
(** * models.py: [Appointment.clean] and [Appointment.save]             *)
(* ================================================================== *)

Definition clean (now : DateTime.t) (self : Appointment.t) : M unit :=
  (* Don't allow appointments in the past *)
  if DateTime.ltb (Appointment.appointment_date self) now
  then raise (ValidationError CannotSchedulePast)
  else
    (* Check for double-booking *)
    if truthy (Appointment.patient_id self) then
      db <- get_db ;;
      let overlapping :=
        exclude_pk (Appointment.pk self)
          (filter (same_day_active
                     (Appointment.patient_id self)
                     (DateTime.date (Appointment.appointment_date self)))
                  (appointments db)) in
      if exists_ overlapping
      then raise (ValidationError
                    (AlreadyHasAppointmentOnThisDate
                       (Appointment.patient_id self)))
      else ret tt
    else ret tt.

(** [Model.full_clean]: the field validators and the uniqueness of the
    key pass (see the conventions above); what remains is [clean]. *)
Definition full_clean (now : DateTime.t) (self : Appointment.t) : M unit :=
  clean now self.

(** [Model.save] of the framework: UPDATE the row with the object's key
    when there is one, INSERT otherwise; [auto_now_add] and [auto_now]
    stamp the row. *)
Definition super_save (now : DateTime.t) (self : Appointment.t)
  : M Appointment.t :=
  db <- get_db ;;
  match Appointment.pk self with
  | Some k =>
      if existsb (pk_is (Some k)) (appointments db) then
        let row :=
          Appointment.set_stamps (Appointment.created_at self) (Some now)
                                 self in
        put_db (mkDB (patients db)
                     (map (fun r => if pk_is (Some k) r then row else r)
                          (appointments db))
                     (patient_seq db) (appointment_seq db)) ;;;
        ret row
      else
        let row := Appointment.set_stamps (Some now) (Some now) self in
        put_db (mkDB (patients db) (appointments db ++ [row])
                     (patient_seq db)
                     (Z.max (appointment_seq db) (k + 1))) ;;;
        ret row
  | None =>
      let row :=
        Appointment.set_pk (Some (appointment_seq db))
          (Appointment.set_stamps (Some now) (Some now) self) in
      put_db (mkDB (patients db) (appointments db ++ [row])
                   (patient_seq db) (appointment_seq db + 1)) ;;;
      ret row
  end.

Definition save (now : DateTime.t) (self : Appointment.t)
  : M Appointment.t :=
  full_clean now self ;;;
  super_save now self.

(* ================================================================== *)
(** * serializers.py: [AppointmentSerializer]                           *)
(* ================================================================== *)

(** The writable fields of a request body; an absent key is [None]. *)
Record AppointmentData := mkData {
  d_patient_id : option string;
  d_appointment_date : option DateTime.t;
  d_exam_type : option exam_type_choice;
  d_status : option status_choice;
  d_referring_physician : option string;
  d_clinical_indication : option string;
  d_special_instructions : option string;
  d_duration_minutes : option Z;
  d_room_number : option string
}.

Definition or_default {A} (v : option A) (default : A) : A :=
  match v with Some x => x | None => default end.

Module AppointmentSerializer.

(** [validate_patient_id]: the value when the patient exists. *)
Definition validate_patient_id (db : DB) (value : string)
: string + message :=
match Patient_objects_get value db with
| Some patient => inl (Patient.patient_id patient)
| None => inr (PatientDoesNotExist value)
end.

(** [validate_appointment_date]. *)
Definition validate_appointment_date (now : DateTime.t) (value : DateTime.t)
: DateTime.t + message :=
if DateTime.ltb value now then inr CannotSchedulePast else inl value.

(** One field of [Serializer.to_internal_value]: a required field must
  be present unless the update is partial; a present value goes through
  the field's [validate_<name>]. *)
Definition field_errors {A} (name : string) (partial : bool)
  (v : option A) (validate_v : A -> A + message)
: list (string * message) :=
match v with
| None => if partial then [] else [(name, FieldRequired)]
| Some x =>
    match validate_v x with
    | inl _ => []
    | inr m => [(name, m)]
    end
end.

(** Field validation: the errors of all fields are collected and raised
    together.  The model fields without a default and not [blank] are the
    required ones. *)
Definition field_validation_errors (now : DateTime.t) (partial : bool)
    (data : AppointmentData) (db : DB) : list (string * message) :=
  field_errors "patient_id"%string partial (d_patient_id data)
               (validate_patient_id db)
  ++ field_errors "appointment_date"%string partial (d_appointment_date data)
                  (validate_appointment_date now)
  ++ field_errors "exam_type"%string partial (d_exam_type data) inl
  ++ field_errors "referring_physician"%string partial
                  (d_referring_physician data) inl.

Definition to_internal_value (now : DateTime.t) (partial : bool)
    (data : AppointmentData) : M AppointmentData :=
  db <- get_db ;;
  match field_validation_errors now partial data db with
  | [] => ret data
  | errors => raise (SerializerValidationError errors)
  end.

(** [validate]: cross-field validation.  [instance] is the object being
  updated, [None] on creation. *)
Definition validate (instance : option Appointment.t)
  (data : AppointmentData) : M AppointmentData :=
match d_patient_id data, d_appointment_date data with
| Some pid, Some dt =>
    db <- get_db ;;
    match Patient_objects_get pid db with
    | None => raise DoesNotExist
    | Some patient =>
        (* Check for existing appointments on same day *)
        let existing :=
          filter (same_day_active (Patient.pk patient) (DateTime.date dt))
                 (appointments db) in
        (* Exclude current appointment if updating *)
        let existing :=
          match instance with
          | Some i => exclude_pk (Appointment.pk i) existing
          | None => existing
          end in
        if exists_ existing
        then raise (SerializerValidationError
                      [("non_field_errors"%string,
                        AlreadyHasAppointmentOn pid (DateTime.date dt))])
        else ret data
    end
| _, _ => ret data
end.

(** [serializer.is_valid(raise_exception=True)]. *)
Definition is_valid (now : DateTime.t) (instance : option Appointment.t)
  (partial : bool) (data : AppointmentData) : M AppointmentData :=
value <- to_internal_value now partial data ;;
validate instance value.

(** The object [Appointment.objects.create] builds from the validated
    data: absent keys take the defaults of the model fields. *)
Definition new_appointment (patient_pk : Z) (dt : DateTime.t)
    (et : exam_type_choice) (rp : string)
    (validated_data : AppointmentData) : Appointment.t :=
  Appointment.mk None patient_pk dt et
    (or_default (d_status validated_data) SCHEDULED)
    rp
    (or_default (d_clinical_indication validated_data) EmptyString)
    (or_default (d_special_instructions validated_data) EmptyString)
    (or_default (d_duration_minutes validated_data) 30)
    (or_default (d_room_number validated_data) EmptyString)
    None None.

(** The instance after [setattr(instance, attr, value)] for every key of
    the validated data. *)
Definition set_attributes (instance : Appointment.t) (patient_pk : Z)
    (validated_data : AppointmentData) : Appointment.t :=
  Appointment.mk (Appointment.pk instance) patient_pk
    (or_default (d_appointment_date validated_data)
                (Appointment.appointment_date instance))
    (or_default (d_exam_type validated_data)
                (Appointment.exam_type instance))
    (or_default (d_status validated_data)
                (Appointment.status instance))
    (or_default (d_referring_physician validated_data)
                (Appointment.referring_physician instance))
    (or_default (d_clinical_indication validated_data)
                (Appointment.clinical_indication instance))
    (or_default (d_special_instructions validated_data)
                (Appointment.special_instructions instance))
    (or_default (d_duration_minutes validated_data)
                (Appointment.duration_minutes instance))
    (or_default (d_room_number validated_data)
                (Appointment.room_number instance))
    (Appointment.created_at instance)
    (Appointment.updated_at instance).

(** [create]: look the patient up, then [Appointment.objects.create] on
    the validated data, which builds the object and saves it. *)
Definition create (now : DateTime.t)
    (validated_data : AppointmentData) : M Appointment.t :=
  db <- get_db ;;
  match d_patient_id validated_data with
  | None => raise KeyError
  | Some patient_id =>
      match Patient_objects_get patient_id db with
      | None => raise DoesNotExist
      | Some patient =>
          match d_appointment_date validated_data,
                d_exam_type validated_data,
                d_referring_physician validated_data with
          | Some dt, Some et, Some rp =>
              save now
                (new_appointment (Patient.pk patient) dt et rp
                                 validated_data)
          | _, _, _ => raise (ValidationError FieldRequired)
          end
      end
  end.

(** [update]: look the patient up when one is given, assign every
    validated attribute to the instance, save it. *)
Definition update (now : DateTime.t) (instance : Appointment.t)
    (validated_data : AppointmentData) : M Appointment.t :=
  db <- get_db ;;
  match
    match d_patient_id validated_data with
    | Some patient_id =>
        option_map Patient.pk (Patient_objects_get patient_id db)
    | None => Some (Appointment.patient_id instance)
    end
  with
  | None => raise DoesNotExist
  | Some patient_pk =>
      save now (set_attributes instance patient_pk validated_data)
  end.

End AppointmentSerializer.

(* ================================================================== *)
(** * serializers.py: [PatientSerializer]                               *)
(* ================================================================== *)

Record PatientData := mkPatientData {
  pd_patient_id : string;
  pd_first_name : string;
  pd_last_name : string;
  pd_date_of_birth : Date.t;
  pd_phone : string;
  pd_email : option string
}.

(** The body of a PUT or PATCH of a patient; an absent key is [None],
    and [email] may be present and null. *)
Record PatientPatch := mkPatientPatch {
  pp_patient_id : option string;
  pp_first_name : option string;
  pp_last_name : option string;
  pp_date_of_birth : option Date.t;
  pp_phone : option string;
  pp_email : option (option string)
}.

(** The ASCII digits. *)
Definition is_digit (c : ascii) : bool :=
  let n := N_of_ascii c in ((48 <=? n) && (n <=? 57))%N.

(** The characters of a Python [str] are code points; [code_points]
    decodes the UTF-8 bytes of a [string].  A byte sequence that is not
    the encoding of a code point decodes to [-1], which no character
    class and no literal of a pattern matches. *)
Definition byte (c : ascii) : Z := Z.of_N (N_of_ascii c).

Definition continuation (c : ascii) : option Z :=
  if (128 <=? byte c) && (byte c <? 192) then Some (byte c - 128) else None.

(** UTF-8 admits the shortest encoding of a code point only. *)
Definition shortest (least cp : Z) : Z := if least <=? cp then cp else -1.

Fixpoint code_points (s : string) : list Z :=
  match s with
  | EmptyString => []
  | String c0 rest =>
      let b0 := byte c0 in
      if b0 <? 128 then b0 :: code_points rest
      else if (192 <=? b0) && (b0 <? 224) then
        match rest with
        | String c1 rest1 =>
            match continuation c1 with
            | Some x1 =>
                shortest 128 ((b0 - 192) * 64 + x1) :: code_points rest1
            | None => -1 :: code_points rest
            end
        | _ => -1 :: code_points rest
        end
      else if (224 <=? b0) && (b0 <? 240) then
        match rest with
        | String c1 (String c2 rest2) =>
            match continuation c1, continuation c2 with
            | Some x1, Some x2 =>
                shortest 2048 (((b0 - 224) * 64 + x1) * 64 + x2)
                :: code_points rest2
            | _, _ => -1 :: code_points rest
            end
        | _ => -1 :: code_points rest
        end
      else if (240 <=? b0) && (b0 <? 248) then
        match rest with
        | String c1 (String c2 (String c3 rest3)) =>
            match continuation c1, continuation c2, continuation c3 with
            | Some x1, Some x2, Some x3 =>
                shortest 65536
                  ((((b0 - 240) * 64 + x1) * 64 + x2) * 64 + x3)
                :: code_points rest3
            | _, _, _ => -1 :: code_points rest
            end
        | _ => -1 :: code_points rest
        end
      else -1 :: code_points rest
  end.

(** The class [\d] of a [str] pattern: the code points of category Nd,
    the decimal digits of every script, as ranges (the table of Unicode
    14.0, the one of CPython 3.11). *)
Definition decimal_digits : list (Z * Z) :=
  [(48, 57); (1632, 1641); (1776, 1785); (1984, 1993); (2406, 2415);
   (2534, 2543); (2662, 2671); (2790, 2799); (2918, 2927); (3046, 3055);
   (3174, 3183); (3302, 3311); (3430, 3439); (3558, 3567); (3664, 3673);
   (3792, 3801); (3872, 3881); (4160, 4169); (4240, 4249); (6112, 6121);
   (6160, 6169); (6470, 6479); (6608, 6617); (6784, 6793); (6800, 6809);
   (6992, 7001); (7088, 7097); (7232, 7241); (7248, 7257); (42528, 42537);
   (43216, 43225); (43264, 43273); (43472, 43481); (43504, 43513);
   (43600, 43609); (44016, 44025); (65296, 65305); (66720, 66729);
   (68912, 68921); (69734, 69743); (69872, 69881); (69942, 69951);
   (70096, 70105); (70384, 70393); (70736, 70745); (70864, 70873);
   (71248, 71257); (71360, 71369); (71472, 71481); (71904, 71913);
   (72016, 72025); (72784, 72793); (73040, 73049); (73120, 73129);
   (92768, 92777); (92864, 92873); (93008, 93017); (120782, 120831);
   (123200, 123209); (123632, 123641); (125264, 125273); (130032, 130041)].

Definition is_decimal (cp : Z) : bool :=
  existsb (fun r => (fst r <=? cp) && (cp <=? snd r)) decimal_digits.

(** [phone_regex]: [^\d{3}-\d{3}-\d{4}$] searched in the value.  [$]
    matches at the end of the value and before a newline that ends
    it. *)
Definition phone_regex (s : string) : bool :=
  match code_points s with
  | a1 :: a2 :: a3 :: d1 :: b1 :: b2 :: b3 :: d2 :: c1 :: c2 :: c3 :: c4
    :: rest =>
      forallb is_decimal [a1; a2; a3; b1; b2; b3; c1; c2; c3; c4]
      && (d1 =? 45) && (d2 =? 45)
      && match rest with
         | [] => true
         | [c] => c =? 10
         | _ => false
         end
  | _ => false
  end.

Module PatientSerializer.

(** [validate_patient_id]. *)
Definition validate_patient_id (value : string) : string + message :=
  if negb (String.prefix "PT"%string value)
  then inr PatientIdMustStartWithPT
  else inl value.

(** [validate_date_of_birth], with [today = timezone.now().date()]. *)
Definition validate_date_of_birth (today : Date.t) (value : Date.t)
  : Date.t + message :=
  if Date.gtb value today then inr DateOfBirthInFuture else inl value.

(** The validator of the unique [patient_id] column. *)
Definition unique_patient_id (db : DB) (value : string)
  : string + message :=
  match Patient_objects_get value db with
  | Some _ => inr NotUnique
  | None => inl value
  end.

Definition validate_phone (value : string) : string + message :=
  if phone_regex value then inl value else inr PhoneFormat.

Definition errors_of {A} (name : string) (r : A + message)
  : list (string * message) :=
  match r with inl _ => [] | inr m => [(name, m)] end.

Definition is_valid (now : DateTime.t) (data : PatientData)
  : M PatientData :=
  db <- get_db ;;
  let errors :=
    errors_of "patient_id"%string
      (match unique_patient_id db (pd_patient_id data) with
       | inl v => validate_patient_id v
       | inr m => inr m
       end)
    ++ errors_of "date_of_birth"%string
         (validate_date_of_birth (DateTime.date now)
                                 (pd_date_of_birth data))
    ++ errors_of "phone"%string (validate_phone (pd_phone data)) in
  match errors with
  | [] => ret data
  | _ :: _ => raise (SerializerValidationError errors)
  end.

(** [Patient.objects.create]: [Patient.save] is the framework's. *)
Definition create (validated_data : PatientData) : M Patient.t :=
  db <- get_db ;;
  let row :=
    Patient.mk (patient_seq db)
      (pd_patient_id validated_data) (pd_first_name validated_data)
      (pd_last_name validated_data) (pd_date_of_birth validated_data)
      (pd_phone validated_data) (pd_email validated_data) in
  put_db (mkDB (patients db ++ [row]) (appointments db)
               (patient_seq db + 1) (appointment_seq db)) ;;;
  ret row.

(** The validator of the unique column when the serializer has an
    instance: the row of the instance is left out of the query. *)
Definition unique_patient_id_except (db : DB) (instance : Patient.t)
    (value : string) : string + message :=
  match
    find (fun p => String.eqb (Patient.patient_id p) value
                   && negb (Patient.pk p =? Patient.pk instance))
         (patients db)
  with
  | Some _ => inr NotUnique
  | None => inl value
  end.

(** Field validation of the serializer of an update: the model fields
    without [blank] are required unless the update is partial. *)
Definition update_errors (now : DateTime.t) (instance : Patient.t)
    (partial : bool) (data : PatientPatch) (db : DB)
  : list (string * message) :=
  AppointmentSerializer.field_errors "patient_id"%string partial
    (pp_patient_id data)
    (fun value =>
       match unique_patient_id_except db instance value with
       | inl v => validate_patient_id v
       | inr m => inr m
       end)
  ++ AppointmentSerializer.field_errors "first_name"%string partial
       (pp_first_name data) inl
  ++ AppointmentSerializer.field_errors "last_name"%string partial
       (pp_last_name data) inl
  ++ AppointmentSerializer.field_errors "date_of_birth"%string partial
       (pp_date_of_birth data) (validate_date_of_birth (DateTime.date now))
  ++ AppointmentSerializer.field_errors "phone"%string partial
       (pp_phone data) validate_phone.

Definition is_valid_update (now : DateTime.t) (instance : Patient.t)
    (partial : bool) (data : PatientPatch) : M PatientPatch :=
  db <- get_db ;;
  match update_errors now instance partial data db with
  | [] => ret data
  | errors => raise (SerializerValidationError errors)
  end.

(** The instance after [setattr(instance, attr, value)] for every key of
    the validated data. *)
Definition set_attributes (instance : Patient.t)
    (validated_data : PatientPatch) : Patient.t :=
  Patient.mk (Patient.pk instance)
    (or_default (pp_patient_id validated_data) (Patient.patient_id instance))
    (or_default (pp_first_name validated_data) (Patient.first_name instance))
    (or_default (pp_last_name validated_data) (Patient.last_name instance))
    (or_default (pp_date_of_birth validated_data)
                (Patient.date_of_birth instance))
    (or_default (pp_phone validated_data) (Patient.phone instance))
    (or_default (pp_email validated_data) (Patient.email instance)).

(** [ModelSerializer.update]: assign the attributes, then
    [instance.save()], the framework's: the row of the key is
    overwritten. *)
Definition update (instance : Patient.t) (validated_data : PatientPatch)
  : M Patient.t :=
  db <- get_db ;;
  let row := set_attributes instance validated_data in
  put_db (mkDB (map (fun p => if Patient.pk p =? Patient.pk instance
                              then row else p)
                    (patients db))
               (appointments db) (patient_seq db) (appointment_seq db)) ;;;
  ret row.

End PatientSerializer.

(* ================================================================== *)
(** * views.py                                                          *)
(* ================================================================== *)

Module Stats.
(** The dictionary [statistics] returns. *)
Record t := mk {
  total_appointments : Z;
  today : Z;
  upcoming : Z;
  by_status : list (status_choice * Z);
  by_exam_type : list (exam_type_choice * Z)
}.
End Stats.

Inductive body :=
| ErrorBody (error : string)
| AppointmentBody (a : Appointment.t)
| AppointmentListBody (l : list Appointment.t)
| PatientBody (p : Patient.t)
| StatsBody (s : Stats.t)
| NoContent.

Record Response := mkResponse { data : body; status_code : Z }.

Definition HTTP_200_OK : Z := 200.
Definition HTTP_201_CREATED : Z := 201.
Definition HTTP_204_NO_CONTENT : Z := 204.
Definition HTTP_400_BAD_REQUEST : Z := 400.

(** [values(key).annotate(count=Count('id'))]: one group per key value
    that occurs, with the number of its rows. *)
Fixpoint bump {K} (eqb : K -> K -> bool) (k : K) (groups : list (K * Z))
  : list (K * Z) :=
  match groups with
  | [] => [(k, 1)]
  | (k', n) :: rest =>
      if eqb k' k then (k', n + 1) :: rest else (k', n) :: bump eqb k rest
  end.

Definition group_count {K} (eqb : K -> K -> bool)
    (key : Appointment.t -> K) (q : list Appointment.t) : list (K * Z) :=
  fold_left (fun groups r => bump eqb (key r) groups) q [].

(** Reading a key of a [dict] built from pairs. *)
Fixpoint dict_get {K V} (eqb : K -> K -> bool) (k : K) (d : list (K * V))
  : option V :=
  match d with
  | [] => None
  | (k', v) :: rest => if eqb k' k then Some v else dict_get eqb k rest
  end.

(** [.order_by('appointment_date')]: rows with equal date-times keep
    their table order. *)
Fixpoint insert_by_date (r : Appointment.t) (sorted : list Appointment.t)
  : list Appointment.t :=
  match sorted with
  | [] => [r]
  | x :: rest =>
      if DateTime.leb (Appointment.appointment_date r)
                      (Appointment.appointment_date x)
      then r :: x :: rest
      else x :: insert_by_date r rest
  end.

Definition order_by_appointment_date (q : list Appointment.t)
  : list Appointment.t :=
  fold_right insert_by_date [] q.

(** [get_object]: the row with the key of the URL, 404 without one. *)
Definition get_object (pk : Z) : M Appointment.t :=
  db <- get_db ;;
  match find (pk_is (Some pk)) (appointments db) with
  | Some appointment => ret appointment
  | None => raise Http404
  end.

(** The value a status is stored and filtered by. *)
Definition status_value (s : status_choice) : string :=
  match s with
  | SCHEDULED => "SCHEDULED"
  | CONFIRMED => "CONFIRMED"
  | CHECKED_IN => "CHECKED_IN"
  | IN_PROGRESS => "IN_PROGRESS"
  | COMPLETED => "COMPLETED"
  | NO_SHOW => "NO_SHOW"
  | CANCELLED => "CANCELLED"
  end.

(** [patient.appointments]: the related manager of the foreign key, in
    the default ordering of the model ([Meta.ordering]). *)
Definition patient_appointments (patient : Patient.t) (db : DB)
  : list Appointment.t :=
  order_by_appointment_date
    (filter (fun r => Appointment.patient_id r =? Patient.pk patient)
            (appointments db)).

(** [PatientSerializer.get_appointment_count]. *)
Definition get_appointment_count (obj : Patient.t) (db : DB) : Z :=
  count (patient_appointments obj db).

Module PatientViewSet.

(** POST /api/patients/ *)
Definition create (now : DateTime.t) (data : PatientData) : M Response :=
  validated_data <- PatientSerializer.is_valid now data ;;
  patient <- PatientSerializer.create validated_data ;;
  ret (mkResponse (PatientBody patient) HTTP_201_CREATED).

(** [get_object]: the patient with the key of the URL, 404 without
    one. *)
Definition get_object (pk : Z) : M Patient.t :=
  db <- get_db ;;
  match find (fun p => Patient.pk p =? pk) (patients db) with
  | Some patient => ret patient
  | None => raise Http404
  end.

(** PUT ([partial = false]) and PATCH ([partial = true])
    /api/patients/{id}/, the [update] of [ModelViewSet]. *)
Definition update (now : DateTime.t) (pk : Z) (partial : bool)
    (data : PatientPatch) : M Response :=
  instance <- get_object pk ;;
  validated_data <-
    PatientSerializer.is_valid_update now instance partial data ;;
  patient <- PatientSerializer.update instance validated_data ;;
  ret (mkResponse (PatientBody patient) HTTP_200_OK).

(** DELETE /api/patients/{id}/, the [destroy] of [ModelViewSet]:
    [instance.delete()] takes the appointments of the patient with it
    ([on_delete=models.CASCADE]). *)
Definition destroy (pk : Z) : M Response :=
  instance <- get_object pk ;;
  db <- get_db ;;
  put_db (mkDB (filter (fun p => negb (Patient.pk p =? Patient.pk instance))
                       (patients db))
               (filter (fun r => negb (Appointment.patient_id r
                                       =? Patient.pk instance))
                       (appointments db))
               (patient_seq db) (appointment_seq db)) ;;;
  ret (mkResponse NoContent HTTP_204_NO_CONTENT).

(** GET /api/patients/{id}/upcoming_appointments/ *)
Definition upcoming_appointments (now : DateTime.t) (pk : Z) : M Response :=
  patient <- get_object pk ;;
  db <- get_db ;;
  let upcoming :=
    order_by_appointment_date
      (filter (fun r =>
                 DateTime.geb (Appointment.appointment_date r) now
                 && status_in [SCHEDULED; CONFIRMED] (Appointment.status r))
              (patient_appointments patient db)) in
  ret (mkResponse (AppointmentListBody upcoming) HTTP_200_OK).

(** GET /api/patients/{id}/appointments/?status=...; [status_filter] is
    the raw query parameter, [None] without one.  An empty string is
    falsy and filters nothing. *)
Definition appointments (pk : Z) (status_filter : option string)
  : M Response :=
  patient <- get_object pk ;;
  db <- get_db ;;
  let appointments := patient_appointments patient db in
  let appointments :=
    match status_filter with
    | Some (String c rest) =>
        filter (fun r =>
                  String.eqb (status_value (Appointment.status r))
                             (String c rest))
               appointments
    | _ => appointments
    end in
  ret (mkResponse (AppointmentListBody appointments) HTTP_200_OK).

End PatientViewSet.

Module AppointmentViewSet.

(** POST /api/appointments/ *)
Definition create (now : DateTime.t) (data : AppointmentData)
  : M Response :=
  validated_data <- AppointmentSerializer.is_valid now None false data ;;
  appointment <- AppointmentSerializer.create now validated_data ;;
  ret (mkResponse (AppointmentBody appointment) HTTP_201_CREATED).

(** PUT ([partial = false]) and PATCH ([partial = true])
    /api/appointments/{id}/ *)
Definition update (now : DateTime.t) (pk : Z) (partial : bool)
    (data : AppointmentData) : M Response :=
  instance <- get_object pk ;;
  validated_data <-
    AppointmentSerializer.is_valid now (Some instance) partial data ;;
  appointment <-
    AppointmentSerializer.update now instance validated_data ;;
  ret (mkResponse (AppointmentBody appointment) HTTP_200_OK).

(** GET /api/appointments/today/ *)
Definition today (now : DateTime.t) : M Response :=
  db <- get_db ;;
  let today := DateTime.date now in
  let today_appointments :=
    order_by_appointment_date
      (filter (fun r =>
                 Date.eqb (DateTime.date (Appointment.appointment_date r))
                          today)
              (appointments db)) in
  ret (mkResponse (AppointmentListBody today_appointments) HTTP_200_OK).

(** GET /api/appointments/upcoming/?days=N; [days] is the parsed query
    parameter, [None] without one. *)
Definition upcoming (now : DateTime.t) (days : option Z) : M Response :=
  let days := or_default days 7 in
  match DateTime.add_days now days with
  | None => raise OverflowError
  | Some end_date =>
      db <- get_db ;;
      let upcoming :=
        order_by_appointment_date
          (filter (fun r =>
                     DateTime.leb now (Appointment.appointment_date r)
                     && DateTime.leb (Appointment.appointment_date r)
                                     end_date
                     && status_in [SCHEDULED; CONFIRMED]
                                  (Appointment.status r))
                  (appointments db)) in
      ret (mkResponse (AppointmentListBody upcoming) HTTP_200_OK)
  end.

(** GET /api/appointments/statistics/ *)
Definition statistics (now : DateTime.t) : M Response :=
  db <- get_db ;;
  let total := count (appointments db) in
  let by_status :=
    group_count status_eqb Appointment.status (appointments db) in
  let by_exam_type :=
    group_count exam_type_eqb Appointment.exam_type (appointments db) in
  let today_count :=
    count (filter (fun r =>
                     Date.eqb
                       (DateTime.date (Appointment.appointment_date r))
                       (DateTime.date now))
                  (appointments db)) in
  let upcoming_count :=
    count (filter (fun r =>
                     DateTime.geb (Appointment.appointment_date r) now
                     && status_in [SCHEDULED; CONFIRMED]
                                  (Appointment.status r))
                  (appointments db)) in
  ret (mkResponse
         (StatsBody (Stats.mk total today_count upcoming_count
                              by_status by_exam_type))
         HTTP_200_OK).

(** POST /api/appointments/{id}/check_in/ *)
Definition check_in (now : DateTime.t) (pk : Z) : M Response :=
  appointment <- get_object pk ;;
  if negb (status_eqb (Appointment.status appointment) CONFIRMED) then
    ret (mkResponse (ErrorBody "Can only check in confirmed appointments")
                    HTTP_400_BAD_REQUEST)
  else
    let appointment := Appointment.set_status CHECKED_IN appointment in
    appointment <- save now appointment ;;
    ret (mkResponse (AppointmentBody appointment) HTTP_200_OK).

(** POST /api/appointments/{id}/complete/ *)
Definition complete (now : DateTime.t) (pk : Z) : M Response :=
  appointment <- get_object pk ;;
  if negb (status_in [CHECKED_IN; IN_PROGRESS]
                     (Appointment.status appointment)) then
    ret (mkResponse
           (ErrorBody
              "Can only complete checked-in or in-progress appointments")
           HTTP_400_BAD_REQUEST)
  else
    let appointment := Appointment.set_status COMPLETED appointment in
    appointment <- save now appointment ;;
    ret (mkResponse (AppointmentBody appointment) HTTP_200_OK).

(** POST /api/appointments/{id}/cancel/ *)
Definition cancel (now : DateTime.t) (pk : Z) : M Response :=
  appointment <- get_object pk ;;
  if status_eqb (Appointment.status appointment) COMPLETED then
    ret (mkResponse (ErrorBody "Cannot cancel completed appointments")
                    HTTP_400_BAD_REQUEST)
  else
    let appointment := Appointment.set_status CANCELLED appointment in
    appointment <- save now appointment ;;
    ret (mkResponse (AppointmentBody appointment) HTTP_200_OK).

(** DELETE /api/appointments/{id}/, the [destroy] of [ModelViewSet]. *)
Definition destroy (pk : Z) : M Response :=
  instance <- get_object pk ;;
  db <- get_db ;;
  put_db (mkDB (patients db)
               (exclude_pk (Appointment.pk instance) (appointments db))
               (patient_seq db) (appointment_seq db)) ;;;
  ret (mkResponse NoContent HTTP_204_NO_CONTENT).

End AppointmentViewSet.

(* ================================================================== *)
(** * urls.py: the requests the router dispatches                       *)
(* ================================================================== *)

(** The requests that can write: POST, PUT, PATCH and DELETE on the two
    routes of the router and the POST actions.  The GET requests are
    the views above; they leave the store as it is. *)
Inductive request :=
| RegisterPatient (data : PatientData)
| Create (data : AppointmentData)
| Update (pk : Z) (partial : bool) (data : AppointmentData)
| CheckIn (pk : Z)
| Complete (pk : Z)
| Cancel (pk : Z)
| Destroy (pk : Z)
| UpdatePatient (pk : Z) (partial : bool) (data : PatientPatch)
| DestroyPatient (pk : Z).

Definition handle (now : DateTime.t) (r : request) : M Response :=
  match r with
  | RegisterPatient data => PatientViewSet.create now data
  | Create data => AppointmentViewSet.create now data
  | Update pk partial data => AppointmentViewSet.update now pk partial data
  | CheckIn pk => AppointmentViewSet.check_in now pk
  | Complete pk => AppointmentViewSet.complete now pk
  | Cancel pk => AppointmentViewSet.cancel now pk
  | Destroy pk => AppointmentViewSet.destroy pk
  | UpdatePatient pk partial data =>
      PatientViewSet.update now pk partial data
  | DestroyPatient pk => PatientViewSet.destroy pk
  end.

(** The store after a sequence of timed requests. *)
Fixpoint run (trace : list (DateTime.t * request)) (db : DB) : DB :=
  match trace with
  | [] => db
  | (now, r) :: rest => run rest (snd (handle now r db))
  end.

(** A store is reachable when requests lead to it from the empty one. *)
Inductive reachable : DB -> Prop :=
| reachable_empty : reachable empty_db
| reachable_step db now r :
    reachable db -> reachable (snd (handle now r db)).

(* ================================================================== *)
(** * management/commands/generate_sample_data.py                       *)
(* ================================================================== *)

(** Python's [str] of an integer, as f-strings format it. *)
Definition str (n : Z) : string := NilZero.string_of_int (Z.to_int n).

(** [needle in hay] on strings. *)
Fixpoint contains (needle hay : string) : bool :=
  String.prefix needle hay
  || match hay with
     | EmptyString => false
     | String _ rest => contains needle rest
     end.

(** The stored value of an exam type. *)
Definition exam_type_value (e : exam_type_choice) : string :=
  match e with
  | MRI_BRAIN => "MRI_BRAIN"
  | MRI_SPINE => "MRI_SPINE"
  | MRI_KNEE => "MRI_KNEE"
  | MRI_SHOULDER => "MRI_SHOULDER"
  | MRI_ABDOMEN => "MRI_ABDOMEN"
  | CT_HEAD => "CT_HEAD"
  | CT_CHEST => "CT_CHEST"
  | CT_ABDOMEN => "CT_ABDOMEN"
  | XRAY_CHEST => "XRAY_CHEST"
  | XRAY_SPINE => "XRAY_SPINE"
  | ULTRASOUND => "ULTRASOUND"
  end.

(** The random generator.  What [random] and [Faker] return is an input
    of the model, the draw; [randint] and [choice] take a draw of any
    value to a value of their range, and every value of the range is the
    image of some draw.  [choice] of an empty sequence is [None], Python's
    [IndexError]. *)
Definition randint (a b : Z) (draw : Z) : Z := a + draw mod (b - a + 1).

Definition choice {A} (seq : list A) (draw : nat) : option A :=
  nth_error seq (draw mod List.length seq).

Record PatientDraw := mkPatientDraw {
  fake_first_name : string;
  fake_last_name : string;
  fake_date_of_birth : Date.t;
  phone_draw1 : Z;
  phone_draw2 : Z;
  phone_draw3 : Z;
  fake_email : string;
  email_coin : bool        (* random.random() > 0.3 *)
}.

Record AppointmentDraw := mkAppointmentDraw {
  offset_draw : Z;
  hour_draw : Z;
  minute_draw : nat;
  status_draw : nat;
  exam_type_draw : nat;
  duration_draw : nat;
  patient_draw : nat;
  physician_draw : nat;
  indication_draw : nat;
  room_draw : Z;
  room_coin : bool         (* random.random() > 0.5 *)
}.

Module Command.

Inductive error := IndexError | DateOverflowError.

Inductive result := Done | Failed (e : error).

Definition exam_types : list exam_type_choice :=
  [MRI_BRAIN; MRI_SPINE; MRI_KNEE; MRI_SHOULDER; MRI_ABDOMEN;
   CT_HEAD; CT_CHEST; CT_ABDOMEN; XRAY_CHEST; XRAY_SPINE; ULTRASOUND].

Definition physicians : list string :=
  ["Dr. Smith"; "Dr. Johnson"; "Dr. Williams"; "Dr. Brown"; "Dr. Davis";
   "Dr. Miller"]%string.

Definition clinical_indications : list string :=
  ["r/o fracture"; "chronic pain"; "follow-up"; "post-operative evaluation";
   "r/o herniated disc"; "r/o rotator cuff tear"; "screening";
   "trauma evaluation"]%string.

(** The keys of the two [status_weights] dictionaries; every weight is
    positive, so [random.choices] can return each key. *)
Definition past_statuses : list status_choice :=
  [COMPLETED; NO_SHOW; CANCELLED].

Definition future_statuses : list status_choice :=
  [SCHEDULED; CONFIRMED; CANCELLED].

(** The patient of round [i]: [Patient.objects.create], which saves
    without validating. *)
Definition new_patient (i : Z) (d : PatientDraw) (db : DB) : Patient.t :=
  Patient.mk (patient_seq db)
    ("PT" ++ str (1000 + i))
    (fake_first_name d) (fake_last_name d) (fake_date_of_birth d)
    (str (randint 200 999 (phone_draw1 d)) ++ "-"
     ++ str (randint 200 999 (phone_draw2 d)) ++ "-"
     ++ str (randint 1000 9999 (phone_draw3 d)))
    (if email_coin d then Some (fake_email d) else None).

Fixpoint create_patients (i : Z) (draws : list PatientDraw) (db : DB)
  : list Patient.t * DB :=
  match draws with
  | [] => ([], db)
  | d :: rest =>
      let patient := new_patient i d db in
      let db1 := mkDB (patients db ++ [patient]) (appointments db)
                      (patient_seq db + 1) (appointment_seq db) in
      let (created, db2) := create_patients (i + 1) rest db1 in
      (patient :: created, db2)
  end.

(** Duration varies by exam type. *)
Definition duration_choices (exam_type : exam_type_choice) : list Z :=
  if contains "MRI" (exam_type_value exam_type) then [30; 45; 60]
  else if contains "CT" (exam_type_value exam_type) then [15; 20; 30]
  else [10; 15; 20].

(** One round of the appointment loop. *)
Definition new_appointment (now start_date : DateTime.t)
    (patients : list Patient.t) (d : AppointmentDraw)
  : error + Appointment.t :=
  (* Random date within range *)
  let days_offset := randint 0 90 (offset_draw d) - 30 in
  match DateTime.add_days start_date days_offset with
  | None => inl DateOverflowError
  | Some appointment_date =>
      (* Business hours: 7 AM - 6 PM *)
      let hour := randint 7 18 (hour_draw d) in
      match choice [0; 15; 30; 45] (minute_draw d) with
      | None => inl IndexError
      | Some minute =>
          let appointment_date :=
            at_time (DateTime.date appointment_date) hour minute in
          (* Determine status based on date *)
          let status_keys :=
            if DateTime.ltb appointment_date now
            then past_statuses else future_statuses in
          match choice status_keys (status_draw d),
                choice exam_types (exam_type_draw d) with
          | Some status, Some exam_type =>
              match choice (duration_choices exam_type) (duration_draw d),
                    choice patients (patient_draw d),
                    choice physicians (physician_draw d),
                    choice clinical_indications (indication_draw d) with
              | Some duration, Some patient, Some physician,
                Some indication =>
                  inr (Appointment.mk None (Patient.pk patient)
                         appointment_date exam_type status physician
                         indication EmptyString duration
                         (if room_coin d
                          then "RM-" ++ str (randint 1 5 (room_draw d))
                          else EmptyString)
                         None None)
              | _, _, _, _ => inl IndexError
              end
          | _, _ => inl IndexError
          end
      end
  end.

Fixpoint new_appointments (now start_date : DateTime.t)
    (patients : list Patient.t) (draws : list AppointmentDraw)
  : error + list Appointment.t :=
  match draws with
  | [] => inr []
  | d :: rest =>
      match new_appointment now start_date patients d with
      | inl e => inl e
      | inr appointment =>
          match new_appointments now start_date patients rest with
          | inl e => inl e
          | inr appointments => inr (appointment :: appointments)
          end
      end
  end.

(** [Appointment.objects.bulk_create]: the rows are inserted as they are,
    under the next keys; [save] and [clean] are not called. *)
Fixpoint bulk_create (now : DateTime.t) (objs : list Appointment.t)
    (db : DB) : DB :=
  match objs with
  | [] => db
  | obj :: rest =>
      bulk_create now rest
        (mkDB (patients db)
              (appointments db
               ++ [Appointment.set_pk (Some (appointment_seq db))
                     (Appointment.set_stamps (Some now) (Some now) obj)])
              (patient_seq db) (appointment_seq db + 1))
  end.

(** [handle]: one draw per patient and per appointment to generate
    ([--patients], [--appointments]).  As in the views, [now] stands for
    every [timezone.now()] of the run.  The statistics it prints at the
    end read the store and are left out. *)
Definition handle (now : DateTime.t) (patient_draws : list PatientDraw)
    (appointment_draws : list AppointmentDraw) (db : DB) : result * DB :=
  (* Clear existing data *)
  let db := mkDB [] [] (patient_seq db) (appointment_seq db) in
  (* Generate patients *)
  let (patients, db) := create_patients 0 patient_draws db in
  (* Create appointments spanning from 30 days ago to 60 days ahead *)
  match DateTime.add_days now (-30), DateTime.add_days now 60 with
  | Some start_date, Some end_date =>
      match new_appointments now start_date patients appointment_draws with
      | inl e => (Failed e, db)
      | inr appointments =>
          (* Bulk create (skip validation for sample data) *)
          (Done, bulk_create now appointments db)
      end
  | _, _ => (Failed DateOverflowError, db)
  end.

End Command.

(* ================================================================== *)
(** * Vocabulary of the specification                                   *)
(* ================================================================== *)

(** The active statuses, in the words of the specification. *)
Definition active (s : status_choice) : Prop :=
  s = SCHEDULED \/ s = CONFIRMED \/ s = CHECKED_IN.

(** Some appointment other than the excluded record is active for
    patient [p] on calendar date [d]. *)
Definition other_active_exists (db : DB) (p : Z) (d : Date.t)
    (excluded : option Z) : Prop :=
  exists r,
    In r (appointments db)
    /\ Appointment.pk r <> excluded
    /\ Appointment.patient_id r = p
    /\ DateTime.date (Appointment.appointment_date r) = d
    /\ active (Appointment.status r).

(** The number of active appointments of patient [p] on date [d]. *)
Definition active_on (db : DB) (p : Z) (d : Date.t) : nat :=
  List.length (filter (same_day_active p d) (appointments db)).

(** At most one active appointment per patient and calendar date. *)
Definition no_double_booking (db : DB) : Prop :=
  forall p d, (active_on db p d <= 1)%nat.

(** The two validation errors and the double-booking ones among them. *)
Definition is_validation_error (e : exn) : bool :=
  match e with
  | SerializerValidationError _ | ValidationError _ => true
  | _ => false
  end.

Definition is_conflict_error (e : exn) : bool :=
  match e with
  | SerializerValidationError [(_, AlreadyHasAppointmentOn _ _)]
  | ValidationError (AlreadyHasAppointmentOnThisDate _) => true
  | _ => false
  end.

(** The past-date error: the field error of [appointment_date] among
    those of the serializer, or the error of [clean]. *)
Definition is_past_date_error (e : exn) : bool :=
  match e with
  | SerializerValidationError errors =>
      existsb (fun fm =>
                 String.eqb (fst fm) "appointment_date"
                 && match snd fm with
                    | CannotSchedulePast => true
                    | _ => false
                    end)
              errors
  | ValidationError CannotSchedulePast => true
  | _ => false
  end.

Definition rejected_with {A} (kind : exn -> bool) (r : outcome A * DB)
  : Prop :=
  match fst r with
  | Raise e => kind e = true
  | Return _ => False
  end.

(** The status transitions the views expose, with the source states the
    specification allows and the state each leads to. *)
Inductive transition := check_in | complete | cancel.

Definition transition_view (t : transition)
  : DateTime.t -> Z -> M Response :=
  match t with
  | check_in => AppointmentViewSet.check_in
  | complete => AppointmentViewSet.complete
  | cancel => AppointmentViewSet.cancel
  end.

Definition allowed_from (t : transition) (s : status_choice) : Prop :=
  match t with
  | check_in => s = CONFIRMED
  | complete => s = CHECKED_IN \/ s = IN_PROGRESS
  | cancel => s <> COMPLETED
  end.

Definition target (t : transition) : status_choice :=
  match t with
  | check_in => CHECKED_IN
  | complete => COMPLETED
  | cancel => CANCELLED
  end.

(** Well-formed stores: keys are positive, below the next key and
    distinct, and every appointment refers to a patient key. *)
Record wf (db : DB) : Prop := mk_wf {
  wf_pks :
    forall r, In r (appointments db) ->
      exists k, Appointment.pk r = Some k /\ 1 <= k < appointment_seq db;
  wf_nodup : NoDup (map Appointment.pk (appointments db));
  wf_fk :
    forall r, In r (appointments db) -> Appointment.patient_id r <> 0;
  wf_patients :
    forall p, In p (patients db) -> 1 <= Patient.pk p < patient_seq db;
  wf_seqs : 1 <= patient_seq db /\ 1 <= appointment_seq db
}.

(** The objects the views save: they refer to a patient key, and are
    either new or carry the key of a stored row. *)
Definition savable (self : Appointment.t) (db : DB) : Prop :=
  Appointment.patient_id self <> 0
  /\ (Appointment.pk self = None
      \/ exists k,
           Appointment.pk self = Some k
           /\ existsb (pk_is (Some k)) (appointments db) = true).

(** The double-booking query both layers run: the active appointments
    of patient [p] on the day of [dt], the excluded record apart. *)
Definition overlapping (db : DB) (p : Z) (dt : DateTime.t)
    (excluded : option Z) : list Appointment.t :=
  exclude_pk excluded
    (filter (same_day_active p (DateTime.date dt)) (appointments db)).

(** Creates and updates: the writes of the specification. *)
Inductive write :=
| WCreate (data : AppointmentData)
| WUpdate (pk : Z) (partial : bool) (data : AppointmentData).

Definition request_of (w : write) : request :=
  match w with
  | WCreate data => Create data
  | WUpdate pk partial data => Update pk partial data
  end.

Definition required_present (data : AppointmentData) : bool :=
  match d_patient_id data, d_appointment_date data,
        d_exam_type data, d_referring_physician data with
  | Some _, Some _, Some _, Some _ => true
  | _, _, _, _ => false
  end.

(** The patient a write books for: the one its body names, or the one
    of the updated record. *)
Definition patient_of (data : AppointmentData) (fallback : option Z)
    (db : DB) : option Z :=
  match d_patient_id data with
  | Some patient_id =>
      option_map Patient.pk (Patient_objects_get patient_id db)
  | None => fallback
  end.

(** The candidate appointment of a write: patient, scheduled date-time
    and excluded record.  There is none when the body lacks a required
    field or names an unknown patient, or when the updated record does
    not exist. *)
Definition candidate (w : write) (db : DB)
  : option (Z * DateTime.t * option Z) :=
  match w with
  | WCreate data =>
      if required_present data then
        match patient_of data None db, d_appointment_date data with
        | Some p, Some dt => Some (p, dt, None)
        | _, _ => None
        end
      else None
  | WUpdate pk partial data =>
      match find (pk_is (Some pk)) (appointments db) with
      | Some instance =>
          if partial || required_present data then
            match patient_of data
                    (Some (Appointment.patient_id instance)) db with
            | Some p =>
                Some (p,
                      or_default (d_appointment_date data)
                        (Appointment.appointment_date instance),
                      Some pk)
            | None => None
            end
          else None
      | None => None
      end
  end.

(** The scheduled date-time a write would store. *)
Definition scheduled (w : write) (db : DB) : option DateTime.t :=
  match w with
  | WCreate data => d_appointment_date data
  | WUpdate pk _ data =>
      match find (pk_is (Some pk)) (appointments db) with
      | Some instance =>
          Some (or_default (d_appointment_date data)
                  (Appointment.appointment_date instance))
      | None => None
      end
  end.

(** The conflict rule as the specification words it: in a reachable
    store, a write is rejected with the double-booking error exactly
    when another active appointment of the patient falls on the day. *)
Definition conflict_rule (now : DateTime.t) (w : write) (db : DB) : Prop :=
  reachable db ->
  forall p dt ex,
    candidate w db = Some (p, dt, ex) ->
    (rejected_with is_conflict_error (handle now (request_of w) db)
     <-> other_active_exists db p (DateTime.date dt) ex).

(** "Initial state on creation: SCHEDULED", for whatever the body holds. *)
Definition created_as_scheduled (now : DateTime.t)
    (request_body : AppointmentData) (db : DB) : Prop :=
  forall resp db',
    AppointmentViewSet.create now request_body db = (Return resp, db') ->
    exists a,
      data resp = AppointmentBody a
      /\ Appointment.status a = SCHEDULED.

(** The conditions of the read-side aggregates. *)
Definition has_status (s : status_choice) (r : Appointment.t) : bool :=
  status_eqb (Appointment.status r) s.

Definition has_exam_type (e : exam_type_choice) (r : Appointment.t) : bool :=
  exam_type_eqb (Appointment.exam_type r) e.

Definition bookable_status (s : status_choice) : bool :=
  match s with
  | SCHEDULED | CONFIRMED => true
  | _ => false
  end.

Definition bookable (r : Appointment.t) : bool :=
  bookable_status (Appointment.status r).

Definition between (from to : DateTime.t) (r : Appointment.t) : bool :=
  DateTime.leb from (Appointment.appointment_date r)
  && DateTime.leb (Appointment.appointment_date r) to.

Definition not_before (from : DateTime.t) (r : Appointment.t) : bool :=
  negb (DateTime.ltb (Appointment.appointment_date r) from).

(** An entry of a grouped count: absent for a group without rows. *)
Definition group_entry (n : Z) : option Z :=
  if n =? 0 then None else Some n.

(** "Count upcoming within N days", as the specification words it:
    the upcoming listing has one entry for every appointment scheduled
    between now and N days ahead. *)
Definition upcoming_is_window (now : DateTime.t) (days : Z) (db : DB)
  : Prop :=
  forall end_date l db',
    DateTime.add_days now days = Some end_date ->
    AppointmentViewSet.upcoming now (Some days) db
    = (Return (mkResponse (AppointmentListBody l) HTTP_200_OK), db') ->
    count l = count (filter (between now end_date) (appointments db)).

(** Rows in ascending order of their date-times. *)
Fixpoint ascending (l : list Appointment.t) : Prop :=
  match l with
  | [] => True
  | x :: rest =>
      (forall y, In y rest ->
         DateTime.leb (Appointment.appointment_date x)
                      (Appointment.appointment_date y) = true)
      /\ ascending rest
  end.

(** Birthdays: the date on which a patient turns [k], and whether
    today's month and day come before the month and day of birth. *)
Definition anniversary (date_of_birth : Date.t) (k : Z) : Date.t :=
  Date.mk (Date.year date_of_birth + k) (Date.month date_of_birth)
          (Date.day date_of_birth).

Definition birthday_ahead (today date_of_birth : Date.t) : Prop :=
  Date.month today < Date.month date_of_birth
  \/ (Date.month today = Date.month date_of_birth
      /\ Date.day today < Date.day date_of_birth).

(** The table after the row with key [k] is overwritten by [row], and
    the store with another appointment table. *)
Definition replace_row (k : Z) (row : Appointment.t)
    (rows : list Appointment.t) : list Appointment.t :=
  map (fun r => if pk_is (Some k) r then row else r) rows.

Definition with_appointments (db : DB) (rows : list Appointment.t)
    (next_key : Z) : DB :=
  mkDB (patients db) rows (patient_seq db) next_key.

(** The row a save stores for an object: stamped with the time of the
    save. *)
Definition stored_update (now : DateTime.t) (self : Appointment.t)
  : Appointment.t :=
  Appointment.set_stamps (Appointment.created_at self) (Some now) self.

Definition stored_insert (now : DateTime.t) (k : Z) (self : Appointment.t)
  : Appointment.t :=
  Appointment.set_pk (Some k)
    (Appointment.set_stamps (Some now) (Some now) self).

(** The text each transition view answers with a 400. *)
Definition refusal_text (t : transition) : string :=
  match t with
  | check_in => "Can only check in confirmed appointments"
  | complete => "Can only complete checked-in or in-progress appointments"
  | cancel => "Cannot cancel completed appointments"
  end.

(** The sum of the counts of a grouped count, and its keys. *)
Definition dict_total {K} (d : list (K * Z)) : Z :=
  fold_right (fun kv acc => snd kv + acc) 0 d.

Definition dict_keys {K} (d : list (K * Z)) : list K := map fst d.

(** Dates in calendar order: [a <= b]. *)
Definition Date_leb (a b : Date.t) : bool := negb (Date.ltb b a).

(** A registration body that passes the four checks of the source:
    the unique column, [validate_patient_id], [validate_date_of_birth]
    and the phone pattern. *)
Definition registrable (now : DateTime.t) (body : PatientData) (db : DB)
  : Prop :=
  Patient_objects_get (pd_patient_id body) db = None
  /\ String.prefix "PT" (pd_patient_id body) = true
  /\ Date.ltb (DateTime.date now) (pd_date_of_birth body) = false
  /\ phone_regex (pd_phone body) = true.

(** The patient row a registration stores. *)
Definition registered_row (body : PatientData) (db : DB) : Patient.t :=
  Patient.mk (patient_seq db) (pd_patient_id body) (pd_first_name body)
    (pd_last_name body) (pd_date_of_birth body) (pd_phone body)
    (pd_email body).

(** The request of a transition. *)
Definition transition_request (t : transition) (pk : Z) : request :=
  match t with
  | check_in => CheckIn pk
  | complete => Complete pk
  | cancel => Cancel pk
  end.

(** The patient table with the row of a key overwritten. *)
Definition replace_patient (k : Z) (row : Patient.t)
    (rows : list Patient.t) : list Patient.t :=
  map (fun p => if Patient.pk p =? k then row else p) rows.

(** The tables without the row of a key, and without a patient and the
    appointments that refer to it. *)
Definition without_appointment (k : Z) (db : DB) : DB :=
  with_appointments db (exclude_pk (Some k) (appointments db))
                    (appointment_seq db).

Definition without_patient (k : Z) (db : DB) : DB :=
  mkDB (filter (fun p => negb (Patient.pk p =? k)) (patients db))
       (filter (fun r => negb (Appointment.patient_id r =? k))
               (appointments db))
       (patient_seq db) (appointment_seq db).

(** Everything a request can do to the store: nothing; append a
    patient; append an appointment under the next key; overwrite the
    row of a key with the updated or transitioned record; overwrite a
    patient row; remove an appointment; remove a patient with its
    appointments. *)
Inductive effect (now : DateTime.t) : request -> DB -> DB -> Prop :=
| effect_none r db :
    effect now r db db
| effect_register body db :
    registrable now body db ->
    effect now (RegisterPatient body) db
      (mkDB (patients db ++ [registered_row body db]) (appointments db)
            (patient_seq db + 1) (appointment_seq db))
| effect_create body db pid patient dt et rp :
    d_patient_id body = Some pid ->
    Patient_objects_get pid db = Some patient ->
    d_appointment_date body = Some dt ->
    d_exam_type body = Some et ->
    d_referring_physician body = Some rp ->
    DateTime.ltb dt now = false ->
    effect now (Create body) db
      (with_appointments db
         (appointments db
          ++ [stored_insert now (appointment_seq db)
                (AppointmentSerializer.new_appointment
                   (Patient.pk patient) dt et rp body)])
         (appointment_seq db + 1))
| effect_update pk partial body db instance p :
    find (pk_is (Some pk)) (appointments db) = Some instance ->
    patient_of body (Some (Appointment.patient_id instance)) db = Some p ->
    effect now (Update pk partial body) db
      (with_appointments db
         (replace_row pk
            (stored_update now
               (AppointmentSerializer.set_attributes instance p body))
            (appointments db))
         (appointment_seq db))
| effect_transition t pk db a :
    find (pk_is (Some pk)) (appointments db) = Some a ->
    allowed_from t (Appointment.status a) ->
    effect now (transition_request t pk) db
      (with_appointments db
         (replace_row pk
            (stored_update now (Appointment.set_status (target t) a))
            (appointments db))
         (appointment_seq db))
| effect_destroy pk db a :
    find (pk_is (Some pk)) (appointments db) = Some a ->
    effect now (Destroy pk) db (without_appointment pk db)
| effect_update_patient pk partial body db instance :
    find (fun p => Patient.pk p =? pk) (patients db) = Some instance ->
    PatientSerializer.update_errors now instance partial body db = [] ->
    effect now (UpdatePatient pk partial body) db
      (mkDB (replace_patient pk
               (PatientSerializer.set_attributes instance body)
               (patients db))
            (appointments db) (patient_seq db) (appointment_seq db))
| effect_destroy_patient pk db p :
    find (fun q => Patient.pk q =? pk) (patients db) = Some p ->
    effect now (DestroyPatient pk) db (without_patient pk db).

(** Every appointment refers to a stored patient. *)
Definition referential_integrity (db : DB) : Prop :=
  forall a, In a (appointments db) ->
    exists p, In p (patients db) /\ Patient.pk p = Appointment.patient_id a.

(** What the patient serializer enforces on the patient table. *)
Definition patients_valid (db : DB) : Prop :=
  NoDup (map Patient.patient_id (patients db))
  /\ NoDup (map Patient.pk (patients db))
  /\ forall p, In p (patients db) ->
       String.prefix "PT" (Patient.patient_id p) = true
       /\ phone_regex (Patient.phone p) = true.

(** Checking a property of day numbers on a range, by running it. *)
Fixpoint all_from (fuel : nat) (n : Z) (f : Z -> bool) : bool :=
  match fuel with
  | O => true
  | S k => f n && all_from k (n + 1) f
  end.

(** The same month and day, [k] years later. *)
Definition add_years (k : Z) (d : Date.t) : Date.t :=
  Date.mk (Date.year d + k) (Date.month d) (Date.day d).

(** The dates of the calendar: those a day number stands for. *)
Definition calendar_date (d : Date.t) : Prop :=
  Date.ord2ymd (Date.toordinal d) = d.

(** The store after [Appointment.objects.all().delete()] and
    [Patient.objects.all().delete()]. *)
Definition cleared (db : DB) : DB :=
  mkDB [] [] (patient_seq db) (appointment_seq db).

(* ================================================================== *)
(** * A day at the clinic: the stores and requests of the scenarios     *)
(* ================================================================== *)

Definition pt0001 : PatientData :=
  mkPatientData "PT0001" "Ann" "Lee" (ymd 1990 1 1) "555-123-4567" None.

(** A request body for patient PT0001 with the optional keys absent. *)
Definition booking (dt : DateTime.t) (st : option status_choice)
  : AppointmentData :=
  mkData (Some "PT0001"%string) (Some dt) (Some MRI_BRAIN) st
         (Some "Dr. Smith"%string) None None None None.

(** A PATCH body that sets the status only. *)
Definition patch_status (st : status_choice) : AppointmentData :=
  mkData None None None (Some st) None None None None None.

Definition visit_day : Date.t := ymd 2030 1 2.
Definition booked_on : DateTime.t := at_time (ymd 2030 1 1) 9 0.

(** PT0001 is registered ... *)
Definition db_registered : DB :=
  run [(booked_on, RegisterPatient pt0001)] empty_db.

(** ... and booked for the visit day at 14:00. *)
Definition db_booked : DB :=
  run [(booked_on, Create (booking (at_time visit_day 14 0) None))]
      db_registered.

(** The row of that booking. *)
Definition visit_row : Appointment.t :=
  Appointment.mk (Some 1) 1 (at_time visit_day 14 0) MRI_BRAIN SCHEDULED
    "Dr. Smith" EmptyString EmptyString 30 EmptyString
    (Some booked_on) (Some booked_on).

(** The booking is cancelled the same morning. *)
Definition db_cancelled : DB :=
  run [(booked_on, Cancel 1)] db_booked.

(** The booking is then confirmed. *)
Definition db_confirmed : DB :=
  run [(booked_on, Update 1 true (patch_status CONFIRMED))] db_booked.

(** The patient checks in ten minutes ahead of the exam. *)
Definition db_checked_in : DB :=
  run [(at_time visit_day 13 50, CheckIn 1)] db_confirmed.

(** A second visit is booked for the day after the first. *)
Definition db_two_visits : DB :=
  run [(booked_on, Create (booking (at_time (ymd 2030 1 3) 10 0) None))]
      db_booked.

(** A PATCH body that changes the phone only. *)
Definition patch_phone (phone : string) : PatientPatch :=
  mkPatientPatch None None None None (Some phone) None.

(** The patient then gives a phone number written in Arabic-Indic
    digits, and the first visit is deleted. *)
Definition db_rebooked : DB :=
  run [(booked_on, UpdatePatient 1 true (patch_phone "٥٥٥-١٢٣-٤٥٦٧"));
       (booked_on, Destroy 1)]
      db_two_visits.

(** The first days of the calendar: no date lies thirty days before. *)
Definition first_days : DateTime.t := at_time (ymd 1 1 15) 9 0.

(** Draws for the sample-data command: one patient, and a visit on the
    last day of the range, at 07:00, with the first status of the list. *)
Definition seed_patient : PatientDraw :=
  mkPatientDraw "Ann" "Lee" (ymd 1990 1 1) 0 0 0 "ann@example.com" true.

Definition seed_visit : AppointmentDraw :=
  mkAppointmentDraw 90 0 0 0 0 0 0 0 0 0 false.

(** The store after the command ran on these draws, one patient and two
    visits, in the clinic of the scenario: the same visit twice. *)
Definition db_seeded : DB :=
  snd (Command.handle booked_on [seed_patient] [seed_visit; seed_visit]
         db_booked).

(** The first appointment it stored. *)
Definition seeded_row : Appointment.t :=
  stored_insert booked_on 2
    (Appointment.mk None 2 (at_time (ymd 2030 1 31) 7 0) MRI_BRAIN SCHEDULED
       "Dr. Smith" "r/o fracture" EmptyString 30 EmptyString None None).

(** The store after the command ran on the same patient draw in the
    first days of the calendar. *)
Definition db_seed_failed : DB :=
  snd (Command.handle first_days [seed_patient] [seed_visit] db_booked).

(* ================================================================== *)
(** * Basic facts: decidable equalities and the monad                   *)
(* ================================================================== *)

Lemma Date_eqb_eq (a b : Date.t) : Date.eqb a b = true <-> a = b.
Proof.
  destruct a as [y m d], b as [y' m' d']; unfold Date.eqb; simpl.
  rewrite !andb_true_iff, !Z.eqb_eq. split.
  - intros [[-> ->] ->]; reflexivity.
  - intros H; injection H; auto.
Qed.

Lemma Date_eqb_refl (a : Date.t) : Date.eqb a a = true.
Proof. apply Date_eqb_eq; reflexivity. Qed.

Lemma status_eqb_eq (a b : status_choice) : status_eqb a b = true <-> a = b.
Proof. destruct a, b; simpl; split; congruence. Qed.

Lemma exam_type_eqb_eq (a b : exam_type_choice) :
  exam_type_eqb a b = true <-> a = b.
Proof. destruct a, b; simpl; split; congruence. Qed.

Lemma status_in_ACTIVE (s : status_choice) :
  status_in ACTIVE s = true <-> active s.
Proof. unfold active; destruct s; simpl; split; intuition congruence. Qed.

Lemma exists_false {A} (q : list A) : exists_ q = false <-> q = [].
Proof. destruct q; simpl; split; congruence. Qed.

Lemma exists_true_In {A} (q : list A) : exists_ q = true <-> exists x, In x q.
Proof.
  destruct q; simpl; split; try congruence.
  - intros [x []].
  - eauto.
Qed.

Lemma pk_is_Some (k : Z) (r : Appointment.t) :
  pk_is (Some k) r = true <-> Appointment.pk r = Some k.
Proof.
  unfold pk_is. destruct (Appointment.pk r) as [i|].
  - rewrite Z.eqb_eq. split; congruence.
  - split; congruence.
Qed.

Lemma same_day_active_iff (p : Z) (d : Date.t) (r : Appointment.t) :
  same_day_active p d r = true
  <-> Appointment.patient_id r = p
      /\ DateTime.date (Appointment.appointment_date r) = d
      /\ active (Appointment.status r).
Proof.
  unfold same_day_active.
  rewrite !andb_true_iff, Z.eqb_eq, Date_eqb_eq, status_in_ACTIVE. tauto.
Qed.

(** The double-booking query, in the words of the specification. *)
Lemma overlapping_exists_iff (db : DB) (p : Z) (d : Date.t) (ex : option Z) :
  (forall r, In r (appointments db) -> Appointment.pk r <> None) ->
  exists_ (exclude_pk ex (filter (same_day_active p d) (appointments db)))
  = true
  <-> other_active_exists db p d ex.
Proof.
  intros Hpk. rewrite exists_true_In. unfold other_active_exists, exclude_pk.
  split; intros [r H]; exists r.
  - apply filter_In in H as [H Hex]. apply filter_In in H as [Hin Hact].
    apply same_day_active_iff in Hact. split; [exact Hin|]. split; [|exact Hact].
    apply negb_true_iff in Hex. intros E. destruct ex as [k|].
    + apply pk_is_Some in E. congruence.
    + apply (Hpk r Hin E).
  - destruct H as (Hin & Hex & Hact). apply filter_In. split.
    + apply filter_In. split; [exact Hin|]. apply same_day_active_iff. exact Hact.
    + apply negb_true_iff. destruct ex as [k|].
      * destruct (pk_is (Some k) r) eqn:E; [|reflexivity].
        apply pk_is_Some in E. contradiction.
      * unfold pk_is. destruct (Appointment.pk r); reflexivity.
Qed.

(* ================================================================== *)
(** * [clean] and [save]                                                *)
(* ================================================================== *)

Ltac unfold_monad :=
  unfold bind, ret, raise, get_db, put_db in *.

(** What [clean] answers, and that it only reads the store. *)
Lemma clean_eq (now : DateTime.t) (self : Appointment.t) (db : DB) :
  clean now self db
  = (if DateTime.ltb (Appointment.appointment_date self) now
     then Raise (ValidationError CannotSchedulePast)
     else if truthy (Appointment.patient_id self)
             && exists_
                  (exclude_pk (Appointment.pk self)
                     (filter (same_day_active
                                (Appointment.patient_id self)
                                (DateTime.date
                                   (Appointment.appointment_date self)))
                             (appointments db)))
          then Raise (ValidationError
                        (AlreadyHasAppointmentOnThisDate
                           (Appointment.patient_id self)))
          else Return tt,
     db).
Proof.
  unfold clean. unfold_monad.
  destruct (DateTime.ltb _ now); [reflexivity|].
  destruct (truthy _); [|reflexivity]. simpl.
  destruct (exists_ _); reflexivity.
Qed.

Lemma clean_keeps_db (now : DateTime.t) (self : Appointment.t) (db : DB) :
  snd (clean now self db) = db.
Proof. rewrite clean_eq. reflexivity. Qed.

Lemma save_eq (now : DateTime.t) (self : Appointment.t) (db : DB) :
  save now self db
  = match fst (clean now self db) with
    | Raise e => (Raise e, db)
    | Return _ => super_save now self db
    end.
Proof.
  unfold save, full_clean, bind.
  pose proof (clean_keeps_db now self db) as H.
  destruct (clean now self db) as [[[]|e] db']; simpl in *; subst; reflexivity.
Qed.

Lemma save_past (now : DateTime.t) (self : Appointment.t) (db : DB) :
  DateTime.ltb (Appointment.appointment_date self) now = true ->
  save now self db = (Raise (ValidationError CannotSchedulePast), db).
Proof. intros H. rewrite save_eq, clean_eq, H. reflexivity. Qed.

Lemma save_double_booked (now : DateTime.t) (self : Appointment.t) (db : DB) :
  DateTime.ltb (Appointment.appointment_date self) now = false ->
  truthy (Appointment.patient_id self) = true ->
  exists_ (exclude_pk (Appointment.pk self)
             (filter (same_day_active
                        (Appointment.patient_id self)
                        (DateTime.date (Appointment.appointment_date self)))
                     (appointments db))) = true ->
  save now self db
  = (Raise (ValidationError
              (AlreadyHasAppointmentOnThisDate (Appointment.patient_id self))),
     db).
Proof. intros H1 H2 H3. rewrite save_eq, clean_eq, H1, H2, H3. reflexivity. Qed.

(** A raised [save] has written nothing. *)
Lemma save_raise_keeps_db now self db e db' :
  save now self db = (Raise e, db') -> db' = db.
Proof.
  rewrite save_eq. destruct (fst (clean now self db)).
  - unfold super_save. unfold_monad.
    destruct (Appointment.pk self); [destruct (existsb _ _)|]; discriminate.
  - congruence.
Qed.

Lemma get_object_eq (pk : Z) (db : DB) :
  get_object pk db
  = (match find (pk_is (Some pk)) (appointments db) with
     | Some a => Return a
     | None => Raise Http404
     end, db).
Proof.
  unfold get_object. unfold_monad.
  destruct (find _ _); reflexivity.
Qed.

Lemma patient_get_object_eq (pk : Z) (db : DB) :
  PatientViewSet.get_object pk db
  = (match find (fun p => Patient.pk p =? pk) (patients db) with
     | Some patient => Return patient
     | None => Raise Http404
     end, db).
Proof.
  unfold PatientViewSet.get_object. unfold_monad.
  destruct (find _ _); reflexivity.
Qed.

(* ================================================================== *)
(** * Status transitions                                                *)
(* ================================================================== *)

(** The guard of each view is the set of source states of the
    specification. *)
Lemma allowed_from_guard (t : transition) (s : status_choice) :
  allowed_from t s
  <-> match t with
      | check_in => negb (status_eqb s CONFIRMED)
      | complete => negb (status_in [CHECKED_IN; IN_PROGRESS] s)
      | cancel => status_eqb s COMPLETED
      end = false.
Proof.
  destruct t, s; simpl; split; intros H;
    try reflexivity; try discriminate; try congruence;
    try (destruct H; discriminate); auto.
Qed.

(** A transition from an allowed state is a [save] of the record with
    its new status. *)
Lemma transition_is_save (t : transition) now pk db a :
  find (pk_is (Some pk)) (appointments db) = Some a ->
  allowed_from t (Appointment.status a) ->
  transition_view t now pk db
  = (a' <- save now (Appointment.set_status (target t) a) ;;
     ret (mkResponse (AppointmentBody a') HTTP_200_OK)) db.
Proof.
  intros Hfind Hok. apply allowed_from_guard in Hok.
  destruct t; simpl in *;
    unfold AppointmentViewSet.check_in, AppointmentViewSet.complete,
           AppointmentViewSet.cancel;
    unfold bind at 1; rewrite get_object_eq, Hfind; simpl;
    fold (status_in [CHECKED_IN; IN_PROGRESS] (Appointment.status a));
    rewrite Hok; reflexivity.
Qed.

(** From any other state the view answers 400 and writes nothing. *)
Lemma transition_refused (t : transition) now pk db a :
  find (pk_is (Some pk)) (appointments db) = Some a ->
  ~ allowed_from t (Appointment.status a) ->
  exists text,
    transition_view t now pk db
    = (Return (mkResponse (ErrorBody text) HTTP_400_BAD_REQUEST), db).
Proof.
  intros Hfind Hno. rewrite allowed_from_guard in Hno.
  apply not_false_is_true in Hno.
  destruct t; simpl in *;
    unfold AppointmentViewSet.check_in, AppointmentViewSet.complete,
           AppointmentViewSet.cancel;
    unfold bind at 1; rewrite get_object_eq, Hfind; simpl;
    fold (status_in [CHECKED_IN; IN_PROGRESS] (Appointment.status a));
    rewrite Hno; eexists; reflexivity.
Qed.

Lemma find_pk_is (pk : Z) (rows : list Appointment.t) (a : Appointment.t) :
  find (pk_is (Some pk)) rows = Some a ->
  In a rows /\ Appointment.pk a = Some pk.
Proof.
  intros H. apply find_some in H as [Hin Hpk].
  split; [exact Hin | apply pk_is_Some; exact Hpk].
Qed.

Lemma reachable_run (trace : list (DateTime.t * request)) (db : DB) :
  reachable db -> reachable (run trace db).
Proof.
  revert db. induction trace as [|[now r] rest IH]; intros db H; simpl.
  - exact H.
  - apply IH. apply reachable_step. exact H.
Qed.

(** C7.  Check-in, complete and cancel persist through [Appointment.save],
    which runs the model validation again: from an allowed state the view
    is exactly the save of the record with its new status; hence it raises
    the past-date [ValidationError] whenever the scheduled date-time is
    strictly earlier than now, and the double-booking [ValidationError]
    whenever another active appointment of the patient is on the same
    day; in both cases nothing is written. *)
Theorem transition_save_revalidates (t : transition) (now : DateTime.t)
    (pk : Z) (db : DB) (a : Appointment.t) :
  find (pk_is (Some pk)) (appointments db) = Some a ->
  allowed_from t (Appointment.status a) ->
  transition_view t now pk db
  = (a' <- save now (Appointment.set_status (target t) a) ;;
     ret (mkResponse (AppointmentBody a') HTTP_200_OK)) db
  /\ (DateTime.ltb (Appointment.appointment_date a) now = true ->
      transition_view t now pk db
      = (Raise (ValidationError CannotSchedulePast), db))
  /\ (DateTime.ltb (Appointment.appointment_date a) now = false ->
      wf db ->
      other_active_exists db (Appointment.patient_id a)
        (DateTime.date (Appointment.appointment_date a)) (Some pk) ->
      transition_view t now pk db
      = (Raise (ValidationError
                  (AlreadyHasAppointmentOnThisDate
                     (Appointment.patient_id a))), db)).
Proof.
  intros Hfind Hok.
  pose proof (transition_is_save t now pk db a Hfind Hok) as Heq.
  destruct (find_pk_is _ _ _ Hfind) as [Hin Hpk].
  split; [exact Heq|]. split.
  - intros Hpast. rewrite Heq. unfold bind.
    rewrite save_past; [reflexivity|]. destruct a; exact Hpast.
  - intros Hfuture Hwf Hother. rewrite Heq. unfold bind.
    rewrite save_double_booked.
    + destruct a; reflexivity.
    + destruct a; exact Hfuture.
    + unfold truthy. apply negb_true_iff, Z.eqb_neq.
      destruct a; simpl. apply (wf_fk db Hwf _ Hin).
    + destruct a; simpl in *. subst.
      apply overlapping_exists_iff; [|exact Hother].
      intros r Hr E. destruct (wf_pks db Hwf r Hr) as (k & Hk & _).
      congruence.
Qed.

(** A confirmed patient who arrives five minutes late: the precondition
    of check-in holds, and the view raises. *)
Lemma transition_save_revalidates_witness :
  AppointmentViewSet.check_in (at_time visit_day 14 5) 1 db_confirmed
  = (Raise (ValidationError CannotSchedulePast), db_confirmed).
Proof.
  refine (proj1 (proj2
    (transition_save_revalidates check_in (at_time visit_day 14 5) 1
       db_confirmed
       (Appointment.set_status CONFIRMED visit_row)
       _ _)) _).
  - vm_compute. reflexivity.
  - simpl. reflexivity.
  - vm_compute. reflexivity.
Defined.

(** C4.  A confirmed appointment at 14:00, check-in requested at 14:05:
    the prior status is CONFIRMED and the store is reachable through the
    API, yet the check-in is not performed: [save] raises the past-date
    [ValidationError] and the status stays CONFIRMED. *)
Theorem check_in_confirmed_late :
  reachable db_confirmed
  /\ map Appointment.status (appointments db_confirmed) = [CONFIRMED]
  /\ handle (at_time visit_day 14 5) (CheckIn 1) db_confirmed
     = (Raise (ValidationError CannotSchedulePast), db_confirmed).
Proof.
  split; [|split; vm_compute; reflexivity].
  unfold db_confirmed, db_booked, db_registered. do 3 apply reachable_run.
  apply reachable_empty.
Qed.

(** C5.  The patient checked in at 13:50 for the exam of 14:00; complete
    is requested at 14:45, after the exam.  The prior status is
    CHECKED_IN, yet the appointment is not completed: [save] raises the
    past-date [ValidationError]. *)
Theorem complete_checked_in_after_exam :
  reachable db_checked_in
  /\ map Appointment.status (appointments db_checked_in) = [CHECKED_IN]
  /\ handle (at_time visit_day 14 45) (Complete 1) db_checked_in
     = (Raise (ValidationError CannotSchedulePast), db_checked_in).
Proof.
  split; [|split; vm_compute; reflexivity].
  unfold db_checked_in, db_confirmed, db_booked, db_registered.
  do 4 apply reachable_run.
  apply reachable_empty.
Qed.

(** C6.  A scheduled appointment whose time has passed: the prior status
    is not COMPLETED, yet cancel is not performed: [save] raises the
    past-date [ValidationError] and the status stays SCHEDULED. *)
Theorem cancel_scheduled_after_time :
  reachable db_booked
  /\ map Appointment.status (appointments db_booked) = [SCHEDULED]
  /\ handle (at_time visit_day 14 5) (Cancel 1) db_booked
     = (Raise (ValidationError CannotSchedulePast), db_booked).
Proof.
  split; [|split; vm_compute; reflexivity].
  unfold db_booked, db_registered. do 2 apply reachable_run.
  apply reachable_empty.
Qed.

(* ================================================================== *)
(** * Patient age                                                       *)
(* ================================================================== *)

Lemma pair_ltb_birthday_ahead (today dob : Date.t) :
  pair_ltb (Date.month today, Date.day today)
           (Date.month dob, Date.day dob) = true
  <-> birthday_ahead today dob.
Proof.
  unfold pair_ltb, birthday_ahead; simpl.
  rewrite orb_true_iff, andb_true_iff, !Z.ltb_lt, Z.eqb_eq. tauto.
Qed.

(** C8.  The age is the difference of the years, less one when today's
    (month, day) is before the (month, day) of birth; it is the number of
    whole years lived: the birthday of that age is not after today and
    the next one is.  Born 2000-06-15: 23 on 2024-06-14, 24 on
    2024-06-15. *)
Theorem age_whole_years :
  (forall (today : Date.t) (p : Patient.t),
     let dob := Patient.date_of_birth p in
     let a := Patient.age today p in
     ((birthday_ahead today dob
       /\ a = Date.year today - Date.year dob - 1)
      \/ (~ birthday_ahead today dob
          /\ a = Date.year today - Date.year dob))
     /\ Date.ltb today (anniversary dob a) = false
     /\ Date.ltb today (anniversary dob (a + 1)) = true)
  /\ (forall pk patient_id first_name last_name phone email,
        let p := Patient.mk pk patient_id first_name last_name
                            (ymd 2000 6 15) phone email in
        Patient.age (ymd 2024 6 14) p = 23
        /\ Patient.age (ymd 2024 6 15) p = 24).
Proof.
  split.
  - intros today p dob a. subst a. unfold Patient.age. fold dob.
    pose proof (pair_ltb_birthday_ahead today dob) as Hb.
    destruct (pair_ltb _ _) eqn:E.
    + assert (Ha : birthday_ahead today dob) by (apply Hb; reflexivity).
      split; [left; split; [exact Ha | simpl; lia]|].
      unfold Date.ltb, anniversary, pair_ltb in *; simpl in *.
      split.
      * apply orb_false_iff; split; [apply Z.ltb_ge; lia|].
        apply andb_false_iff; left. apply Z.eqb_neq. lia.
      * apply orb_true_iff; right. apply andb_true_iff; split.
        -- apply Z.eqb_eq. lia.
        -- exact E.
    + assert (Ha : ~ birthday_ahead today dob).
      { intros H. apply Hb in H. discriminate. }
      split; [right; split; [exact Ha | simpl; lia]|].
      unfold Date.ltb, anniversary, pair_ltb in *; simpl in *.
      split.
      * apply orb_false_iff; split; [apply Z.ltb_ge; lia|].
        apply andb_false_iff; right. exact E.
      * apply orb_true_iff; left. apply Z.ltb_lt. lia.
  - intros. split; reflexivity.
Qed.

(* ================================================================== *)
(** * The serializer and the write views                                *)
(* ================================================================== *)

Lemma bind_Return_inv {A B} (c : M A) (k : A -> M B) db b db' :
  bind c k db = (Return b, db') ->
  exists a db1, c db = (Return a, db1) /\ k a db1 = (Return b, db').
Proof.
  unfold bind. destruct (c db) as [[a|e] db1]; intros H.
  - exists a, db1. split; [reflexivity | exact H].
  - discriminate.
Qed.

Lemma bind_Raise_inv {A B} (c : M A) (k : A -> M B) db e db' :
  bind c k db = (Raise e, db') ->
  c db = (Raise e, db')
  \/ exists a db1, c db = (Return a, db1) /\ k a db1 = (Raise e, db').
Proof.
  unfold bind. destruct (c db) as [[a|e1] db1]; intros H.
  - right. exists a, db1. split; [reflexivity | exact H].
  - left. injection H as -> ->. reflexivity.
Qed.

Lemma exclude_pk_None (q : list Appointment.t) : exclude_pk None q = q.
Proof.
  unfold exclude_pk. induction q as [|r q IH]; simpl; [reflexivity|].
  unfold pk_is at 1. destruct (Appointment.pk r); simpl; rewrite IH;
    reflexivity.
Qed.

Lemma to_internal_value_eq now partial data db :
  AppointmentSerializer.to_internal_value now partial data db
  = (match AppointmentSerializer.field_validation_errors now partial data db
     with
     | [] => Return data
     | errors => Raise (SerializerValidationError errors)
     end, db).
Proof.
  unfold AppointmentSerializer.to_internal_value. unfold_monad.
  destruct (AppointmentSerializer.field_validation_errors _ _ _ _);
    reflexivity.
Qed.

Lemma validate_eq instance data db :
  AppointmentSerializer.validate instance data db
  = (match d_patient_id data, d_appointment_date data with
     | Some pid, Some dt =>
         match Patient_objects_get pid db with
         | None => Raise DoesNotExist
         | Some patient =>
             if exists_
                  (overlapping db (Patient.pk patient) dt
                     (match instance with
                      | Some i => Appointment.pk i
                      | None => None
                      end))
             then Raise (SerializerValidationError
                           [("non_field_errors"%string,
                             AlreadyHasAppointmentOn pid (DateTime.date dt))])
             else Return data
         end
     | _, _ => Return data
     end, db).
Proof.
  unfold AppointmentSerializer.validate, overlapping. unfold_monad.
  destruct (d_patient_id data) as [pid|]; [|reflexivity].
  destruct (d_appointment_date data) as [dt|]; [|reflexivity].
  destruct (Patient_objects_get pid db) as [patient|]; [|reflexivity].
  destruct instance as [i|].
  - destruct (exists_ _); reflexivity.
  - rewrite exclude_pk_None. destruct (exists_ _); reflexivity.
Qed.

Lemma is_valid_eq now instance partial data db :
  AppointmentSerializer.is_valid now instance partial data db
  = match AppointmentSerializer.field_validation_errors now partial data db
    with
    | [] => AppointmentSerializer.validate instance data db
    | errors => (Raise (SerializerValidationError errors), db)
    end.
Proof.
  unfold AppointmentSerializer.is_valid, bind.
  rewrite to_internal_value_eq.
  destruct (AppointmentSerializer.field_validation_errors _ _ _ _);
    reflexivity.
Qed.

(** A body that passed field validation names a stored patient. *)
Lemma no_field_errors_patient now partial data db pid :
  AppointmentSerializer.field_validation_errors now partial data db = [] ->
  d_patient_id data = Some pid ->
  exists patient, Patient_objects_get pid db = Some patient.
Proof.
  unfold AppointmentSerializer.field_validation_errors. intros H Hp.
  apply app_eq_nil in H as [H _]. rewrite Hp in H. simpl in H.
  unfold AppointmentSerializer.validate_patient_id in H.
  destruct (Patient_objects_get pid db) as [patient|]; [eauto|discriminate].
Qed.

(** ... and no date-time in the past. *)
Lemma no_field_errors_date now partial data db dt :
  AppointmentSerializer.field_validation_errors now partial data db = [] ->
  d_appointment_date data = Some dt ->
  DateTime.ltb dt now = false.
Proof.
  unfold AppointmentSerializer.field_validation_errors. intros H Hd.
  apply app_eq_nil in H as [_ H]. apply app_eq_nil in H as [H _].
  rewrite Hd in H. simpl in H.
  unfold AppointmentSerializer.validate_appointment_date in H.
  destruct (DateTime.ltb dt now); [discriminate|reflexivity].
Qed.

(** Validation reads the store only, returns the body it was given, and
    raises nothing but a validation error. *)
Lemma is_valid_cases now instance partial data db :
  (AppointmentSerializer.is_valid now instance partial data db
   = (Return data, db)
   /\ AppointmentSerializer.field_validation_errors now partial data db = [])
  \/ exists e,
       AppointmentSerializer.is_valid now instance partial data db
       = (Raise e, db)
       /\ is_validation_error e = true.
Proof.
  rewrite is_valid_eq.
  destruct (AppointmentSerializer.field_validation_errors now partial data db)
    as [|err errs] eqn:Herr.
  - rewrite validate_eq.
    destruct (d_patient_id data) as [pid|] eqn:Hp; [|left; auto].
    destruct (d_appointment_date data) as [dt|]; [|left; auto].
    destruct (no_field_errors_patient _ _ _ _ _ Herr Hp) as [patient ->].
    destruct (exists_ _); [right; eexists; split; reflexivity | left; auto].
  - right. eexists; split; reflexivity.
Qed.

Lemma super_save_returns now self db :
  exists row db', super_save now self db = (Return row, db').
Proof.
  unfold super_save. unfold_monad.
  destruct (Appointment.pk self); [destruct (existsb _ _)|];
    eexists; eexists; reflexivity.
Qed.

Lemma no_field_errors_required now data db :
  AppointmentSerializer.field_validation_errors now false data db = [] ->
  required_present data = true.
Proof.
  unfold AppointmentSerializer.field_validation_errors, required_present.
  intros H.
  apply app_eq_nil in H as [H1 H]. apply app_eq_nil in H as [H2 H].
  apply app_eq_nil in H as [H3 H4].
  destruct (d_patient_id data); [|discriminate].
  destruct (d_appointment_date data); [|discriminate].
  destruct (d_exam_type data); [|discriminate].
  destruct (d_referring_physician data); [|discriminate].
  reflexivity.
Qed.

(** The field errors vanish exactly for a body whose required keys are
    present (or the update partial), whose patient is stored and whose
    date-time is not in the past. *)
Lemma no_field_errors_intro now partial data db :
  partial || required_present data = true ->
  (forall pid, d_patient_id data = Some pid ->
     Patient_objects_get pid db <> None) ->
  (forall dt, d_appointment_date data = Some dt ->
     DateTime.ltb dt now = false) ->
  AppointmentSerializer.field_validation_errors now partial data db = [].
Proof.
  unfold AppointmentSerializer.field_validation_errors, required_present.
  intros Hreq Hp Hd.
  assert (E1 : AppointmentSerializer.field_errors "patient_id" partial
                 (d_patient_id data)
                 (AppointmentSerializer.validate_patient_id db) = []).
  { destruct (d_patient_id data) as [pid|]; simpl.
    - unfold AppointmentSerializer.validate_patient_id.
      specialize (Hp pid eq_refl).
      destruct (Patient_objects_get pid db); [reflexivity|contradiction].
    - destruct partial; [reflexivity|discriminate]. }
  assert (E2 : AppointmentSerializer.field_errors "appointment_date" partial
                 (d_appointment_date data)
                 (AppointmentSerializer.validate_appointment_date now) = []).
  { destruct (d_appointment_date data) as [dt|]; simpl.
    - unfold AppointmentSerializer.validate_appointment_date.
      rewrite (Hd dt eq_refl). reflexivity.
    - destruct partial; [reflexivity|].
      destruct (d_patient_id data); discriminate. }
  rewrite E1, E2. simpl.
  destruct (d_exam_type data), (d_referring_physician data); simpl;
    try reflexivity; destruct partial; try reflexivity;
    destruct (d_patient_id data), (d_appointment_date data); discriminate.
Qed.

Lemma create_view_invalid now data db err errs :
  AppointmentSerializer.field_validation_errors now false data db
  = err :: errs ->
  AppointmentViewSet.create now data db
  = (Raise (SerializerValidationError (err :: errs)), db).
Proof.
  intros H. unfold AppointmentViewSet.create, bind.
  rewrite is_valid_eq, H. reflexivity.
Qed.

Lemma create_view_valid now data db pid patient dt et rp :
  AppointmentSerializer.field_validation_errors now false data db = [] ->
  d_patient_id data = Some pid ->
  Patient_objects_get pid db = Some patient ->
  d_appointment_date data = Some dt ->
  d_exam_type data = Some et ->
  d_referring_physician data = Some rp ->
  AppointmentViewSet.create now data db
  = if exists_ (overlapping db (Patient.pk patient) dt None)
    then (Raise (SerializerValidationError
                   [("non_field_errors"%string,
                     AlreadyHasAppointmentOn pid (DateTime.date dt))]), db)
    else
      (a <- save now
              (AppointmentSerializer.new_appointment
                 (Patient.pk patient) dt et rp data) ;;
       ret (mkResponse (AppointmentBody a) HTTP_201_CREATED)) db.
Proof.
  intros Herr Hp Hget Hd He Hr.
  unfold AppointmentViewSet.create. unfold bind at 1.
  rewrite is_valid_eq, Herr, validate_eq, Hp, Hd, Hget.
  destruct (exists_ _); [reflexivity|].
  unfold AppointmentSerializer.create, bind, get_db.
  rewrite Hp, Hget, Hd, He, Hr. reflexivity.
Qed.

Lemma update_view_missing now pk partial data db :
  find (pk_is (Some pk)) (appointments db) = None ->
  AppointmentViewSet.update now pk partial data db = (Raise Http404, db).
Proof.
  intros H. unfold AppointmentViewSet.update, bind.
  rewrite get_object_eq, H. reflexivity.
Qed.

Lemma update_view_invalid now pk partial data db instance err errs :
  find (pk_is (Some pk)) (appointments db) = Some instance ->
  AppointmentSerializer.field_validation_errors now partial data db
  = err :: errs ->
  AppointmentViewSet.update now pk partial data db
  = (Raise (SerializerValidationError (err :: errs)), db).
Proof.
  intros Hf H. unfold AppointmentViewSet.update, bind.
  rewrite get_object_eq, Hf, is_valid_eq, H. reflexivity.
Qed.

Lemma update_view_valid now pk partial data db instance :
  find (pk_is (Some pk)) (appointments db) = Some instance ->
  AppointmentSerializer.field_validation_errors now partial data db = [] ->
  exists p,
    patient_of data (Some (Appointment.patient_id instance)) db = Some p
    /\ AppointmentViewSet.update now pk partial data db
       = match d_patient_id data, d_appointment_date data with
         | Some pid, Some dt =>
             if exists_ (overlapping db p dt (Some pk))
             then (Raise (SerializerValidationError
                            [("non_field_errors"%string,
                              AlreadyHasAppointmentOn pid
                                (DateTime.date dt))]), db)
             else
               (a <- save now
                       (AppointmentSerializer.set_attributes instance p data) ;;
                ret (mkResponse (AppointmentBody a) HTTP_200_OK)) db
         | _, _ =>
             (a <- save now
                     (AppointmentSerializer.set_attributes instance p data) ;;
              ret (mkResponse (AppointmentBody a) HTTP_200_OK)) db
         end.
Proof.
  intros Hf Herr. destruct (find_pk_is _ _ _ Hf) as [_ Hpk].
  unfold AppointmentViewSet.update. unfold bind at 1.
  rewrite get_object_eq, Hf. unfold bind at 1.
  rewrite is_valid_eq, Herr, validate_eq. unfold patient_of.
  destruct (d_patient_id data) as [pid|] eqn:Hp.
  - destruct (no_field_errors_patient _ _ _ _ _ Herr Hp) as [patient Hget].
    rewrite Hget. simpl. exists (Patient.pk patient). split; [reflexivity|].
    destruct (d_appointment_date data) as [dt|].
    + rewrite Hpk. destruct (exists_ _); [reflexivity|].
      unfold AppointmentSerializer.update, bind, get_db.
      rewrite Hp, Hget. reflexivity.
    + unfold AppointmentSerializer.update, bind, get_db.
      rewrite Hp, Hget. reflexivity.
  - exists (Appointment.patient_id instance). split; [reflexivity|].
    unfold AppointmentSerializer.update, bind, get_db.
    rewrite Hp. reflexivity.
Qed.

(* ================================================================== *)
(** * The views of [ModelViewSet] on keys: update and delete            *)
(* ================================================================== *)

Lemma find_patient_pk (pk : Z) (rows : list Patient.t) (p : Patient.t) :
  find (fun q => Patient.pk q =? pk) rows = Some p ->
  In p rows /\ Patient.pk p = pk.
Proof.
  intros H. apply find_some in H as [Hin Hpk].
  split; [exact Hin | apply Z.eqb_eq; exact Hpk].
Qed.

Lemma destroy_view_eq pk db :
  AppointmentViewSet.destroy pk db
  = match find (pk_is (Some pk)) (appointments db) with
    | Some _ =>
        (Return (mkResponse NoContent HTTP_204_NO_CONTENT),
         without_appointment pk db)
    | None => (Raise Http404, db)
    end.
Proof.
  unfold AppointmentViewSet.destroy. unfold bind at 1.
  rewrite get_object_eq.
  destruct (find _ _) as [a|] eqn:Hf; [|reflexivity].
  destruct (find_pk_is _ _ _ Hf) as [_ Hpk]. unfold_monad.
  rewrite Hpk. reflexivity.
Qed.

Lemma patient_destroy_view_eq pk db :
  PatientViewSet.destroy pk db
  = match find (fun p => Patient.pk p =? pk) (patients db) with
    | Some _ =>
        (Return (mkResponse NoContent HTTP_204_NO_CONTENT),
         without_patient pk db)
    | None => (Raise Http404, db)
    end.
Proof.
  unfold PatientViewSet.destroy. unfold bind at 1.
  rewrite patient_get_object_eq.
  destruct (find _ _) as [p|] eqn:Hf; [|reflexivity].
  destruct (find_patient_pk _ _ _ Hf) as [_ Hpk]. unfold_monad.
  rewrite Hpk. reflexivity.
Qed.

Lemma patient_update_view_eq now pk partial data db :
  PatientViewSet.update now pk partial data db
  = match find (fun p => Patient.pk p =? pk) (patients db) with
    | Some instance =>
        match PatientSerializer.update_errors now instance partial data db
        with
        | [] =>
            (Return (mkResponse
                       (PatientBody
                          (PatientSerializer.set_attributes instance data))
                       HTTP_200_OK),
             mkDB (replace_patient pk
                     (PatientSerializer.set_attributes instance data)
                     (patients db))
                  (appointments db) (patient_seq db) (appointment_seq db))
        | errors => (Raise (SerializerValidationError errors), db)
        end
    | None => (Raise Http404, db)
    end.
Proof.
  unfold PatientViewSet.update. unfold bind at 1.
  rewrite patient_get_object_eq.
  destruct (find _ _) as [instance|] eqn:Hf; [|reflexivity].
  destruct (find_patient_pk _ _ _ Hf) as [_ Hpk].
  unfold PatientSerializer.is_valid_update, PatientSerializer.update.
  unfold_monad.
  destruct (PatientSerializer.update_errors now instance partial data db);
    [|reflexivity].
  rewrite Hpk. reflexivity.
Qed.

(* ================================================================== *)
(** * Rejected requests write nothing                                   *)
(* ================================================================== *)

Lemma save_then_ret_raise {B} now self (f : Appointment.t -> B) db e db' :
  (a <- save now self ;; ret (f a)) db = (Raise e, db') -> db' = db.
Proof.
  intros H. apply bind_Raise_inv in H as [H | (a & db1 & _ & H)].
  - apply (save_raise_keeps_db _ _ _ _ _ H).
  - discriminate.
Qed.

Lemma patient_is_valid_keeps_db now data db :
  snd (PatientSerializer.is_valid now data db) = db.
Proof.
  unfold PatientSerializer.is_valid. unfold_monad.
  destruct (_ ++ _); reflexivity.
Qed.

Lemma handle_raise_keeps_db now r db e db' :
  handle now r db = (Raise e, db') -> db' = db.
Proof.
  destruct r as [pdata | data | pk partial data | pk | pk | pk
                | pk | pk partial data | pk]; simpl.
  - unfold PatientViewSet.create. intros H.
    apply bind_Raise_inv in H as [H | (v & db1 & Hv & H)].
    + pose proof (patient_is_valid_keeps_db now pdata db) as K.
      rewrite H in K. exact K.
    + unfold PatientSerializer.create in H. unfold_monad. discriminate.
  - destruct (AppointmentSerializer.field_validation_errors now false data db)
      as [|err errs] eqn:Herr.
    + pose proof (no_field_errors_required _ _ _ Herr) as Hreq.
      unfold required_present in Hreq.
      destruct (d_patient_id data) as [pid|] eqn:Hp; [|discriminate].
      destruct (d_appointment_date data) as [dt|] eqn:Hd; [|discriminate].
      destruct (d_exam_type data) as [et|] eqn:He; [|discriminate].
      destruct (d_referring_physician data) as [rp|] eqn:Hr; [|discriminate].
      destruct (no_field_errors_patient _ _ _ _ _ Herr Hp) as [patient Hget].
      rewrite (create_view_valid _ _ _ _ _ _ _ _ Herr Hp Hget Hd He Hr).
      destruct (exists_ _); [congruence|]. apply save_then_ret_raise.
    + rewrite (create_view_invalid _ _ _ _ _ Herr). congruence.
  - destruct (find (pk_is (Some pk)) (appointments db)) as [instance|] eqn:Hf.
    + destruct (AppointmentSerializer.field_validation_errors
                  now partial data db) as [|err errs] eqn:Herr.
      * destruct (update_view_valid _ _ _ _ _ _ Hf Herr) as (p & _ & ->).
        destruct (d_patient_id data), (d_appointment_date data);
          try apply save_then_ret_raise.
        destruct (exists_ _); [congruence | apply save_then_ret_raise].
      * rewrite (update_view_invalid _ _ _ _ _ _ _ _ Hf Herr). congruence.
    + rewrite (update_view_missing _ _ _ _ _ Hf). congruence.
  - unfold AppointmentViewSet.check_in. unfold bind at 1.
    rewrite get_object_eq. destruct (find _ _); [|congruence].
    destruct (negb _); [discriminate | apply save_then_ret_raise].
  - unfold AppointmentViewSet.complete. unfold bind at 1.
    rewrite get_object_eq. destruct (find _ _); [|congruence].
    destruct (negb _); [discriminate | apply save_then_ret_raise].
  - unfold AppointmentViewSet.cancel. unfold bind at 1.
    rewrite get_object_eq. destruct (find _ _); [|congruence].
    destruct (status_eqb _ _); [discriminate | apply save_then_ret_raise].
  - rewrite destroy_view_eq. destruct (find _ _); congruence.
  - rewrite patient_update_view_eq. destruct (find _ _); [|congruence].
    destruct (PatientSerializer.update_errors _ _ _ _ _); congruence.
  - rewrite patient_destroy_view_eq. destruct (find _ _); congruence.
Qed.

Lemma past_date_is_field_error now partial data db dt :
  d_appointment_date data = Some dt ->
  DateTime.ltb dt now = true ->
  AppointmentSerializer.field_validation_errors now partial data db <> [].
Proof.
  intros Hd Hpast H.
  rewrite (no_field_errors_date _ _ _ _ _ H Hd) in Hpast. discriminate.
Qed.

(** C3.  A create or update whose scheduled date-time is strictly earlier
    than now is rejected with a validation error and leaves the store as
    it was; and whatever request is rejected, the store is not modified. *)
Theorem past_write_rejected (now : DateTime.t) (w : write) (db : DB)
    (dt : DateTime.t) :
  scheduled w db = Some dt ->
  DateTime.ltb dt now = true ->
  (exists e,
     handle now (request_of w) db = (Raise e, db)
     /\ is_validation_error e = true)
  /\ (forall now' r e db',
        handle now' r db = (Raise e, db') -> db' = db).
Proof.
  intros Hs Hpast. split; [|intros; eapply handle_raise_keeps_db; eauto].
  destruct w as [data | pk partial data]; simpl in *.
  - pose proof (past_date_is_field_error now false data db dt Hs Hpast) as Hne.
    destruct (AppointmentSerializer.field_validation_errors now false data db)
      as [|err errs] eqn:Herr; [contradiction|].
    rewrite (create_view_invalid _ _ _ _ _ Herr).
    eexists; split; reflexivity.
  - destruct (find (pk_is (Some pk)) (appointments db)) as [instance|] eqn:Hf;
      [|discriminate].
    injection Hs as Hs.
    destruct (AppointmentSerializer.field_validation_errors
                now partial data db) as [|err errs] eqn:Herr.
    + destruct (update_view_valid _ _ _ _ _ _ Hf Herr) as (p & _ & ->).
      assert (Hsave :
        (a <- save now
                (AppointmentSerializer.set_attributes instance p data) ;;
         ret (mkResponse (AppointmentBody a) HTTP_200_OK)) db
        = (Raise (ValidationError CannotSchedulePast), db)).
      { unfold bind. rewrite save_past; [reflexivity|].
        simpl. rewrite Hs. exact Hpast. }
      destruct (d_patient_id data) as [pid|];
        destruct (d_appointment_date data) as [dt'|] eqn:Hd;
        try (rewrite Hsave; eexists; split; reflexivity).
      destruct (exists_ _); [eexists; split; reflexivity|].
      rewrite Hsave; eexists; split; reflexivity.
    + rewrite (update_view_invalid _ _ _ _ _ _ _ _ Hf Herr).
      eexists; split; reflexivity.
Qed.

(** Changing nothing but the status of the stored visit, on the day
    after it. *)
Lemma past_write_rejected_witness :
  (exists e,
     handle (at_time (ymd 2030 1 3) 9 0)
            (Update 1 true (patch_status NO_SHOW)) db_booked
     = (Raise e, db_booked)
     /\ is_validation_error e = true)
  /\ (forall now' r e db',
        handle now' r db_booked = (Raise e, db') -> db' = db_booked).
Proof.
  apply (past_write_rejected (at_time (ymd 2030 1 3) 9 0)
           (WUpdate 1 true (patch_status NO_SHOW)) db_booked
           (at_time visit_day 14 0)).
  - vm_compute. reflexivity.
  - vm_compute. reflexivity.
Defined.

(* ================================================================== *)
(** * The store invariants                                              *)
(* ================================================================== *)

Section Counting.

Context {A : Type}.
Variables (f h : A -> bool) (g : A -> A).

(** Replacing rows cannot create more matches of [f] than there are
    rows forced to match [h]. *)
Lemma filter_map_length_le (rows : list A) :
  (forall r, In r rows -> f (g r) = true -> h r = true) ->
  (List.length (filter f (map g rows))
   <= List.length (filter h rows))%nat.
Proof.
  induction rows as [|r rows IH]; intros H; simpl; [lia|].
  assert (IH' : (List.length (filter f (map g rows))
                 <= List.length (filter h rows))%nat).
  { apply IH. intros x Hx. apply H. right. exact Hx. }
  destruct (f (g r)) eqn:E.
  - rewrite (H r (or_introl eq_refl) E). simpl. lia.
  - destruct (h r); simpl; lia.
Qed.

End Counting.

Lemma pk_unique_count (rows : list Appointment.t) (k : Z) :
  NoDup (map Appointment.pk rows) ->
  (List.length (filter (pk_is (Some k)) rows) <= 1)%nat.
Proof.
  induction rows as [|r rows IH]; intros Hnd; simpl; [lia|].
  inversion Hnd as [|x l Hnotin Hnd']; subst.
  destruct (pk_is (Some k) r) eqn:E; [|apply IH; exact Hnd'].
  simpl. apply pk_is_Some in E.
  assert (Hnone : filter (pk_is (Some k)) rows = []).
  { destruct (filter (pk_is (Some k)) rows) as [|y ys] eqn:F; [reflexivity|].
    exfalso. assert (Hy : In y (filter (pk_is (Some k)) rows))
      by (rewrite F; left; reflexivity).
    apply filter_In in Hy as [Hin Hy]. apply pk_is_Some in Hy.
    apply Hnotin. rewrite E, <- Hy. apply in_map. exact Hin. }
  rewrite Hnone. simpl. lia.
Qed.

Lemma map_replace_pk (rows : list Appointment.t) (k : Z) (row : Appointment.t) :
  Appointment.pk row = Some k ->
  map Appointment.pk
      (map (fun r => if pk_is (Some k) r then row else r) rows)
  = map Appointment.pk rows.
Proof.
  intros Hrow. induction rows as [|r rows IH]; simpl; [reflexivity|].
  rewrite IH. destruct (pk_is (Some k) r) eqn:E; [|reflexivity].
  apply pk_is_Some in E. congruence.
Qed.

(** What a passed [clean] says about the store. *)
Lemma clean_passed now self db :
  fst (clean now self db) = Return tt ->
  Appointment.patient_id self <> 0 ->
  DateTime.ltb (Appointment.appointment_date self) now = false
  /\ overlapping db (Appointment.patient_id self)
       (Appointment.appointment_date self) (Appointment.pk self) = [].
Proof.
  rewrite clean_eq. intros H Hfk. simpl in H.
  destruct (DateTime.ltb _ now); [discriminate|]. split; [reflexivity|].
  assert (Ht : truthy (Appointment.patient_id self) = true).
  { unfold truthy. apply negb_true_iff, Z.eqb_neq. exact Hfk. }
  rewrite Ht in H. simpl in H. unfold overlapping.
  destruct (exists_ _) eqn:E; [discriminate|].
  apply exists_false in E. exact E.
Qed.

Lemma overlapping_nil_inv db p dt ex r :
  overlapping db p dt ex = [] ->
  In r (appointments db) ->
  same_day_active p (DateTime.date dt) r = true ->
  pk_is ex r = true.
Proof.
  unfold overlapping, exclude_pk. intros H Hin Hact.
  destruct (pk_is ex r) eqn:E; [reflexivity|]. exfalso.
  assert (K : In r (filter (fun r0 => negb (pk_is ex r0))
                      (filter (same_day_active p (DateTime.date dt))
                              (appointments db)))).
  { apply filter_In. split; [apply filter_In; split; assumption|].
    rewrite E. reflexivity. }
  rewrite H in K. exact K.
Qed.

(** The heart of the matter: a successful [save] keeps the store
    well-formed and free of double bookings. *)
Lemma save_preserves now self db a db' :
  wf db -> no_double_booking db -> savable self db ->
  save now self db = (Return a, db') ->
  wf db' /\ no_double_booking db'.
Proof.
  intros Hwf Hinv [Hfk Hkey] Hsave. rewrite save_eq in Hsave.
  destruct (fst (clean now self db)) as [[]|e] eqn:Hclean; [|discriminate].
  destruct (clean_passed _ _ _ Hclean Hfk) as [_ Hnone].
  destruct Hwf as [Hpks Hnd Hfks Hpat [Hps Has]].
  unfold super_save in Hsave. unfold_monad.
  destruct Hkey as [Hnew | (k & Hk & Hex)].
  - (* INSERT under the next key *)
    rewrite Hnew in Hsave. injection Hsave as <- <-.
    set (row := Appointment.set_pk (Some (appointment_seq db))
                  (Appointment.set_stamps (Some now) (Some now) self)).
    split; [constructor; simpl|].
    + intros r Hr. apply in_app_or in Hr as [Hr | [<- | []]].
      * destruct (Hpks r Hr) as (k & Hk & Hrange). exists k. split; [exact Hk|lia].
      * exists (appointment_seq db). split; [reflexivity|lia].
    + rewrite map_app. simpl. apply NoDup_app; [exact Hnd | | ].
      * constructor; [intros [] | constructor].
      * intros x Hx [<- | []]. apply in_map_iff in Hx as (r & Hrk & Hr).
        destruct (Hpks r Hr) as (k & Hk & Hrange).
        rewrite Hk in Hrk. simpl in Hrk. injection Hrk as ->. lia.
    + intros r Hr. apply in_app_or in Hr as [Hr | [<- | []]];
        [apply Hfks; exact Hr | exact Hfk].
    + intros p Hp. specialize (Hpat p Hp). lia.
    + lia.
    + intros p d. unfold active_on. simpl. rewrite filter_app, length_app.
      simpl. destruct (same_day_active p d row) eqn:E; [|simpl; specialize (Hinv p d); unfold active_on in Hinv; lia].
      apply same_day_active_iff in E as (Ep & Ed & Ea). simpl in Ep, Ed, Ea.
      subst p d.
      assert (F : filter (same_day_active (Appointment.patient_id self)
                            (DateTime.date (Appointment.appointment_date self)))
                         (appointments db) = []).
      { rewrite Hnew in Hnone. unfold overlapping in Hnone.
        rewrite exclude_pk_None in Hnone. exact Hnone. }
      rewrite F. simpl. lia.
  - (* UPDATE of the row with the key *)
    rewrite Hk, Hex in Hsave. injection Hsave as <- <-.
    set (row := Appointment.set_stamps (Appointment.created_at self)
                  (Some now) self).
    assert (Hrow : Appointment.pk row = Some k) by exact Hk.
    split; [constructor; simpl|].
    + intros r Hr. apply in_map_iff in Hr as (r0 & Hr0 & Hin).
      destruct (pk_is (Some k) r0) eqn:E.
      * subst r. apply pk_is_Some in E. destruct (Hpks r0 Hin) as (k0 & Hk0 & Hrange).
        exists k. split; [exact Hrow|]. congruence.
      * subst r. apply Hpks. exact Hin.
    + rewrite (map_replace_pk _ _ _ Hrow). exact Hnd.
    + intros r Hr. apply in_map_iff in Hr as (r0 & Hr0 & Hin).
      destruct (pk_is (Some k) r0); subst r; [exact Hfk | apply Hfks; exact Hin].
    + exact Hpat.
    + lia.
    + intros p d. unfold active_on. simpl.
      destruct (same_day_active p d row) eqn:E.
      * apply same_day_active_iff in E as (Ep & Ed & Ea). simpl in Ep, Ed, Ea.
        subst p d.
        eapply Nat.le_trans; [|apply (pk_unique_count _ k Hnd)].
        apply filter_map_length_le. intros r Hin Hact.
        destruct (pk_is (Some k) r) eqn:Er; [reflexivity|].
        rewrite Hk in Hnone.
        rewrite <- Er. eapply overlapping_nil_inv; eauto.
      * eapply Nat.le_trans; [|apply (Hinv p d)]. unfold active_on.
        apply filter_map_length_le. intros r Hin Hact.
        destruct (pk_is (Some k) r); [congruence | exact Hact].
Qed.

Lemma save_then_ret_preserves {B} now self (f : Appointment.t -> B) db :
  wf db -> no_double_booking db -> savable self db ->
  wf (snd ((a <- save now self ;; ret (f a)) db))
  /\ no_double_booking (snd ((a <- save now self ;; ret (f a)) db)).
Proof.
  intros Hwf Hinv Hs. unfold bind.
  destruct (save now self db) as [[a|e] db1] eqn:E; simpl.
  - apply (save_preserves _ _ _ _ _ Hwf Hinv Hs E).
  - rewrite (save_raise_keeps_db _ _ _ _ _ E). split; assumption.
Qed.

Lemma stored_is_savable db pk instance (self : Appointment.t) :
  find (pk_is (Some pk)) (appointments db) = Some instance ->
  Appointment.pk self = Appointment.pk instance ->
  Appointment.patient_id self <> 0 ->
  savable self db.
Proof.
  intros Hf Hpk Hfk. destruct (find_pk_is _ _ _ Hf) as [Hin Hk].
  split; [exact Hfk|]. right. exists pk. split; [congruence|].
  apply existsb_exists. exists instance. split; [exact Hin|].
  apply pk_is_Some. exact Hk.
Qed.

Lemma stored_patient_nonzero db pid patient :
  wf db -> Patient_objects_get pid db = Some patient ->
  Patient.pk patient <> 0.
Proof.
  intros Hwf H. apply find_some in H as [Hin _].
  pose proof (wf_patients db Hwf _ Hin). lia.
Qed.

Lemma patient_of_nonzero db data instance p :
  wf db -> In instance (appointments db) ->
  patient_of data (Some (Appointment.patient_id instance)) db = Some p ->
  p <> 0.
Proof.
  intros Hwf Hin. unfold patient_of.
  destruct (d_patient_id data) as [pid|].
  - destruct (Patient_objects_get pid db) as [patient|] eqn:E; [|discriminate].
    simpl. intros [= <-]. eapply stored_patient_nonzero; eauto.
  - intros [= <-]. apply (wf_fk db Hwf _ Hin).
Qed.

Lemma transition_preserves (t : transition) now pk db :
  wf db -> no_double_booking db ->
  wf (snd (transition_view t now pk db))
  /\ no_double_booking (snd (transition_view t now pk db)).
Proof.
  intros Hwf Hinv.
  destruct (find (pk_is (Some pk)) (appointments db)) as [a|] eqn:Hf.
  - assert (Hsav : savable (Appointment.set_status (target t) a) db).
    { eapply stored_is_savable; [exact Hf | reflexivity |].
      simpl. apply (wf_fk db Hwf). apply (find_pk_is _ _ _ Hf). }
    assert (Hdec : allowed_from t (Appointment.status a)
                   \/ ~ allowed_from t (Appointment.status a)).
    { destruct t, (Appointment.status a); simpl;
        try (left; congruence); try (right; congruence);
        try (left; auto; fail); right; intros [|]; congruence. }
    destruct Hdec as [Hok | Hno].
    + rewrite (transition_is_save t now pk db a Hf Hok).
      apply save_then_ret_preserves; assumption.
    + destruct (transition_refused t now pk db a Hf Hno) as [text ->].
      split; assumption.
  - assert (E : transition_view t now pk db = (Raise Http404, db)).
    { destruct t; simpl;
        unfold AppointmentViewSet.check_in, AppointmentViewSet.complete,
               AppointmentViewSet.cancel, bind;
        rewrite get_object_eq, Hf; reflexivity. }
    rewrite E. split; assumption.
Qed.

Lemma register_preserves now data db :
  wf db -> no_double_booking db ->
  wf (snd (PatientViewSet.create now data db))
  /\ no_double_booking (snd (PatientViewSet.create now data db)).
Proof.
  intros Hwf Hinv. unfold PatientViewSet.create, bind.
  pose proof (patient_is_valid_keeps_db now data db) as K.
  destruct (PatientSerializer.is_valid now data db) as [[v|e] db1];
    simpl in K; subst db1; [|simpl; split; assumption].
  unfold PatientSerializer.create. unfold_monad. simpl.
  destruct Hwf as [Hpks Hnd Hfks Hpat [Hps Has]].
  split; [constructor; simpl; auto; try lia | exact Hinv].
  intros p Hp. apply in_app_or in Hp as [Hp | [<- | []]].
  - specialize (Hpat p Hp). lia.
  - simpl. lia.
Qed.

Lemma NoDup_map_filter {A B} (g : A -> B) (f : A -> bool) (l : list A) :
  NoDup (map g l) -> NoDup (map g (filter f l)).
Proof.
  induction l as [|x l IH]; simpl; intros H; [constructor|].
  inversion H as [|y ys Hnotin Hnd]; subst.
  destruct (f x); simpl; [|apply IH; exact Hnd].
  constructor; [|apply IH; exact Hnd].
  intros Hin. apply Hnotin. apply in_map_iff in Hin as (z & Ez & Hz).
  apply filter_In in Hz as [Hz _]. rewrite <- Ez. apply in_map. exact Hz.
Qed.

Lemma filter_filter_length_le {A} (f g : A -> bool) (l : list A) :
  (List.length (filter f (filter g l)) <= List.length (filter f l))%nat.
Proof.
  induction l as [|x l IH]; simpl; [lia|].
  destruct (g x); simpl; destruct (f x); simpl; lia.
Qed.

(** Removing rows, and rewriting patient rows in place, keeps a store
    well-formed and free of double bookings. *)
Lemma removal_preserves db (ps : list Patient.t) (g : Appointment.t -> bool) :
  wf db -> no_double_booking db ->
  (forall p, In p ps ->
     exists q, In q (patients db) /\ Patient.pk q = Patient.pk p) ->
  wf (mkDB ps (filter g (appointments db))
           (patient_seq db) (appointment_seq db))
  /\ no_double_booking
       (mkDB ps (filter g (appointments db))
             (patient_seq db) (appointment_seq db)).
Proof.
  intros [Hpks Hnd Hfks Hpat Hseqs] Hinv Hps. split; [constructor; simpl|].
  - intros r Hr. apply filter_In in Hr as [Hr _]. apply Hpks. exact Hr.
  - apply NoDup_map_filter. exact Hnd.
  - intros r Hr. apply filter_In in Hr as [Hr _]. apply Hfks. exact Hr.
  - intros p Hp. destruct (Hps p Hp) as (q & Hq & E).
    rewrite <- E. apply Hpat. exact Hq.
  - exact Hseqs.
  - intros p d. unfold active_on. simpl.
    eapply Nat.le_trans; [apply filter_filter_length_le | apply (Hinv p d)].
Qed.

Lemma destroy_preserves pk db :
  wf db -> no_double_booking db ->
  wf (snd (AppointmentViewSet.destroy pk db))
  /\ no_double_booking (snd (AppointmentViewSet.destroy pk db)).
Proof.
  intros Hwf Hinv. rewrite destroy_view_eq.
  destruct (find _ _); [|split; assumption].
  apply removal_preserves; try assumption.
  intros p Hp. exists p. split; [exact Hp | reflexivity].
Qed.

Lemma patient_destroy_preserves pk db :
  wf db -> no_double_booking db ->
  wf (snd (PatientViewSet.destroy pk db))
  /\ no_double_booking (snd (PatientViewSet.destroy pk db)).
Proof.
  intros Hwf Hinv. rewrite patient_destroy_view_eq.
  destruct (find _ _); [|split; assumption].
  apply removal_preserves; try assumption.
  intros p Hp. apply filter_In in Hp as [Hp _].
  exists p. split; [exact Hp | reflexivity].
Qed.

Lemma filter_all {A} (l : list A) : filter (fun _ => true) l = l.
Proof. induction l as [|x l IH]; simpl; [|rewrite IH]; reflexivity. Qed.

Lemma patient_update_preserves now pk partial data db :
  wf db -> no_double_booking db ->
  wf (snd (PatientViewSet.update now pk partial data db))
  /\ no_double_booking (snd (PatientViewSet.update now pk partial data db)).
Proof.
  intros Hwf Hinv. rewrite patient_update_view_eq.
  destruct (find _ _) as [instance|] eqn:Hf; [|split; assumption].
  destruct (PatientSerializer.update_errors _ _ _ _ _);
    [|split; assumption].
  destruct (find_patient_pk _ _ _ Hf) as [Hin Hpk]. simpl.
  rewrite <- (filter_all (appointments db)).
  apply removal_preserves; try assumption.
  intros p Hp. unfold replace_patient in Hp.
  apply in_map_iff in Hp as (q & E & Hq).
  destruct (Patient.pk q =? pk); subst p.
  - exists instance. split; [exact Hin | reflexivity].
  - exists q. split; [exact Hq | reflexivity].
Qed.

(** Every request keeps the store well-formed and free of double
    bookings. *)
Lemma handle_preserves now r db :
  wf db -> no_double_booking db ->
  wf (snd (handle now r db)) /\ no_double_booking (snd (handle now r db)).
Proof.
  intros Hwf Hinv.
  destruct r as [pdata | data | pk partial data | pk | pk | pk
                | pk | pk partial data | pk]; simpl.
  - apply register_preserves; assumption.
  - destruct (AppointmentSerializer.field_validation_errors now false data db)
      as [|err errs] eqn:Herr.
    + pose proof (no_field_errors_required _ _ _ Herr) as Hreq.
      unfold required_present in Hreq.
      destruct (d_patient_id data) as [pid|] eqn:Hp; [|discriminate].
      destruct (d_appointment_date data) as [dt|] eqn:Hd; [|discriminate].
      destruct (d_exam_type data) as [et|] eqn:He; [|discriminate].
      destruct (d_referring_physician data) as [rp|] eqn:Hr; [|discriminate].
      destruct (no_field_errors_patient _ _ _ _ _ Herr Hp) as [patient Hget].
      rewrite (create_view_valid _ _ _ _ _ _ _ _ Herr Hp Hget Hd He Hr).
      destruct (exists_ _); [split; assumption|].
      apply save_then_ret_preserves; try assumption.
      split; [|left; reflexivity].
      simpl. eapply stored_patient_nonzero; eauto.
    + rewrite (create_view_invalid _ _ _ _ _ Herr). split; assumption.
  - destruct (find (pk_is (Some pk)) (appointments db)) as [instance|] eqn:Hf.
    + destruct (AppointmentSerializer.field_validation_errors
                  now partial data db) as [|err errs] eqn:Herr.
      * destruct (update_view_valid _ _ _ _ _ _ Hf Herr) as (p & Hpat & ->).
        assert (Hsav : savable
                         (AppointmentSerializer.set_attributes instance p data)
                         db).
        { eapply stored_is_savable; [exact Hf | reflexivity |].
          simpl. eapply patient_of_nonzero; eauto.
          apply (find_pk_is _ _ _ Hf). }
        destruct (d_patient_id data), (d_appointment_date data);
          try (apply save_then_ret_preserves; assumption).
        destruct (exists_ _); [split; assumption|].
        apply save_then_ret_preserves; assumption.
      * rewrite (update_view_invalid _ _ _ _ _ _ _ _ Hf Herr).
        split; assumption.
    + rewrite (update_view_missing _ _ _ _ _ Hf). split; assumption.
  - apply (transition_preserves check_in); assumption.
  - apply (transition_preserves complete); assumption.
  - apply (transition_preserves cancel); assumption.
  - apply destroy_preserves; assumption.
  - apply patient_update_preserves; assumption.
  - apply patient_destroy_preserves; assumption.
Qed.

Lemma empty_db_wf : wf empty_db.
Proof.
  constructor; simpl; try (intros ? []); try constructor; lia.
Qed.

Lemma reachable_invariants db :
  reachable db -> wf db /\ no_double_booking db.
Proof.
  induction 1 as [|db now r _ [Hwf Hinv]].
  - split; [apply empty_db_wf|]. intros p d. unfold active_on. simpl. lia.
  - apply handle_preserves; assumption.
Qed.

(** C2.  In every store reachable through the API, and after any further
    request on it (registering a patient, create, update, check-in,
    complete, cancel, and also the deletes and the updates of a patient
    that the router serves), each patient has at most one appointment
    with status SCHEDULED, CONFIRMED or CHECKED_IN on each calendar
    date. *)
Theorem no_double_booking_invariant (db : DB) (now : DateTime.t)
    (r : request) :
  reachable db ->
  no_double_booking db /\ no_double_booking (snd (handle now r db)).
Proof.
  intros H. destruct (reachable_invariants db H) as [Hwf Hinv].
  split; [exact Hinv|]. apply handle_preserves; assumption.
Qed.

(** The booked store, and a second booking attempted for the same day. *)
Lemma no_double_booking_invariant_witness :
  no_double_booking db_booked
  /\ no_double_booking
       (snd (handle booked_on
               (Create (booking (at_time visit_day 9 30) None)) db_booked)).
Proof.
  apply (no_double_booking_invariant db_booked booked_on
           (Create (booking (at_time visit_day 9 30) None))).
  unfold db_booked, db_registered. do 2 apply reachable_run.
  apply reachable_empty.
Defined.

(* ================================================================== *)
(** * The conflict rule                                                 *)
(* ================================================================== *)

(** A save of an object that is not in the past is refused with the
    double-booking error exactly when the query finds a row. *)
Lemma save_then_ret_conflict {B} now self (f : Appointment.t -> B) db :
  DateTime.ltb (Appointment.appointment_date self) now = false ->
  Appointment.patient_id self <> 0 ->
  rejected_with is_conflict_error ((a <- save now self ;; ret (f a)) db)
  <-> exists_ (overlapping db (Appointment.patient_id self)
                 (Appointment.appointment_date self)
                 (Appointment.pk self)) = true.
Proof.
  intros Hfuture Hfk.
  assert (Ht : truthy (Appointment.patient_id self) = true).
  { unfold truthy. apply negb_true_iff, Z.eqb_neq. exact Hfk. }
  unfold rejected_with, bind, overlapping.
  rewrite save_eq, clean_eq, Hfuture, Ht. simpl.
  destruct (exists_ _); simpl.
  - split; reflexivity.
  - destruct (super_save_returns now self db) as (row & db1 & ->). simpl.
    split; [contradiction | discriminate].
Qed.

Lemma wf_rows_have_keys db :
  wf db -> forall r, In r (appointments db) -> Appointment.pk r <> None.
Proof.
  intros Hwf r Hr E. destruct (wf_pks db Hwf r Hr) as (k & Hk & _).
  congruence.
Qed.

Lemma past_date_field_error_In now partial data db dt :
  d_appointment_date data = Some dt ->
  DateTime.ltb dt now = true ->
  In ("appointment_date"%string, CannotSchedulePast)
     (AppointmentSerializer.field_validation_errors now partial data db).
Proof.
  intros Hd Hpast. unfold AppointmentSerializer.field_validation_errors.
  apply in_or_app. right. apply in_or_app. left. rewrite Hd.
  unfold AppointmentSerializer.field_errors,
         AppointmentSerializer.validate_appointment_date.
  rewrite Hpast. left. reflexivity.
Qed.

Lemma past_error_kinds (errors : list (string * message)) :
  In ("appointment_date"%string, CannotSchedulePast) errors ->
  is_past_date_error (SerializerValidationError errors) = true
  /\ is_conflict_error (SerializerValidationError errors) = false.
Proof.
  intros Hin. split.
  - simpl. apply existsb_exists. eexists. split; [exact Hin | reflexivity].
  - destruct errors as [|[f m] rest]; [reflexivity|].
    destruct m; try reflexivity.
    destruct rest; [|reflexivity].
    destruct Hin as [E | []]. discriminate.
Qed.

(** C1, as amended.  In a well-formed store, take a create or an update
    of a stored record whose body passes field validation (required
    fields present unless the update is partial, the patient it names
    stored).  If its scheduled date-time is not earlier than now, the
    write is rejected with the double-booking validation error if and
    only if another appointment (a record other than the one being
    updated) of the same patient is scheduled on the same calendar date
    with status SCHEDULED, CONFIRMED or CHECKED_IN, whatever the times
    of day.  If its scheduled date-time is in the past, it is rejected
    with the past-date validation error instead, and not with the
    double-booking one, whether or not such an appointment exists. *)
Theorem conflict_rule_unless_past (now : DateTime.t) (w : write) (db : DB)
    (p : Z) (dt : DateTime.t) (ex : option Z) :
  wf db ->
  candidate w db = Some (p, dt, ex) ->
  if DateTime.ltb dt now
  then rejected_with is_past_date_error (handle now (request_of w) db)
       /\ ~ rejected_with is_conflict_error (handle now (request_of w) db)
  else rejected_with is_conflict_error (handle now (request_of w) db)
       <-> other_active_exists db p (DateTime.date dt) ex.
Proof.
  intros Hwf Hcand.
  destruct (DateTime.ltb dt now) eqn:Hfuture.
  - (* in the past *)
    destruct w as [data | pk partial data]; simpl in *.
    + destruct (required_present data) eqn:Hreq; [|discriminate].
      destruct (patient_of data None db) as [p0|]; [|discriminate].
      destruct (d_appointment_date data) as [dt0|] eqn:Hd; [|discriminate].
      injection Hcand as <- <- <-.
      pose proof (past_date_field_error_In now false data db dt0 Hd Hfuture)
        as Hin.
      destruct (past_error_kinds _ Hin) as [Kp Kc].
      destruct (AppointmentSerializer.field_validation_errors
                  now false data db) as [|err errs] eqn:Herr;
        [destruct Hin|].
      rewrite (create_view_invalid _ _ _ _ _ Herr).
      unfold rejected_with. cbn [fst].
      split; [exact Kp | rewrite Kc; discriminate].
    + destruct (find (pk_is (Some pk)) (appointments db))
        as [instance|] eqn:Hf; [|discriminate].
      destruct (partial || required_present data) eqn:Hreq; [|discriminate].
      destruct (patient_of data (Some (Appointment.patient_id instance)) db)
        as [p0|] eqn:Hpat; [|discriminate].
      injection Hcand as <- <- <-.
      destruct (d_appointment_date data) as [dt0|] eqn:Hd;
        unfold or_default in Hfuture.
      * pose proof (past_date_field_error_In now partial data db dt0 Hd
                      Hfuture) as Hin.
        destruct (past_error_kinds _ Hin) as [Kp Kc].
        destruct (AppointmentSerializer.field_validation_errors
                    now partial data db) as [|err errs] eqn:Herr;
          [destruct Hin|].
        rewrite (update_view_invalid _ _ _ _ _ _ _ _ Hf Herr).
        unfold rejected_with. cbn [fst].
        split; [exact Kp | rewrite Kc; discriminate].
      * assert (Herr : AppointmentSerializer.field_validation_errors
                         now partial data db = []).
        { apply no_field_errors_intro.
          - exact Hreq.
          - intros pid E He. unfold patient_of in Hpat.
            rewrite E, He in Hpat. discriminate.
          - intros dt' E. rewrite E in Hd. discriminate. }
        destruct (update_view_valid _ _ _ _ _ _ Hf Herr) as (p1 & _ & ->).
        rewrite Hd.
        assert (Hsave :
          (a <- save now
                  (AppointmentSerializer.set_attributes instance p1 data) ;;
           ret (mkResponse (AppointmentBody a) HTTP_200_OK)) db
          = (Raise (ValidationError CannotSchedulePast), db)).
        { unfold bind. rewrite save_past; [reflexivity|].
          simpl. rewrite Hd. exact Hfuture. }
        destruct (d_patient_id data); rewrite Hsave; simpl;
          (split; [reflexivity | discriminate]).
  - (* not in the past *)
    rewrite <- (overlapping_exists_iff db p (DateTime.date dt) ex
                  (wf_rows_have_keys db Hwf)).
    fold (overlapping db p dt ex).
    destruct w as [data | pk partial data]; simpl in *.
    + destruct (required_present data) eqn:Hreq; [|discriminate].
      unfold patient_of in Hcand. pose proof Hreq as Hreq'.
      unfold required_present in Hreq'.
      destruct (d_patient_id data) as [pid|] eqn:Hp; [|discriminate].
      destruct (d_appointment_date data) as [dt0|] eqn:Hd; [|discriminate].
      destruct (d_exam_type data) as [et|] eqn:He; [|discriminate].
      destruct (d_referring_physician data) as [rp|] eqn:Hr; [|discriminate].
      destruct (Patient_objects_get pid db) as [patient|] eqn:Hget;
        [|discriminate].
      simpl in Hcand. injection Hcand as <- <- <-.
      assert (Herr : AppointmentSerializer.field_validation_errors
                       now false data db = []).
      { apply no_field_errors_intro.
        + rewrite Hreq. reflexivity.
        + intros pid' E. rewrite Hp in E. injection E as <-. congruence.
        + intros dt' E. rewrite Hd in E. injection E as <-. exact Hfuture. }
      rewrite (create_view_valid _ _ _ _ _ _ _ _ Herr Hp Hget Hd He Hr).
      destruct (exists_ (overlapping db (Patient.pk patient) dt0 None)) eqn:Q.
      * split; reflexivity.
      * rewrite save_then_ret_conflict; simpl.
        -- rewrite Q. reflexivity.
        -- exact Hfuture.
        -- eapply stored_patient_nonzero; eauto.
    + destruct (find (pk_is (Some pk)) (appointments db)) as [instance|] eqn:Hf;
        [|discriminate].
      destruct (find_pk_is _ _ _ Hf) as [Hin Hpk].
      destruct (partial || required_present data) eqn:Hreq; [|discriminate].
      destruct (patient_of data (Some (Appointment.patient_id instance)) db)
        as [p0|] eqn:Hpat; [|discriminate].
      injection Hcand as <- <- <-.
      assert (Herr : AppointmentSerializer.field_validation_errors
                       now partial data db = []).
      { apply no_field_errors_intro.
        + exact Hreq.
        + intros pid E He. unfold patient_of in Hpat.
          rewrite E, He in Hpat. discriminate.
        + intros dt' E. rewrite E in Hfuture. exact Hfuture. }
      destruct (update_view_valid _ _ _ _ _ _ Hf Herr) as (p1 & Hp1 & ->).
      rewrite Hpat in Hp1. injection Hp1 as <-.
      assert (Hsave :
        rejected_with is_conflict_error
          ((a <- save now
                   (AppointmentSerializer.set_attributes instance p0 data) ;;
            ret (mkResponse (AppointmentBody a) HTTP_200_OK)) db)
        <-> exists_ (overlapping db p0
                       (or_default (d_appointment_date data)
                          (Appointment.appointment_date instance))
                       (Some pk)) = true).
      { rewrite save_then_ret_conflict; simpl.
        + rewrite Hpk. reflexivity.
        + exact Hfuture.
        + eapply patient_of_nonzero; eauto. }
      destruct (d_patient_id data) as [pid|];
        destruct (d_appointment_date data) as [dt0|]; unfold or_default in *;
        try exact Hsave.
      destruct (exists_ (overlapping db p0 dt0 (Some pk))) eqn:Q.
      * split; reflexivity.
      * exact Hsave.
Qed.

(** A second booking for the visit day, asked for the day before: the
    stored 14:00 appointment is active, and the 09:30 one is refused.
    Asked at 15:00 of the visit day for 14:30, the booking is refused
    for its date. *)
Lemma conflict_rule_unless_past_witness :
  (rejected_with is_conflict_error
     (handle booked_on (Create (booking (at_time visit_day 9 30) None))
             db_booked)
   <-> other_active_exists db_booked 1 visit_day None)
  /\ (rejected_with is_past_date_error
        (handle (at_time visit_day 15 0)
                (Create (booking (at_time visit_day 14 30) None)) db_booked)
      /\ ~ rejected_with is_conflict_error
            (handle (at_time visit_day 15 0)
                    (Create (booking (at_time visit_day 14 30) None))
                    db_booked)).
Proof.
  assert (Hwf : wf db_booked).
  { apply reachable_invariants. unfold db_booked, db_registered.
    do 2 apply reachable_run. apply reachable_empty. }
  assert (H1 : candidate (WCreate (booking (at_time visit_day 9 30) None))
                         db_booked
               = Some (1, at_time visit_day 9 30, None))
    by (vm_compute; reflexivity).
  assert (H2 : candidate (WCreate (booking (at_time visit_day 14 30) None))
                         db_booked
               = Some (1, at_time visit_day 14 30, None))
    by (vm_compute; reflexivity).
  split.
  - exact (conflict_rule_unless_past booked_on
             (WCreate (booking (at_time visit_day 9 30) None)) db_booked
             1 (at_time visit_day 9 30) None Hwf H1).
  - exact (conflict_rule_unless_past (at_time visit_day 15 0)
             (WCreate (booking (at_time visit_day 14 30) None)) db_booked
             1 (at_time visit_day 14 30) None Hwf H2).
Defined.

(** C1, as stated, fails.  At 15:00 on the visit day a booking is asked
    for 14:30 of that day.  The stored 14:00 appointment of the patient is
    active on that date, yet the rejection is the past-date error of
    field validation, which runs first, and not the double-booking one. *)
Lemma conflict_rule_counterexample :
  ~ conflict_rule (at_time visit_day 15 0)
      (WCreate (booking (at_time visit_day 14 30) None)) db_booked.
Proof.
  intros H.
  assert (Hreach : reachable db_booked).
  { unfold db_booked, db_registered. do 2 apply reachable_run.
    apply reachable_empty. }
  specialize (H Hreach 1 (at_time visit_day 14 30) None eq_refl).
  destruct H as [_ H].
  assert (Hother : other_active_exists db_booked 1
                     (DateTime.date (at_time visit_day 14 30)) None).
  { eexists. split; [left; reflexivity|]. simpl.
    repeat split; try discriminate. left. reflexivity. }
  specialize (H Hother). vm_compute in H. discriminate.
Qed.

(* ================================================================== *)
(** * The status of a created appointment                               *)
(* ================================================================== *)

(** C9, as amended.  An appointment accepted by the create operation is
    stored with the status the request body gives, and with SCHEDULED
    when the body gives none. *)
Theorem created_status (now : DateTime.t) (request_body : AppointmentData)
    (db : DB) (resp : Response) (db' : DB) :
  AppointmentViewSet.create now request_body db = (Return resp, db') ->
  exists a,
    data resp = AppointmentBody a
    /\ In a (appointments db')
    /\ Appointment.status a = or_default (d_status request_body) SCHEDULED
    /\ (d_status request_body = None -> Appointment.status a = SCHEDULED).
Proof.
  intros H.
  destruct (AppointmentSerializer.field_validation_errors
              now false request_body db) as [|err errs] eqn:Herr.
  2: { rewrite (create_view_invalid _ _ _ _ _ Herr) in H. discriminate. }
  pose proof (no_field_errors_required _ _ _ Herr) as Hreq.
  unfold required_present in Hreq.
  destruct (d_patient_id request_body) as [pid|] eqn:Hp; [|discriminate].
  destruct (d_appointment_date request_body) as [dt|] eqn:Hd; [|discriminate].
  destruct (d_exam_type request_body) as [et|] eqn:He; [|discriminate].
  destruct (d_referring_physician request_body) as [rp|] eqn:Hr;
    [|discriminate].
  destruct (no_field_errors_patient _ _ _ _ _ Herr Hp) as [patient Hget].
  rewrite (create_view_valid _ _ _ _ _ _ _ _ Herr Hp Hget Hd He Hr) in H.
  destruct (exists_ _); [discriminate|].
  apply bind_Return_inv in H as (a & db1 & Hsave & Hret).
  unfold ret in Hret. injection Hret as <- <-.
  exists a. split; [reflexivity|].
  rewrite save_eq in Hsave.
  destruct (fst (clean now _ db)); [|discriminate].
  unfold super_save in Hsave. unfold_monad. simpl in Hsave.
  injection Hsave as <- <-. simpl.
  split; [apply in_or_app; right; left; reflexivity|].
  split; [reflexivity|]. intros ->. reflexivity.
Qed.

(** The first booking of the scenario, whose body carries no status. *)
Lemma created_status_witness :
  exists a,
    data (mkResponse (AppointmentBody visit_row) HTTP_201_CREATED)
    = AppointmentBody a
    /\ In a (appointments db_booked)
    /\ Appointment.status a = SCHEDULED
    /\ (@None status_choice = None -> Appointment.status a = SCHEDULED).
Proof.
  apply (created_status booked_on (booking (at_time visit_day 14 0) None)
           db_registered
           (mkResponse (AppointmentBody visit_row) HTTP_201_CREATED)
           db_booked).
  vm_compute. reflexivity.
Defined.

(** C9, as stated, fails.  A body that carries "status": "COMPLETED" is
    accepted, and the appointment is created as COMPLETED. *)
Lemma created_as_scheduled_counterexample :
  ~ created_as_scheduled booked_on
      (booking (at_time (ymd 2030 1 3) 9 30) (Some COMPLETED)) db_booked.
Proof.
  intros H.
  destruct (AppointmentViewSet.create booked_on
              (booking (at_time (ymd 2030 1 3) 9 30) (Some COMPLETED))
              db_booked) as [[resp|e] db'] eqn:E.
  - destruct (H resp db' E) as (a & Ha & Hs).
    vm_compute in E. injection E as <- <-. simpl in Ha.
    injection Ha as <-. discriminate.
  - vm_compute in E. discriminate.
Qed.

(* ================================================================== *)
(** * Read-side aggregates                                              *)
(* ================================================================== *)

Section GroupCount.

Context {K : Type}.
Variable eqb : K -> K -> bool.
Hypothesis eqb_eq : forall a b, eqb a b = true <-> a = b.
Variable key : Appointment.t -> K.

Lemma eqb_sym (a b : K) : eqb a b = eqb b a.
Proof.
  destruct (eqb a b) eqn:E1, (eqb b a) eqn:E2; try reflexivity.
  - apply eqb_eq in E1. subst. rewrite (proj2 (eqb_eq _ _) eq_refl) in E2.
    discriminate.
  - apply eqb_eq in E2. subst. rewrite (proj2 (eqb_eq _ _) eq_refl) in E1.
    discriminate.
Qed.

Lemma dict_get_bump (k k' : K) (groups : list (K * Z)) :
  dict_get eqb k (bump eqb k' groups)
  = if eqb k' k
    then Some (match dict_get eqb k groups with
               | Some m => m + 1
               | None => 1
               end)
    else dict_get eqb k groups.
Proof.
  induction groups as [|[k0 n] rest IH]; simpl.
  - destruct (eqb k' k); reflexivity.
  - destruct (eqb k0 k') eqn:E0; simpl.
    + apply eqb_eq in E0. subst k0.
      destruct (eqb k' k); reflexivity.
    + destruct (eqb k0 k) eqn:E1.
      * destruct (eqb k' k) eqn:E2; [|reflexivity].
        apply eqb_eq in E1, E2. subst.
        rewrite (proj2 (eqb_eq _ _) eq_refl) in E0. discriminate.
      * exact IH.
Qed.

Lemma group_count_acc (k : K) (rows : list Appointment.t)
    (groups : list (K * Z)) :
  dict_get eqb k
    (fold_left (fun groups r => bump eqb (key r) groups) rows groups)
  = let n := count (filter (fun r => eqb (key r) k) rows) in
    match dict_get eqb k groups with
    | Some m => Some (m + n)
    | None => group_entry n
    end.
Proof.
  revert groups. induction rows as [|r rows IH]; intros groups; simpl.
  - destruct (dict_get eqb k groups) as [m|]; [f_equal; unfold count; simpl; lia|].
    reflexivity.
  - rewrite IH, dict_get_bump. unfold count, group_entry.
    destruct (eqb (key r) k) eqn:E; simpl List.length.
    + destruct (dict_get eqb k groups) as [m|].
      * f_equal. lia.
      * destruct (Z.eqb_spec (Z.of_nat (S (List.length
            (filter (fun r0 => eqb (key r0) k) rows)))) 0) as [H|H];
          [lia | f_equal; lia].
    + reflexivity.
Qed.

(** The grouped count holds, for each key, the number of its rows, and
    no entry for a key without rows. *)
Lemma group_count_get (k : K) (rows : list Appointment.t) :
  dict_get eqb k (group_count eqb key rows)
  = group_entry (count (filter (fun r => eqb (key r) k) rows)).
Proof. unfold group_count. rewrite group_count_acc. reflexivity. Qed.

End GroupCount.

Lemma insert_by_date_perm (r : Appointment.t) (l : list Appointment.t) :
  Permutation (insert_by_date r l) (r :: l).
Proof.
  induction l as [|x l IH]; simpl; [apply Permutation_refl|].
  destruct (DateTime.leb _ _); [apply Permutation_refl|].
  eapply perm_trans; [apply perm_skip; exact IH | apply perm_swap].
Qed.

Lemma order_by_perm (q : list Appointment.t) :
  Permutation (order_by_appointment_date q) q.
Proof.
  induction q as [|r q IH]; simpl; [constructor|].
  eapply perm_trans; [apply insert_by_date_perm|].
  apply perm_skip. exact IH.
Qed.

Lemma DateTime_ltb_iff (a b : DateTime.t) :
  DateTime.ltb a b = true
  <-> let da := DateTime.date a in
      let db := DateTime.date b in
      Date.year da < Date.year db
      \/ (Date.year da = Date.year db
          /\ (Date.month da < Date.month db
              \/ (Date.month da = Date.month db
                  /\ (Date.day da < Date.day db
                      \/ (Date.day da = Date.day db
                          /\ DateTime.tod a < DateTime.tod b))))).
Proof.
  destruct a as [[y m d] t], b as [[y' m' d'] t'].
  unfold DateTime.ltb, Date.ltb, Date.eqb, pair_ltb; simpl.
  rewrite !orb_true_iff, !andb_true_iff, !orb_true_iff, !andb_true_iff,
          !Z.ltb_lt, !Z.eqb_eq.
  lia.
Qed.

Lemma DateTime_leb_iff (a b : DateTime.t) :
  DateTime.leb a b = true <-> ~ (DateTime.ltb b a = true).
Proof.
  unfold DateTime.leb. destruct (DateTime.ltb b a); simpl; split;
    congruence.
Qed.

Lemma DateTime_leb_total (a b : DateTime.t) :
  DateTime.leb a b = false -> DateTime.leb b a = true.
Proof.
  intros H. apply DateTime_leb_iff. intros K.
  assert (H' : DateTime.ltb b a = true).
  { unfold DateTime.leb in H. apply negb_false_iff in H. exact H. }
  apply DateTime_ltb_iff in K, H'. simpl in *. lia.
Qed.

Lemma DateTime_leb_trans (a b c : DateTime.t) :
  DateTime.leb a b = true -> DateTime.leb b c = true ->
  DateTime.leb a c = true.
Proof.
  rewrite !DateTime_leb_iff, !DateTime_ltb_iff. simpl. lia.
Qed.

Lemma insert_by_date_ascending (r : Appointment.t) (l : list Appointment.t) :
  ascending l -> ascending (insert_by_date r l).
Proof.
  induction l as [|x l IH]; simpl; intros H.
  - split; [intros y []|exact I].
  - destruct H as [Hx Hl].
    destruct (DateTime.leb (Appointment.appointment_date r)
                           (Appointment.appointment_date x)) eqn:E; simpl.
    + split; [|split; assumption].
      intros y [<- | Hy]; [exact E|].
      eapply DateTime_leb_trans; [exact E | apply Hx; exact Hy].
    + split; [|apply IH; exact Hl].
      intros y Hy.
      apply (Permutation_in _ (insert_by_date_perm r l)) in Hy.
      destruct Hy as [<- | Hy];
        [apply DateTime_leb_total; exact E | apply Hx; exact Hy].
Qed.

Lemma order_by_ascending (q : list Appointment.t) :
  ascending (order_by_appointment_date q).
Proof.
  induction q as [|r q IH]; simpl; [exact I|].
  apply insert_by_date_ascending. exact IH.
Qed.

Lemma status_in_bookable (s : status_choice) :
  status_in [SCHEDULED; CONFIRMED] s = bookable_status s.
Proof. destruct s; reflexivity. Qed.

Lemma filter_ext_eq {A} (f g : A -> bool) (l : list A) :
  (forall x, f x = g x) -> filter f l = filter g l.
Proof. intros H. apply filter_ext. exact H. Qed.

(** C10, as amended.  Over the current store, [statistics] returns the
    number of appointments, their number per status and per exam type (a
    group without appointments has no entry), the number of those whose
    scheduled date is today's, and the number of those with status
    SCHEDULED or CONFIRMED that are scheduled now or later, with no upper
    bound; [upcoming] with N days lists, in ascending order of date-time,
    the appointments with status SCHEDULED or CONFIRMED scheduled between
    now and N days ahead, both ends included.  Neither writes. *)
Theorem read_side_aggregates (now : DateTime.t) (db : DB) (days : Z)
    (end_date : DateTime.t) :
  DateTime.add_days now days = Some end_date ->
  (exists s,
     AppointmentViewSet.statistics now db
     = (Return (mkResponse (StatsBody s) HTTP_200_OK), db)
     /\ Stats.total_appointments s = count (appointments db)
     /\ (forall st,
           dict_get status_eqb st (Stats.by_status s)
           = group_entry (count (filter (has_status st) (appointments db))))
     /\ (forall et,
           dict_get exam_type_eqb et (Stats.by_exam_type s)
           = group_entry
               (count (filter (has_exam_type et) (appointments db))))
     /\ Stats.today s
        = count (filter (Appointment.is_today now) (appointments db))
     /\ Stats.upcoming s
        = count (filter (fun r => not_before now r && bookable r)
                        (appointments db)))
  /\ (exists l,
        AppointmentViewSet.upcoming now (Some days) db
        = (Return (mkResponse (AppointmentListBody l) HTTP_200_OK), db)
        /\ Permutation l
             (filter (fun r => between now end_date r && bookable r)
                     (appointments db))
        /\ ascending l
        /\ count l
           = count (filter (fun r => between now end_date r && bookable r)
                           (appointments db))).
Proof.
  intros Hend. split.
  - eexists. split; [reflexivity|].
    cbn [Stats.total_appointments Stats.by_status Stats.by_exam_type
         Stats.today Stats.upcoming].
    split; [reflexivity|].
    split; [intros st; apply (group_count_get status_eqb status_eqb_eq)|].
    split; [intros et; apply (group_count_get exam_type_eqb exam_type_eqb_eq)|].
    split; [reflexivity|].
    f_equal. apply filter_ext_eq. intros r.
    unfold not_before, bookable, DateTime.geb.
    rewrite status_in_bookable. reflexivity.
  - unfold AppointmentViewSet.upcoming, or_default. rewrite Hend.
    unfold_monad.
    assert (E : filter
                  (fun r =>
                     DateTime.leb now (Appointment.appointment_date r)
                     && DateTime.leb (Appointment.appointment_date r) end_date
                     && status_in [SCHEDULED; CONFIRMED]
                                  (Appointment.status r))
                  (appointments db)
                = filter (fun r => between now end_date r && bookable r)
                         (appointments db)).
    { apply filter_ext_eq. intros r. unfold between, bookable.
      rewrite status_in_bookable. reflexivity. }
    rewrite E. eexists. split; [reflexivity|].
    split; [apply order_by_perm|].
    split; [apply order_by_ascending|].
    unfold count. f_equal. apply Permutation_length. apply order_by_perm.
Qed.

(** The aggregates of the booked store on the morning of the booking,
    looking a week ahead. *)
Lemma read_side_aggregates_witness :
  (exists s,
     AppointmentViewSet.statistics booked_on db_booked
     = (Return (mkResponse (StatsBody s) HTTP_200_OK), db_booked)
     /\ Stats.total_appointments s = 1
     /\ dict_get status_eqb SCHEDULED (Stats.by_status s) = Some 1
     /\ dict_get status_eqb CANCELLED (Stats.by_status s) = None
     /\ Stats.today s = 0
     /\ Stats.upcoming s = 1)
  /\ (exists l,
        AppointmentViewSet.upcoming booked_on (Some 7) db_booked
        = (Return (mkResponse (AppointmentListBody l) HTTP_200_OK),
           db_booked)
        /\ count l = 1).
Proof.
  destruct (read_side_aggregates booked_on db_booked 7
              (DateTime.mk (ymd 2030 1 8) (DateTime.tod booked_on)))
    as [(s & Hs & Ht & Hst & _ & Htoday & Hup) (l & Hl & _ & _ & Hc)].
  - vm_compute. reflexivity.
  - split.
    + exists s. split; [exact Hs|]. split; [rewrite Ht; reflexivity|].
      split; [rewrite Hst; reflexivity|].
      split; [rewrite Hst; reflexivity|].
      split; [rewrite Htoday; reflexivity | rewrite Hup; reflexivity].
    + exists l. split; [exact Hl | rewrite Hc; reflexivity].
Defined.

(** C10, as stated, fails on its last aggregate.  The visit of the next
    day was cancelled: it is scheduled between now and seven days ahead,
    yet [upcoming] does not list it (nor does the [upcoming] count of
    [statistics] include it), because both select on the status. *)
Lemma upcoming_is_window_counterexample :
  ~ upcoming_is_window booked_on 7 db_cancelled.
Proof.
  intros H.
  specialize (H (DateTime.mk (ymd 2030 1 8) (DateTime.tod booked_on))
                [] db_cancelled).
  assert (H1 : DateTime.add_days booked_on 7
               = Some (DateTime.mk (ymd 2030 1 8) (DateTime.tod booked_on)))
    by (vm_compute; reflexivity).
  assert (H2 : AppointmentViewSet.upcoming booked_on (Some 7) db_cancelled
               = (Return (mkResponse (AppointmentListBody []) HTTP_200_OK),
                  db_cancelled))
    by (vm_compute; reflexivity).
  specialize (H H1 H2). vm_compute in H. discriminate.
Qed.

(* ================================================================== *)
(** * What the transition views do guarantee                            *)
(* ================================================================== *)

Lemma allowed_from_dec (t : transition) (s : status_choice) :
  allowed_from t s \/ ~ allowed_from t s.
Proof.
  destruct (match t with
            | check_in => negb (status_eqb s CONFIRMED)
            | complete => negb (status_in [CHECKED_IN; IN_PROGRESS] s)
            | cancel => status_eqb s COMPLETED
            end) eqn:E.
  - right. intros H. apply allowed_from_guard in H. congruence.
  - left. apply allowed_from_guard. exact E.
Qed.

(** A transition that is performed started from an allowed state, and
    the row is stored with the target status. *)
Lemma transition_performed_inv (t : transition) now pk db a' db' :
  transition_view t now pk db
  = (Return (mkResponse (AppointmentBody a') HTTP_200_OK), db') ->
  exists a,
    find (pk_is (Some pk)) (appointments db) = Some a
    /\ allowed_from t (Appointment.status a)
    /\ Appointment.status a' = target t
    /\ In a' (appointments db').
Proof.
  intros H.
  destruct (find (pk_is (Some pk)) (appointments db)) as [a|] eqn:Hf.
  - exists a. split; [reflexivity|].
    destruct (allowed_from_dec t (Appointment.status a)) as [Hok | Hno].
    + split; [exact Hok|].
      rewrite (transition_is_save t now pk db a Hf Hok) in H.
      apply bind_Return_inv in H as (a1 & db1 & Hsave & Hret).
      unfold ret in Hret. injection Hret as <- <-.
      rewrite save_eq in Hsave.
      destruct (fst (clean now _ db)); [|discriminate].
      destruct (find_pk_is _ _ _ Hf) as [Hin Hpk].
      assert (Hex : existsb (pk_is (Some pk)) (appointments db) = true).
      { apply existsb_exists. exists a. split; [exact Hin|].
        apply pk_is_Some. exact Hpk. }
      unfold super_save in Hsave. unfold_monad. simpl in Hsave.
      rewrite Hpk, Hex in Hsave. injection Hsave as <- <-. simpl.
      split; [reflexivity|].
      apply in_map_iff. exists a. split; [|exact Hin].
      rewrite (proj2 (pk_is_Some pk a) Hpk). reflexivity.
    + destruct (transition_refused t now pk db a Hf Hno) as [text E].
      rewrite E in H. discriminate.
  - exfalso. destruct t; simpl in H;
      unfold AppointmentViewSet.check_in, AppointmentViewSet.complete,
             AppointmentViewSet.cancel, bind in H;
      rewrite get_object_eq, Hf in H; discriminate.
Qed.

(* ================================================================== *)
(** * Further properties of the transition views                        *)
(* ================================================================== *)

Lemma transition_missing (t : transition) now pk db :
  find (pk_is (Some pk)) (appointments db) = None ->
  transition_view t now pk db = (Raise Http404, db).
Proof.
  intros Hf. destruct t; simpl;
    unfold AppointmentViewSet.check_in, AppointmentViewSet.complete,
           AppointmentViewSet.cancel, bind;
    rewrite get_object_eq, Hf; reflexivity.
Qed.

(** Update, check-in, complete and cancel of a key that no stored
    appointment carries raise [Http404] and write nothing. *)
Theorem unknown_key_is_404 (now : DateTime.t) (pk : Z) (db : DB) :
  find (pk_is (Some pk)) (appointments db) = None ->
  (forall partial body,
     handle now (Update pk partial body) db = (Raise Http404, db))
  /\ handle now (CheckIn pk) db = (Raise Http404, db)
  /\ handle now (Complete pk) db = (Raise Http404, db)
  /\ handle now (Cancel pk) db = (Raise Http404, db).
Proof.
  intros Hf. split; [|split; [|split]].
  - intros partial body. apply update_view_missing. exact Hf.
  - apply (transition_missing check_in). exact Hf.
  - apply (transition_missing complete). exact Hf.
  - apply (transition_missing cancel). exact Hf.
Qed.

Lemma unknown_key_is_404_witness :
  (forall partial body,
     handle booked_on (Update 2 partial body) db_booked
     = (Raise Http404, db_booked))
  /\ handle booked_on (CheckIn 2) db_booked = (Raise Http404, db_booked)
  /\ handle booked_on (Complete 2) db_booked = (Raise Http404, db_booked)
  /\ handle booked_on (Cancel 2) db_booked = (Raise Http404, db_booked).
Proof.
  apply (unknown_key_is_404 booked_on 2 db_booked). reflexivity.
Defined.

Lemma transition_refused_text (t : transition) now pk db a :
  find (pk_is (Some pk)) (appointments db) = Some a ->
  ~ allowed_from t (Appointment.status a) ->
  transition_view t now pk db
  = (Return (mkResponse (ErrorBody (refusal_text t)) HTTP_400_BAD_REQUEST),
     db).
Proof.
  intros Hfind Hno. rewrite allowed_from_guard in Hno.
  apply not_false_is_true in Hno.
  destruct t; simpl in *;
    unfold AppointmentViewSet.check_in, AppointmentViewSet.complete,
           AppointmentViewSet.cancel;
    unfold bind at 1; rewrite get_object_eq, Hfind; simpl;
    fold (status_in [CHECKED_IN; IN_PROGRESS] (Appointment.status a));
    rewrite Hno; reflexivity.
Qed.

(** A transition asked from a state its view does not allow is answered
    with status 400 and the text of the view, at any time of the day,
    and nothing is written: no exception, no validation, no save. *)
Theorem transition_refused_400 (t : transition) (now : DateTime.t) (pk : Z)
    (db : DB) (a : Appointment.t) :
  find (pk_is (Some pk)) (appointments db) = Some a ->
  ~ allowed_from t (Appointment.status a) ->
  transition_view t now pk db
  = (Return (mkResponse (ErrorBody (refusal_text t)) HTTP_400_BAD_REQUEST),
     db).
Proof. apply transition_refused_text. Qed.

(** Completing the visit that is merely booked, long after its time. *)
Lemma transition_refused_400_witness :
  AppointmentViewSet.complete (at_time (ymd 2031 1 1) 0 0) 1 db_booked
  = (Return (mkResponse
               (ErrorBody
                  "Can only complete checked-in or in-progress appointments")
               HTTP_400_BAD_REQUEST),
     db_booked).
Proof.
  apply (transition_refused_400 complete (at_time (ymd 2031 1 1) 0 0) 1
           db_booked visit_row).
  - reflexivity.
  - simpl. intros [H | H]; discriminate.
Defined.

Lemma save_stored_update now self db k :
  Appointment.pk self = Some k ->
  existsb (pk_is (Some k)) (appointments db) = true ->
  forall a db',
    save now self db = (Return a, db') ->
    a = stored_update now self
    /\ db' = with_appointments db
               (replace_row k (stored_update now self) (appointments db))
               (appointment_seq db).
Proof.
  intros Hk Hex a db' H. rewrite save_eq in H.
  destruct (fst (clean now self db)); [|discriminate].
  unfold super_save in H. unfold_monad. rewrite Hk, Hex in H.
  injection H as <- <-. split; reflexivity.
Qed.

Lemma stored_row_exists db pk a :
  find (pk_is (Some pk)) (appointments db) = Some a ->
  existsb (pk_is (Some pk)) (appointments db) = true.
Proof.
  intros Hf. destruct (find_pk_is _ _ _ Hf) as [Hin Hpk].
  apply existsb_exists. exists a. split; [exact Hin|].
  apply pk_is_Some. exact Hpk.
Qed.

Lemma transition_effect_aux (t : transition) now pk db a' db' :
  transition_view t now pk db
  = (Return (mkResponse (AppointmentBody a') HTTP_200_OK), db') ->
  exists a,
    find (pk_is (Some pk)) (appointments db) = Some a
    /\ allowed_from t (Appointment.status a)
    /\ a' = stored_update now (Appointment.set_status (target t) a)
    /\ db' = with_appointments db (replace_row pk a' (appointments db))
               (appointment_seq db).
Proof.
  intros H.
  destruct (find (pk_is (Some pk)) (appointments db)) as [a|] eqn:Hf.
  - exists a. split; [reflexivity|].
    destruct (allowed_from_dec t (Appointment.status a)) as [Hok | Hno].
    + split; [exact Hok|].
      rewrite (transition_is_save t now pk db a Hf Hok) in H.
      apply bind_Return_inv in H as (a1 & db1 & Hsave & Hret).
      unfold ret in Hret. injection Hret as <- <-.
      destruct (find_pk_is _ _ _ Hf) as [_ Hpk].
      destruct (save_stored_update now _ db pk
                  (Hpk : Appointment.pk (Appointment.set_status (target t) a)
                         = Some pk)
                  (stored_row_exists _ _ _ Hf) _ _ Hsave) as [-> ->].
      split; reflexivity.
    + rewrite (transition_refused_text t now pk db a Hf Hno) in H.
      discriminate.
  - rewrite (transition_missing t now pk db Hf) in H. discriminate.
Qed.

(** A transition that is performed found the record in an allowed
    state; it overwrites that row with the same record in the target
    status, stamped as updated now, and touches nothing else: no other
    row, no patient, no key counter. *)
Theorem transition_effect (t : transition) (now : DateTime.t) (pk : Z)
    (db : DB) (a' : Appointment.t) (db' : DB) :
  transition_view t now pk db
  = (Return (mkResponse (AppointmentBody a') HTTP_200_OK), db') ->
  exists a,
    find (pk_is (Some pk)) (appointments db) = Some a
    /\ allowed_from t (Appointment.status a)
    /\ a' = stored_update now (Appointment.set_status (target t) a)
    /\ db' = with_appointments db (replace_row pk a' (appointments db))
               (appointment_seq db).
Proof. apply transition_effect_aux. Qed.

(** The check-in of the scenario, ten minutes ahead of the exam. *)
Lemma transition_effect_witness :
  exists a,
    find (pk_is (Some 1)) (appointments db_confirmed) = Some a
    /\ allowed_from check_in (Appointment.status a)
    /\ stored_update (at_time visit_day 13 50)
         (Appointment.set_status CHECKED_IN
            (Appointment.set_status CONFIRMED visit_row))
       = stored_update (at_time visit_day 13 50)
           (Appointment.set_status (target check_in) a)
    /\ db_checked_in
       = with_appointments db_confirmed
           (replace_row 1
              (stored_update (at_time visit_day 13 50)
                 (Appointment.set_status CHECKED_IN
                    (Appointment.set_status CONFIRMED visit_row)))
              (appointments db_confirmed))
           (appointment_seq db_confirmed).
Proof.
  apply (transition_effect check_in (at_time visit_day 13 50) 1 db_confirmed
           (stored_update (at_time visit_day 13 50)
              (Appointment.set_status CHECKED_IN
                 (Appointment.set_status CONFIRMED visit_row)))
           db_checked_in).
  vm_compute. reflexivity.
Defined.

Lemma save_then_ret_returns {B} now self (f : Appointment.t -> B) db :
  DateTime.ltb (Appointment.appointment_date self) now = false ->
  Appointment.patient_id self <> 0 ->
  exists_ (overlapping db (Appointment.patient_id self)
             (Appointment.appointment_date self)
             (Appointment.pk self)) = false ->
  exists a db',
    save now self db = (Return a, db')
    /\ (x <- save now self ;; ret (f x)) db = (Return (f a), db').
Proof.
  intros Hfuture Hfk Hnone.
  assert (Ht : truthy (Appointment.patient_id self) = true).
  { unfold truthy. apply negb_true_iff, Z.eqb_neq. exact Hfk. }
  destruct (super_save_returns now self db) as (row & db1 & Hs).
  exists row, db1. unfold bind.
  rewrite save_eq, clean_eq, Hfuture, Ht. unfold overlapping in Hnone.
  rewrite Hnone. simpl. rewrite Hs. split; reflexivity.
Qed.

(** In a well-formed store, a transition on a stored record is performed
    if and only if the record is in an allowed state, its scheduled
    date-time is not earlier than now, and no other active appointment of
    the patient is on the same calendar date. *)
Theorem transition_performed_iff (t : transition) (now : DateTime.t)
    (pk : Z) (db : DB) (a : Appointment.t) :
  wf db ->
  find (pk_is (Some pk)) (appointments db) = Some a ->
  (exists a' db',
     transition_view t now pk db
     = (Return (mkResponse (AppointmentBody a') HTTP_200_OK), db'))
  <-> allowed_from t (Appointment.status a)
      /\ DateTime.ltb (Appointment.appointment_date a) now = false
      /\ ~ other_active_exists db (Appointment.patient_id a)
             (DateTime.date (Appointment.appointment_date a)) (Some pk).
Proof.
  intros Hwf Hf. destruct (find_pk_is _ _ _ Hf) as [Hin Hpk].
  assert (Hfk : Appointment.patient_id a <> 0) by apply (wf_fk db Hwf _ Hin).
  rewrite <- (overlapping_exists_iff db _ _ (Some pk)
                (wf_rows_have_keys db Hwf)).
  fold (overlapping db (Appointment.patient_id a)
          (Appointment.appointment_date a) (Some pk)).
  split.
  - intros (a' & db' & H).
    destruct (transition_effect_aux _ _ _ _ _ _ H) as (a0 & Hf0 & Hok & _).
    rewrite Hf in Hf0. injection Hf0 as <-. split; [exact Hok|].
    rewrite (transition_is_save t now pk db a Hf Hok) in H.
    apply bind_Return_inv in H as (a1 & db1 & Hsave & _).
    rewrite save_eq in Hsave.
    destruct (fst (clean now (Appointment.set_status (target t) a) db))
      as [[]|e] eqn:Hclean; [|discriminate].
    destruct (clean_passed _ _ _ Hclean Hfk) as [Hfuture Hnone].
    split; [exact Hfuture|]. simpl in Hnone. rewrite Hpk in Hnone.
    rewrite Hnone. simpl. discriminate.
  - intros (Hok & Hfuture & Hnone).
    rewrite (transition_is_save t now pk db a Hf Hok).
    destruct (save_then_ret_returns now
                (Appointment.set_status (target t) a)
                (fun x => mkResponse (AppointmentBody x) HTTP_200_OK) db)
      as (a1 & db1 & _ & E).
    + exact Hfuture.
    + exact Hfk.
    + simpl. rewrite Hpk. apply not_true_is_false. exact Hnone.
    + exists a1, db1. exact E.
Qed.

(** Checking in the confirmed visit ten minutes ahead is performed. *)
Lemma transition_performed_iff_witness :
  (exists a' db',
     AppointmentViewSet.check_in (at_time visit_day 13 50) 1 db_confirmed
     = (Return (mkResponse (AppointmentBody a') HTTP_200_OK), db'))
  <-> allowed_from check_in CONFIRMED
      /\ DateTime.ltb (at_time visit_day 14 0) (at_time visit_day 13 50)
         = false
      /\ ~ other_active_exists db_confirmed 1 visit_day (Some 1).
Proof.
  apply (transition_performed_iff check_in (at_time visit_day 13 50) 1
           db_confirmed (Appointment.set_status CONFIRMED visit_row)).
  - apply reachable_invariants.
    unfold db_confirmed, db_booked, db_registered.
    do 3 apply reachable_run. apply reachable_empty.
  - reflexivity.
Defined.

Lemma find_replace_row (k : Z) (row a : Appointment.t)
    (rows : list Appointment.t) :
  Appointment.pk row = Some k ->
  find (pk_is (Some k)) rows = Some a ->
  find (pk_is (Some k)) (replace_row k row rows) = Some row.
Proof.
  intros Hrow. unfold replace_row.
  induction rows as [|r rows IH]; simpl; [discriminate|].
  destruct (pk_is (Some k) r) eqn:E.
  - intros _. rewrite (proj2 (pk_is_Some k row) Hrow). reflexivity.
  - rewrite E. exact IH.
Qed.

(** After a transition is performed the record is in the target status,
    so a next transition that the target status does not allow is
    answered with its 400: a second check-in is refused, after complete
    all three views refuse, after cancel check-in and complete refuse. *)
Theorem transition_then_refused (t t' : transition) (now now' : DateTime.t)
    (pk : Z) (db : DB) (a' : Appointment.t) (db' : DB) :
  transition_view t now pk db
  = (Return (mkResponse (AppointmentBody a') HTTP_200_OK), db') ->
  ~ allowed_from t' (target t) ->
  transition_view t' now' pk db'
  = (Return (mkResponse (ErrorBody (refusal_text t')) HTTP_400_BAD_REQUEST),
     db')
  /\ ~ allowed_from check_in (target check_in)
  /\ (forall t'', ~ allowed_from t'' (target complete))
  /\ ~ allowed_from check_in (target cancel)
  /\ ~ allowed_from complete (target cancel).
Proof.
  intros H Hno. split.
  - destruct (transition_effect_aux _ _ _ _ _ _ H)
      as (a & Hf & _ & Ha' & Hdb').
    destruct (find_pk_is _ _ _ Hf) as [_ Hpk].
    apply (transition_refused_text t' now' pk db' a').
    + rewrite Hdb'. simpl. apply (find_replace_row pk a' a); [|exact Hf].
      rewrite Ha'. exact Hpk.
    + rewrite Ha'. exact Hno.
  - simpl. repeat split; try discriminate.
    + intros t''. destruct t''; simpl; try discriminate.
      * intros [E | E]; discriminate.
      * intros E. apply E. reflexivity.
    + intros [E | E]; discriminate.
Qed.

(** The scenario of the specification: check-in, then check-in again. *)
Lemma transition_then_refused_witness :
  AppointmentViewSet.check_in (at_time visit_day 13 55) 1 db_checked_in
  = (Return (mkResponse
               (ErrorBody "Can only check in confirmed appointments")
               HTTP_400_BAD_REQUEST),
     db_checked_in)
  /\ ~ allowed_from check_in (target check_in)
  /\ (forall t'', ~ allowed_from t'' (target complete))
  /\ ~ allowed_from check_in (target cancel)
  /\ ~ allowed_from complete (target cancel).
Proof.
  apply (transition_then_refused check_in check_in
           (at_time visit_day 13 50) (at_time visit_day 13 55) 1
           db_confirmed
           (stored_update (at_time visit_day 13 50)
              (Appointment.set_status CHECKED_IN
                 (Appointment.set_status CONFIRMED visit_row)))
           db_checked_in).
  - vm_compute. reflexivity.
  - simpl. discriminate.
Defined.

(* ================================================================== *)
(** * Registering patients                                              *)
(* ================================================================== *)

Lemma find_app_none {A} (f : A -> bool) (l1 l2 : list A) :
  find f l1 = None -> find f (l1 ++ l2) = find f l2.
Proof.
  induction l1 as [|x l1 IH]; simpl; [reflexivity|].
  destruct (f x); [discriminate | exact IH].
Qed.

Lemma find_app_some {A} (f : A -> bool) (l1 l2 : list A) (x : A) :
  find f l1 = Some x -> find f (l1 ++ l2) = Some x.
Proof.
  induction l1 as [|y l1 IH]; simpl; [discriminate|].
  destruct (f y); [auto | exact IH].
Qed.

Lemma patient_is_valid_accepts now body db :
  registrable now body db ->
  PatientSerializer.is_valid now body db = (Return body, db).
Proof.
  intros (Hu & Hp & Hd & Hph).
  unfold PatientSerializer.is_valid. unfold_monad.
  unfold PatientSerializer.unique_patient_id,
         PatientSerializer.validate_patient_id,
         PatientSerializer.validate_date_of_birth,
         PatientSerializer.validate_phone, Date.gtb.
  rewrite Hu, Hp, Hd, Hph. reflexivity.
Qed.

Lemma patient_is_valid_rejects now body db :
  ~ registrable now body db ->
  exists errors,
    errors <> []
    /\ PatientSerializer.is_valid now body db
       = (Raise (SerializerValidationError errors), db).
Proof.
  intros Hno. unfold PatientSerializer.is_valid. unfold_monad.
  match goal with
  | |- context [match ?l with [] => _ | _ :: _ => _ end] =>
      destruct l as [|err errs] eqn:E
  end.
  - exfalso. apply Hno.
    apply app_eq_nil in E as [E1 E]. apply app_eq_nil in E as [E2 E3].
    unfold PatientSerializer.unique_patient_id,
           PatientSerializer.validate_patient_id,
           PatientSerializer.validate_date_of_birth,
           PatientSerializer.validate_phone, Date.gtb in *.
    unfold registrable.
    destruct (Patient_objects_get (pd_patient_id body) db);
      [discriminate|].
    destruct (String.prefix "PT" (pd_patient_id body)); [|discriminate].
    destruct (Date.ltb (DateTime.date now) (pd_date_of_birth body));
      [discriminate|].
    destruct (phone_regex (pd_phone body)); [|discriminate].
    repeat split.
  - eexists. split; [|reflexivity]. discriminate.
Qed.

Lemma registrable_dec now body db :
  registrable now body db \/ ~ registrable now body db.
Proof.
  unfold registrable.
  destruct (Patient_objects_get (pd_patient_id body) db);
    [right; intros (H & _); discriminate|].
  destruct (String.prefix "PT" (pd_patient_id body));
    [|right; intros (_ & H & _); discriminate].
  destruct (Date.ltb (DateTime.date now) (pd_date_of_birth body));
    [right; intros (_ & _ & H & _); discriminate|].
  destruct (phone_regex (pd_phone body));
    [|right; intros (_ & _ & _ & H); discriminate].
  left. repeat split.
Qed.

Lemma register_view_accepts now body db :
  registrable now body db ->
  PatientViewSet.create now body db
  = (Return (mkResponse (PatientBody (registered_row body db))
                        HTTP_201_CREATED),
     mkDB (patients db ++ [registered_row body db]) (appointments db)
          (patient_seq db + 1) (appointment_seq db)).
Proof.
  intros H. unfold PatientViewSet.create, bind.
  rewrite (patient_is_valid_accepts _ _ _ H). reflexivity.
Qed.

Lemma register_view_rejects now body db :
  ~ registrable now body db ->
  exists errors,
    errors <> []
    /\ PatientViewSet.create now body db
       = (Raise (SerializerValidationError errors), db).
Proof.
  intros H. destruct (patient_is_valid_rejects _ _ _ H) as (errors & Hne & E).
  exists errors. split; [exact Hne|].
  unfold PatientViewSet.create, bind. rewrite E. reflexivity.
Qed.

(** A registration is accepted only if the identifier is not yet stored
    and starts with PT, the date of birth is not after today, and the
    phone matches the pattern of the model field (three, three and four
    decimal digits of any script, with two dashes).  A body that fails
    one of the four is answered with the errors of its fields, and the
    store is untouched. *)
Theorem register_accepted_only_if (now : DateTime.t) (body : PatientData)
    (db : DB) :
  (forall resp db',
     PatientViewSet.create now body db = (Return resp, db') ->
     registrable now body db)
  /\ (~ registrable now body db ->
      exists errors,
        errors <> []
        /\ PatientViewSet.create now body db
           = (Raise (SerializerValidationError errors), db)).
Proof.
  split.
  - intros resp db' H.
    destruct (registrable_dec now body db) as [Hr | Hr]; [exact Hr|].
    destruct (register_view_rejects _ _ _ Hr) as (errors & _ & E).
    rewrite E in H. discriminate.
  - apply register_view_rejects.
Qed.

(** An accepted registration appends one patient row under the next
    patient key and changes nothing else; looking the identifier up
    afterwards finds that row, and every identifier stored before is
    still found as before. *)
Theorem register_then_lookup (now : DateTime.t) (body : PatientData)
    (db : DB) (resp : Response) (db' : DB) :
  PatientViewSet.create now body db = (Return resp, db') ->
  resp = mkResponse (PatientBody (registered_row body db)) HTTP_201_CREATED
  /\ db' = mkDB (patients db ++ [registered_row body db]) (appointments db)
                (patient_seq db + 1) (appointment_seq db)
  /\ Patient_objects_get (pd_patient_id body) db'
     = Some (registered_row body db)
  /\ (forall pid p,
        Patient_objects_get pid db = Some p ->
        Patient_objects_get pid db' = Some p).
Proof.
  intros H.
  destruct (registrable_dec now body db) as [Hr | Hr].
  - rewrite (register_view_accepts _ _ _ Hr) in H.
    injection H as <- <-. split; [reflexivity|]. split; [reflexivity|].
    destruct Hr as (Hu & _). unfold Patient_objects_get in *. simpl.
    split.
    + rewrite (find_app_none _ _ _ Hu). simpl.
      rewrite String.eqb_refl. reflexivity.
    + intros pid p Hp. apply find_app_some. exact Hp.
  - destruct (register_view_rejects _ _ _ Hr) as (errors & _ & E).
    rewrite E in H. discriminate.
Qed.

Lemma register_then_lookup_witness :
  mkResponse (PatientBody (registered_row pt0001 empty_db)) HTTP_201_CREATED
  = mkResponse (PatientBody (registered_row pt0001 empty_db))
               HTTP_201_CREATED
  /\ db_registered
     = mkDB (patients empty_db ++ [registered_row pt0001 empty_db])
            (appointments empty_db)
            (patient_seq empty_db + 1) (appointment_seq empty_db)
  /\ Patient_objects_get (pd_patient_id pt0001) db_registered
     = Some (registered_row pt0001 empty_db)
  /\ (forall pid p,
        Patient_objects_get pid empty_db = Some p ->
        Patient_objects_get pid db_registered = Some p).
Proof.
  apply (register_then_lookup booked_on pt0001 empty_db
           (mkResponse (PatientBody (registered_row pt0001 empty_db))
                       HTTP_201_CREATED)
           db_registered).
  vm_compute. reflexivity.
Defined.

(* ================================================================== *)
(** * The effect of creates and updates                                 *)
(* ================================================================== *)

Lemma save_stored_insert now self db :
  Appointment.pk self = None ->
  forall a db',
    save now self db = (Return a, db') ->
    a = stored_insert now (appointment_seq db) self
    /\ db' = with_appointments db
               (appointments db
                ++ [stored_insert now (appointment_seq db) self])
               (appointment_seq db + 1).
Proof.
  intros Hk a db' H. rewrite save_eq in H.
  destruct (fst (clean now self db)); [|discriminate].
  unfold super_save in H. unfold_monad. rewrite Hk in H.
  injection H as <- <-. split; reflexivity.
Qed.

Lemma create_effect_aux now body db resp db' :
  AppointmentViewSet.create now body db = (Return resp, db') ->
  exists pid patient dt et rp,
    d_patient_id body = Some pid
    /\ Patient_objects_get pid db = Some patient
    /\ d_appointment_date body = Some dt
    /\ d_exam_type body = Some et
    /\ d_referring_physician body = Some rp
    /\ DateTime.ltb dt now = false
    /\ resp = mkResponse
                (AppointmentBody
                   (stored_insert now (appointment_seq db)
                      (AppointmentSerializer.new_appointment
                         (Patient.pk patient) dt et rp body)))
                HTTP_201_CREATED
    /\ db' = with_appointments db
               (appointments db
                ++ [stored_insert now (appointment_seq db)
                      (AppointmentSerializer.new_appointment
                         (Patient.pk patient) dt et rp body)])
               (appointment_seq db + 1).
Proof.
  intros H.
  destruct (AppointmentSerializer.field_validation_errors now false body db)
    as [|err errs] eqn:Herr.
  2: { rewrite (create_view_invalid _ _ _ _ _ Herr) in H. discriminate. }
  pose proof (no_field_errors_required _ _ _ Herr) as Hreq.
  unfold required_present in Hreq.
  destruct (d_patient_id body) as [pid|] eqn:Hp; [|discriminate].
  destruct (d_appointment_date body) as [dt|] eqn:Hd; [|discriminate].
  destruct (d_exam_type body) as [et|] eqn:He; [|discriminate].
  destruct (d_referring_physician body) as [rp|] eqn:Hr; [|discriminate].
  destruct (no_field_errors_patient _ _ _ _ _ Herr Hp) as [patient Hget].
  rewrite (create_view_valid _ _ _ _ _ _ _ _ Herr Hp Hget Hd He Hr) in H.
  destruct (exists_ _); [discriminate|].
  apply bind_Return_inv in H as (a & db1 & Hsave & Hret).
  unfold ret in Hret. injection Hret as <- <-.
  destruct (save_stored_insert now
              (AppointmentSerializer.new_appointment
                 (Patient.pk patient) dt et rp body)
              db eq_refl _ _ Hsave) as [-> ->].
  exists pid, patient, dt, et, rp.
  repeat (split; [first [assumption | reflexivity]|]).
  split; [apply (no_field_errors_date _ _ _ _ _ Herr Hd)|].
  split; reflexivity.
Qed.




(** In a well-formed store a create is accepted only if the body has
    its required fields, names a stored patient, is not scheduled before
    now, and the patient has no active appointment on that calendar
    date. *)
Theorem create_accepted_only_if (now : DateTime.t) (body : AppointmentData)
    (db : DB) (resp : Response) (db' : DB) :
  wf db ->
  AppointmentViewSet.create now body db = (Return resp, db') ->
  exists p dt,
    candidate (WCreate body) db = Some (p, dt, None)
    /\ DateTime.ltb dt now = false
    /\ ~ other_active_exists db p (DateTime.date dt) None.
Proof.
  intros Hwf H.
  destruct (create_effect_aux _ _ _ _ _ H)
    as (pid & patient & dt & et & rp & Hp & Hget & Hd & He & Hr & Hfut & _).
  exists (Patient.pk patient), dt.
  assert (Hc : candidate (WCreate body) db
               = Some (Patient.pk patient, dt, None)).
  { simpl. unfold required_present, patient_of.
    rewrite Hp, Hd, He, Hr, Hget. reflexivity. }
  split; [exact Hc|]. split; [exact Hfut|].
  intros Hother.
  assert (Hrej : rejected_with is_conflict_error
                   (handle now (request_of (WCreate body)) db)).
  { rewrite <- (overlapping_exists_iff db _ _ None
                  (wf_rows_have_keys db Hwf)) in Hother.
    simpl. destruct (AppointmentSerializer.field_validation_errors
                       now false body db) as [|err errs] eqn:Herr.
    - rewrite (create_view_valid _ _ _ _ _ _ _ _ Herr Hp Hget Hd He Hr).
      unfold overlapping. rewrite Hother. reflexivity.
    - rewrite (create_view_invalid _ _ _ _ _ Herr) in H. discriminate. }
  simpl in Hrej. rewrite H in Hrej. exact Hrej.
Qed.

(** The first booking is accepted. *)
Lemma create_accepted_only_if_witness :
  exists p dt,
    candidate (WCreate (booking (at_time visit_day 14 0) None))
              db_registered = Some (p, dt, None)
    /\ DateTime.ltb dt booked_on = false
    /\ ~ other_active_exists db_registered p (DateTime.date dt) None.
Proof.
  apply (create_accepted_only_if booked_on
           (booking (at_time visit_day 14 0) None) db_registered
           (mkResponse (AppointmentBody visit_row) HTTP_201_CREATED)
           db_booked).
  - apply reachable_invariants. unfold db_registered.
    apply reachable_run. apply reachable_empty.
  - vm_compute. reflexivity.
Defined.

Lemma update_effect_aux now pk partial body db resp db' :
  AppointmentViewSet.update now pk partial body db = (Return resp, db') ->
  exists instance p,
    find (pk_is (Some pk)) (appointments db) = Some instance
    /\ patient_of body (Some (Appointment.patient_id instance)) db = Some p
    /\ resp = mkResponse
                (AppointmentBody
                   (stored_update now
                      (AppointmentSerializer.set_attributes instance p body)))
                HTTP_200_OK
    /\ db' = with_appointments db
               (replace_row pk
                  (stored_update now
                     (AppointmentSerializer.set_attributes instance p body))
                  (appointments db))
               (appointment_seq db).
Proof.
  intros H.
  destruct (find (pk_is (Some pk)) (appointments db)) as [instance|] eqn:Hf.
  2: { rewrite (update_view_missing _ _ _ _ _ Hf) in H. discriminate. }
  destruct (AppointmentSerializer.field_validation_errors now partial body db)
    as [|err errs] eqn:Herr.
  2: { rewrite (update_view_invalid _ _ _ _ _ _ _ _ Hf Herr) in H.
       discriminate. }
  destruct (update_view_valid _ _ _ _ _ _ Hf Herr) as (p & Hp & E).
  rewrite E in H. exists instance, p. split; [reflexivity|].
  split; [exact Hp|].
  destruct (find_pk_is _ _ _ Hf) as [_ Hpk].
  assert (K : forall res,
            (a <- save now
                    (AppointmentSerializer.set_attributes instance p body) ;;
             ret (mkResponse (AppointmentBody a) HTTP_200_OK)) db
            = (Return res, db') ->
            res = mkResponse
                    (AppointmentBody
                       (stored_update now
                          (AppointmentSerializer.set_attributes
                             instance p body)))
                    HTTP_200_OK
            /\ db' = with_appointments db
                       (replace_row pk
                          (stored_update now
                             (AppointmentSerializer.set_attributes
                                instance p body))
                          (appointments db))
                       (appointment_seq db)).
  { intros res Hres.
    apply bind_Return_inv in Hres as (a & db1 & Hsave & Hret).
    unfold ret in Hret. injection Hret as <- <-.
    destruct (save_stored_update now
                (AppointmentSerializer.set_attributes instance p body)
                db pk Hpk (stored_row_exists _ _ _ Hf) _ _ Hsave)
      as [-> ->].
    split; reflexivity. }
  destruct (d_patient_id body), (d_appointment_date body);
    try (apply K; exact H).
  destruct (exists_ _); [discriminate | apply K; exact H].
Qed.



(* ================================================================== *)
(** * The effect of every request, and what it keeps                    *)
(* ================================================================== *)

Lemma transition_request_handle (t : transition) now pk :
  handle now (transition_request t pk) = transition_view t now pk.
Proof. destruct t; reflexivity. Qed.

Lemma transition_effect_any (t : transition) now pk db :
  effect now (transition_request t pk) db (snd (transition_view t now pk db)).
Proof.
  destruct (find (pk_is (Some pk)) (appointments db)) as [a|] eqn:Hf.
  - destruct (allowed_from_dec t (Appointment.status a)) as [Hok | Hno].
    + rewrite (transition_is_save t now pk db a Hf Hok). unfold bind.
      destruct (save now (Appointment.set_status (target t) a) db)
        as [[a1|e] db1] eqn:Hsave; simpl.
      * destruct (find_pk_is _ _ _ Hf) as [_ Hpk].
        destruct (save_stored_update now
                    (Appointment.set_status (target t) a) db pk Hpk
                    (stored_row_exists _ _ _ Hf) _ _ Hsave) as [_ ->].
        apply effect_transition; assumption.
      * rewrite (save_raise_keeps_db _ _ _ _ _ Hsave). apply effect_none.
    + rewrite (transition_refused_text t now pk db a Hf Hno).
      apply effect_none.
  - rewrite (transition_missing t now pk db Hf). apply effect_none.
Qed.

Lemma handle_effect_any (now : DateTime.t) (r : request) (db : DB) :
  effect now r db (snd (handle now r db)).
Proof.
  destruct r as [pdata | body | pk partial body | pk | pk | pk
                | pk | pk partial body | pk]; simpl.
  - destruct (registrable_dec now pdata db) as [Hr | Hr].
    + rewrite (register_view_accepts _ _ _ Hr). simpl.
      apply effect_register. exact Hr.
    + destruct (register_view_rejects _ _ _ Hr) as (errors & _ & ->).
      apply effect_none.
  - destruct (AppointmentViewSet.create now body db) as [[resp|e] db'] eqn:H.
    + destruct (create_effect_aux _ _ _ _ _ H)
        as (pid & patient & dt & et & rp & Hp & Hget & Hd & He & Hr & Hfut
            & _ & ->).
      simpl. eapply effect_create; eassumption.
    + simpl. rewrite (handle_raise_keeps_db now (Create body) db e db' H).
      apply effect_none.
  - destruct (AppointmentViewSet.update now pk partial body db)
      as [[resp|e] db'] eqn:H.
    + destruct (update_effect_aux _ _ _ _ _ _ _ H)
        as (instance & p & Hf & Hp & _ & ->).
      simpl. apply effect_update; assumption.
    + simpl.
      rewrite (handle_raise_keeps_db now (Update pk partial body) db e db' H).
      apply effect_none.
  - apply (transition_effect_any check_in).
  - apply (transition_effect_any complete).
  - apply (transition_effect_any cancel).
  - rewrite destroy_view_eq.
    destruct (find _ _) as [a|] eqn:Hf; simpl;
      [eapply effect_destroy; exact Hf | apply effect_none].
  - rewrite patient_update_view_eq.
    destruct (find _ _) as [instance|] eqn:Hf; simpl; [|apply effect_none].
    destruct (PatientSerializer.update_errors _ _ _ _ _) eqn:Herr; simpl;
      [apply effect_update_patient; assumption | apply effect_none].
  - rewrite patient_destroy_view_eq.
    destruct (find _ _) as [p|] eqn:Hf; simpl;
      [eapply effect_destroy_patient; exact Hf | apply effect_none].
Qed.

Lemma replace_row_length k row rows :
  List.length (replace_row k row rows) = List.length rows.
Proof. unfold replace_row. apply length_map. Qed.

Lemma replace_patient_pks k row rows :
  Patient.pk row = k ->
  map Patient.pk (replace_patient k row rows) = map Patient.pk rows.
Proof.
  intros Hrow. induction rows as [|q rows IH]; simpl; [reflexivity|].
  rewrite IH. destruct (Patient.pk q =? k) eqn:E; [|reflexivity].
  apply Z.eqb_eq in E. congruence.
Qed.

Lemma effect_keys now r db db' :
  effect now r db db' ->
  (forall pk, r <> Destroy pk) ->
  (forall pk, r <> DestroyPatient pk) ->
  (map Appointment.pk (appointments db')
   = map Appointment.pk (appointments db)
   \/ (exists body, r = Create body)
      /\ map Appointment.pk (appointments db')
         = map Appointment.pk (appointments db)
           ++ [Some (appointment_seq db)])
  /\ (map Patient.pk (patients db') = map Patient.pk (patients db)
      \/ (exists body, r = RegisterPatient body)
         /\ map Patient.pk (patients db')
            = map Patient.pk (patients db) ++ [patient_seq db]).
Proof.
  intros He Hd Hdp.
  destruct He
    as [r0 db0
       | body0 db0 Hreg
       | body0 db0 pid patient dt et rp Hp Hget Hd' Het Hrp Hfut
       | pk0 partial body0 db0 instance p Hf Hpat
       | t pk0 db0 a Hf Hok
       | pk0 db0 a Hf
       | pk0 partial body0 db0 instance Hf Herr
       | pk0 db0 p Hf]; simpl.
  - split; left; reflexivity.
  - split; [left; reflexivity|]. right.
    split; [eexists; reflexivity|]. rewrite map_app. reflexivity.
  - split; [|left; reflexivity]. right.
    split; [eexists; reflexivity|]. rewrite map_app. reflexivity.
  - split; [|left; reflexivity]. left. apply map_replace_pk.
    apply (find_pk_is _ _ _ Hf).
  - split; [|left; reflexivity]. left. apply map_replace_pk.
    apply (find_pk_is _ _ _ Hf).
  - exfalso. apply (Hd pk0). reflexivity.
  - split; [left; reflexivity|]. left.
    apply replace_patient_pks. simpl.
    apply (find_patient_pk _ _ _ Hf).
  - exfalso. apply (Hdp pk0). reflexivity.
Qed.

Lemma effect_seqs now r db db' :
  effect now r db db' ->
  appointment_seq db <= appointment_seq db'
  /\ patient_seq db <= patient_seq db'.
Proof. intros He. destruct He; simpl; lia. Qed.

(** Rows leave the tables by DELETE only.  A DELETE of an appointment
    removes the row of the key and nothing else; a DELETE of a patient
    removes the patient and exactly the appointments that refer to it; a
    DELETE of an unknown key changes nothing.  Every other request
    leaves the keys of both tables as they were, in the same order,
    followed by the next key of the table only when it was a create,
    respectively a registration; and no request lowers a next key. *)
Theorem rows_leave_by_delete_only (now : DateTime.t) (r : request)
    (db : DB) :
  let db' := snd (handle now r db) in
  match r with
  | Destroy pk =>
      match find (pk_is (Some pk)) (appointments db) with
      | Some _ => db' = without_appointment pk db
      | None => db' = db
      end
  | DestroyPatient pk =>
      match find (fun p => Patient.pk p =? pk) (patients db) with
      | Some _ => db' = without_patient pk db
      | None => db' = db
      end
  | _ =>
      (map Appointment.pk (appointments db')
       = map Appointment.pk (appointments db)
       \/ (exists body, r = Create body)
          /\ map Appointment.pk (appointments db')
             = map Appointment.pk (appointments db)
               ++ [Some (appointment_seq db)])
      /\ (map Patient.pk (patients db') = map Patient.pk (patients db)
          \/ (exists body, r = RegisterPatient body)
             /\ map Patient.pk (patients db')
                = map Patient.pk (patients db) ++ [patient_seq db])
  end
  /\ appointment_seq db <= appointment_seq db'
  /\ patient_seq db <= patient_seq db'.
Proof.
  cbv zeta. split; [|apply (effect_seqs now r); apply handle_effect_any].
  pose proof (handle_effect_any now r db) as He.
  destruct r;
    try (apply (effect_keys _ _ _ _ He); intros k; discriminate).
  - simpl. rewrite destroy_view_eq. destruct (find _ _); reflexivity.
  - simpl. rewrite patient_destroy_view_eq. destruct (find _ _); reflexivity.
Qed.

Lemma NoDup_map_eq {A B} (f : A -> B) (l : list A) (x y : A) :
  NoDup (map f l) -> In x l -> In y l -> f x = f y -> x = y.
Proof.
  induction l as [|z l IH]; simpl; intros Hnd Hx Hy E; [destruct Hx|].
  inversion Hnd as [|w ws Hnotin Hnd']; subst.
  destruct Hx as [-> | Hx], Hy as [-> | Hy].
  - reflexivity.
  - exfalso. apply Hnotin. rewrite E. apply in_map. exact Hy.
  - exfalso. apply Hnotin. rewrite <- E. apply in_map. exact Hx.
  - apply IH; assumption.
Qed.

Lemma replace_patient_absent k row rows :
  ~ In k (map Patient.pk rows) -> replace_patient k row rows = rows.
Proof.
  induction rows as [|q rows IH]; simpl; intros H; [reflexivity|].
  destruct (Patient.pk q =? k) eqn:E.
  - apply Z.eqb_eq in E. exfalso. apply H. left. exact E.
  - rewrite IH; [reflexivity|]. intros K. apply H. right. exact K.
Qed.

(** Overwriting the row of a key keeps the identifiers distinct when no
    row with another key carries the new identifier. *)
Lemma replace_patient_ids k row rows :
  NoDup (map Patient.pk rows) ->
  NoDup (map Patient.patient_id rows) ->
  (forall q, In q rows ->
     Patient.patient_id q = Patient.patient_id row -> Patient.pk q = k) ->
  NoDup (map Patient.patient_id (replace_patient k row rows)).
Proof.
  induction rows as [|q rows IH]; simpl; intros Hpk Hid Hrow; [constructor|].
  inversion Hpk as [|x xs Hknotin Hpk']; subst.
  inversion Hid as [|x xs Hinotin Hid']; subst.
  destruct (Patient.pk q =? k) eqn:E.
  - apply Z.eqb_eq in E. fold (replace_patient k row rows).
    rewrite replace_patient_absent by (rewrite <- E; exact Hknotin).
    constructor; [|exact Hid'].
    intros Hin. apply in_map_iff in Hin as (q' & Eq' & Hq').
    apply Hknotin. rewrite E, <- (Hrow q' (or_intror Hq') Eq').
    apply in_map. exact Hq'.
  - apply Z.eqb_neq in E. fold (replace_patient k row rows).
    constructor.
    + intros Hin. apply in_map_iff in Hin as (q' & Eq' & Hq').
      unfold replace_patient in Hq'.
      apply in_map_iff in Hq' as (q0 & E0 & Hq0).
      destruct (Patient.pk q0 =? k); subst q'.
      * apply E. apply (Hrow q (or_introl eq_refl)). symmetry. exact Eq'.
      * apply Hinotin. rewrite <- Eq'. apply in_map. exact Hq0.
    + apply IH; try assumption.
      intros q' Hq'. apply Hrow. right. exact Hq'.
Qed.

Lemma field_errors_nil {A} name partial (v : option A) validate_v x :
  AppointmentSerializer.field_errors name partial v validate_v = [] ->
  v = Some x -> exists y, validate_v x = inl y.
Proof.
  unfold AppointmentSerializer.field_errors. intros H ->.
  destruct (validate_v x) as [y|m]; [eauto | discriminate].
Qed.

(** What an accepted body of a patient update has passed. *)
Lemma update_errors_nil now instance partial body db :
  PatientSerializer.update_errors now instance partial body db = [] ->
  (forall v, pp_patient_id body = Some v ->
     String.prefix "PT" v = true
     /\ forall q, In q (patients db) ->
          Patient.patient_id q = v -> Patient.pk q = Patient.pk instance)
  /\ (forall v, pp_phone body = Some v -> phone_regex v = true).
Proof.
  unfold PatientSerializer.update_errors. intros H.
  apply app_eq_nil in H as [H1 H]. apply app_eq_nil in H as [_ H].
  apply app_eq_nil in H as [_ H]. apply app_eq_nil in H as [_ H5].
  split.
  - intros v Hv. destruct (field_errors_nil _ _ _ _ v H1 Hv) as [y Hy].
    unfold PatientSerializer.unique_patient_id_except,
           PatientSerializer.validate_patient_id in Hy.
    destruct (find _ (patients db)) eqn:Hfind; [discriminate|].
    destruct (String.prefix "PT" v); [|discriminate].
    split; [reflexivity|]. intros q Hq Eq.
    pose proof (find_none _ _ Hfind q Hq) as K. simpl in K.
    rewrite Eq, String.eqb_refl in K. simpl in K.
    apply negb_false_iff, Z.eqb_eq in K. exact K.
  - intros v Hv. destruct (field_errors_nil _ _ _ _ v H5 Hv) as [y Hy].
    unfold PatientSerializer.validate_phone in Hy.
    destruct (phone_regex v); [reflexivity | discriminate].
Qed.

Lemma effect_referential now r db db' :
  effect now r db db' ->
  referential_integrity db -> referential_integrity db'.
Proof.
  intros He Hri.
  destruct He as [r0 db0
                 | body0 db0 Hreg
                 | body0 db0 pid patient dt et rp Hp Hget Hd Het Hrp Hfut
                 | pk0 partial body0 db0 instance p Hf Hpat
                 | t pk0 db0 a Hf Hok
                 | pk0 db0 a0 Hf
                 | pk0 partial body0 db0 instance Hf Herr
                 | pk0 db0 p Hf];
    unfold referential_integrity in *; simpl.
  - exact Hri.
  - intros a Ha. destruct (Hri a Ha) as (p & Hp & E).
    exists p. split; [apply in_or_app; left; exact Hp | exact E].
  - intros a Ha. apply in_app_or in Ha as [Ha | [<- | []]].
    + apply Hri. exact Ha.
    + exists patient. split; [|reflexivity].
      apply find_some in Hget as [Hin _]. exact Hin.
  - intros a Ha. unfold replace_row in Ha.
    apply in_map_iff in Ha as (r0 & Hr0 & Hin).
    destruct (pk_is (Some pk0) r0); [|subst a; apply Hri; exact Hin].
    subst a. simpl. unfold patient_of in Hpat.
    destruct (d_patient_id body0) as [pid|].
    + destruct (Patient_objects_get pid db0) as [patient|] eqn:E;
        [|discriminate].
      simpl in Hpat. injection Hpat as <-. exists patient.
      split; [|reflexivity].
      apply find_some in E as [Hp _]. exact Hp.
    + injection Hpat as <-. apply Hri. apply (find_pk_is _ _ _ Hf).
  - intros r0 Hr0. unfold replace_row in Hr0.
    apply in_map_iff in Hr0 as (r1 & Hr1 & Hin).
    destruct (pk_is (Some pk0) r1); [|subst r0; apply Hri; exact Hin].
    subst r0. simpl. apply Hri. apply (find_pk_is _ _ _ Hf).
  - intros a Ha. apply filter_In in Ha as [Ha _]. apply Hri. exact Ha.
  - intros a Ha. destruct (Hri a Ha) as (q & Hq & E).
    destruct (find_patient_pk _ _ _ Hf) as [_ Hpk].
    exists (if Patient.pk q =? pk0
            then PatientSerializer.set_attributes instance body0 else q).
    split.
    + unfold replace_patient. apply in_map_iff. exists q.
      split; [reflexivity | exact Hq].
    + destruct (Patient.pk q =? pk0) eqn:Eq; [|exact E].
      apply Z.eqb_eq in Eq. simpl. congruence.
  - intros a Ha. apply filter_In in Ha as [Ha Hfk].
    destruct (Hri a Ha) as (q & Hq & E). exists q. split; [|exact E].
    apply filter_In. split; [exact Hq|]. rewrite E. exact Hfk.
Qed.

Lemma effect_patients_valid now r db db' :
  effect now r db db' -> wf db ->
  patients_valid db -> patients_valid db'.
Proof.
  intros He Hwf Hpv.
  destruct He as [r0 db0
                 | body0 db0 Hreg
                 | body0 db0 pid patient dt et rp Hp Hget Hd Het Hrp Hfut
                 | pk0 partial body0 db0 instance p0 Hf Hpat
                 | t pk0 db0 a Hf Hok
                 | pk0 db0 a0 Hf
                 | pk0 partial body0 db0 instance Hf Herr
                 | pk0 db0 p0 Hf]; try exact Hpv.
  - destruct Hpv as (Hids & Hpks & Hall).
    destruct Hreg as (Hu & Hp & _ & Hph).
    unfold patients_valid. simpl. rewrite !map_app. simpl.
    split; [|split].
    + apply NoDup_app; [exact Hids | constructor; [intros [] | constructor] |].
      intros x Hx [<- | []]. apply in_map_iff in Hx as (p & Hpid & Hin).
      unfold Patient_objects_get in Hu.
      apply (find_none _ _ Hu) in Hin. rewrite Hpid, String.eqb_refl in Hin.
      discriminate.
    + apply NoDup_app; [exact Hpks | constructor; [intros [] | constructor] |].
      intros x Hx [<- | []]. apply in_map_iff in Hx as (p & Hpk & Hin).
      pose proof (wf_patients db0 Hwf p Hin). lia.
    + intros p Hin. apply in_app_or in Hin as [Hin | [<- | []]].
      * apply Hall. exact Hin.
      * simpl. split; assumption.
  - destruct Hpv as (Hids & Hpks & Hall).
    destruct (find_patient_pk _ _ _ Hf) as [Hin Hpk].
    destruct (update_errors_nil _ _ _ _ _ Herr) as [Hid Hphone].
    destruct (Hall instance Hin) as [Hpt Hph].
    unfold patients_valid. simpl. split; [|split].
    + apply replace_patient_ids; try assumption.
      intros q Hq. simpl.
      destruct (pp_patient_id body0) as [v|] eqn:Ev; simpl; intros E.
      * destruct (Hid v eq_refl) as [_ Hu]. rewrite (Hu q Hq E). exact Hpk.
      * rewrite (NoDup_map_eq _ _ q instance Hids Hq Hin E). exact Hpk.
    + rewrite replace_patient_pks; [exact Hpks | exact Hpk].
    + intros p Hp. unfold replace_patient in Hp.
      apply in_map_iff in Hp as (q & E & Hq).
      destruct (Patient.pk q =? pk0); subst p; [|apply Hall; exact Hq].
      simpl. split.
      * destruct (pp_patient_id body0) as [v|] eqn:Ev; simpl;
          [apply (Hid v eq_refl) | exact Hpt].
      * destruct (pp_phone body0) as [v|] eqn:Ev; simpl;
          [apply (Hphone v eq_refl) | exact Hph].
  - destruct Hpv as (Hids & Hpks & Hall).
    unfold patients_valid. simpl. split; [|split].
    + apply NoDup_map_filter. exact Hids.
    + apply NoDup_map_filter. exact Hpks.
    + intros p Hp. apply filter_In in Hp as [Hp _]. apply Hall. exact Hp.
Qed.

Lemma reachable_store_invariants db :
  reachable db ->
  wf db /\ referential_integrity db /\ patients_valid db.
Proof.
  induction 1 as [|db now r Hreach (Hwf & Hri & Hpv)].
  - split; [apply empty_db_wf|]. split.
    + intros a [].
    + split; [constructor | split; [constructor | intros q []]].
  - split; [apply handle_preserves;
            [exact Hwf | apply (reachable_invariants db Hreach)]|].
    split.
    + eapply effect_referential; [apply handle_effect_any | exact Hri].
    + eapply effect_patients_valid;
        [apply handle_effect_any | exact Hwf | exact Hpv].
Qed.

(** In every store reachable through the API (the deletes and the
    updates of a patient included) the appointment keys are present,
    distinct, positive and below the next key, and every appointment
    refers to a patient row that is stored: no request leaves a dangling
    patient reference, the delete of a patient takes its appointments
    with it. *)
Theorem reachable_keys_and_references (db : DB) :
  reachable db ->
  NoDup (map Appointment.pk (appointments db))
  /\ (forall a, In a (appointments db) ->
        exists k, Appointment.pk a = Some k /\ 1 <= k < appointment_seq db)
  /\ referential_integrity db.
Proof.
  intros H. destruct (reachable_store_invariants db H) as (Hwf & Hri & _).
  split; [apply (wf_nodup db Hwf)|]. split; [apply (wf_pks db Hwf)|].
  exact Hri.
Qed.

Lemma reachable_keys_and_references_witness :
  NoDup (map Appointment.pk (appointments db_rebooked))
  /\ (forall a, In a (appointments db_rebooked) ->
        exists k,
          Appointment.pk a = Some k /\ 1 <= k < appointment_seq db_rebooked)
  /\ referential_integrity db_rebooked.
Proof.
  apply (reachable_keys_and_references db_rebooked).
  unfold db_rebooked, db_two_visits, db_booked, db_registered.
  do 4 apply reachable_run. apply reachable_empty.
Defined.

Lemma find_unique_id (l : list Patient.t) (p : Patient.t) :
  NoDup (map Patient.patient_id l) ->
  In p l ->
  find (fun q => String.eqb (Patient.patient_id q) (Patient.patient_id p)) l
  = Some p.
Proof.
  induction l as [|q l IH]; intros Hnd Hin; [destruct Hin|].
  simpl in *. inversion Hnd as [|x xs Hnotin Hnd']; subst.
  destruct Hin as [-> | Hin].
  - rewrite String.eqb_refl. reflexivity.
  - destruct (String.eqb (Patient.patient_id q) (Patient.patient_id p)) eqn:E.
    + apply String.eqb_eq in E. exfalso. apply Hnotin. rewrite E.
      apply in_map. exact Hin.
    + apply IH; assumption.
Qed.

(** In every store reachable through the API (the deletes and the
    updates of a patient included) the clinic identifiers of the patients
    are pairwise distinct, each starts with PT, each phone matches the
    pattern of the model field (three, three and four decimal digits of
    any script, with two dashes), and looking a stored patient up by
    its identifier returns that very row. *)
Theorem reachable_patients_valid (db : DB) :
  reachable db ->
  NoDup (map Patient.patient_id (patients db))
  /\ forall p, In p (patients db) ->
       String.prefix "PT" (Patient.patient_id p) = true
       /\ phone_regex (Patient.phone p) = true
       /\ Patient_objects_get (Patient.patient_id p) db = Some p.
Proof.
  intros H.
  destruct (reachable_store_invariants db H) as (_ & _ & Hids & _ & Hall).
  split; [exact Hids|]. intros p Hin.
  destruct (Hall p Hin) as [Hp Hph]. repeat split; try assumption.
  apply find_unique_id; assumption.
Qed.

Lemma reachable_patients_valid_witness :
  NoDup (map Patient.patient_id (patients db_rebooked))
  /\ forall p, In p (patients db_rebooked) ->
       String.prefix "PT" (Patient.patient_id p) = true
       /\ phone_regex (Patient.phone p) = true
       /\ Patient_objects_get (Patient.patient_id p) db_rebooked = Some p.
Proof.
  apply (reachable_patients_valid db_rebooked).
  unfold db_rebooked, db_two_visits, db_booked, db_registered.
  do 4 apply reachable_run. apply reachable_empty.
Defined.

(* ================================================================== *)
(** * Ages                                                              *)
(* ================================================================== *)

Lemma Date_ltb_iff (a b : Date.t) :
  Date.ltb a b = true
  <-> Date.year a < Date.year b
      \/ (Date.year a = Date.year b
          /\ (Date.month a < Date.month b
              \/ (Date.month a = Date.month b /\ Date.day a < Date.day b))).
Proof.
  unfold Date.ltb, pair_ltb; simpl.
  rewrite !orb_true_iff, !andb_true_iff, !orb_true_iff, !andb_true_iff,
          !Z.ltb_lt, !Z.eqb_eq.
  tauto.
Qed.

Lemma Date_leb_iff (a b : Date.t) :
  Date_leb a b = true <-> ~ (Date.ltb b a = true).
Proof.
  unfold Date_leb. destruct (Date.ltb b a); simpl; split; congruence.
Qed.

Lemma age_cases (today : Date.t) (p : Patient.t) :
  let dob := Patient.date_of_birth p in
  (birthday_ahead today dob
   /\ Patient.age today p = Date.year today - Date.year dob - 1)
  \/ (~ birthday_ahead today dob
      /\ Patient.age today p = Date.year today - Date.year dob).
Proof.
  cbv zeta. unfold Patient.age.
  pose proof (pair_ltb_birthday_ahead today (Patient.date_of_birth p)) as Hb.
  destruct (pair_ltb _ _).
  - left. split; [apply Hb; reflexivity | simpl; lia].
  - right. split; [intros H; apply Hb in H; discriminate | simpl; lia].
Qed.

(** The age never decreases as the days pass: computed on a later (or
    the same) date it is at least what it was. *)
Theorem age_monotone (p : Patient.t) (day1 day2 : Date.t) :
  Date_leb day1 day2 = true ->
  Patient.age day1 p <= Patient.age day2 p.
Proof.
  rewrite Date_leb_iff, Date_ltb_iff. intros H.
  destruct (age_cases day1 p) as [[H1 ->] | [H1 ->]];
    destruct (age_cases day2 p) as [[H2 ->] | [H2 ->]];
    unfold birthday_ahead in *; lia.
Qed.

Lemma age_monotone_witness :
  Patient.age (ymd 2024 6 14) (registered_row pt0001 empty_db)
  <= Patient.age (ymd 2031 1 1) (registered_row pt0001 empty_db).
Proof.
  apply (age_monotone (registered_row pt0001 empty_db)
           (ymd 2024 6 14) (ymd 2031 1 1)).
  reflexivity.
Defined.

(** On the day of birth the age is 0, on the k-th birthday it is k, and
    the age is negative exactly on the days before the date of birth. *)
Theorem age_on_birthdays (p : Patient.t) (k : Z) (today : Date.t) :
  Patient.age (Patient.date_of_birth p) p = 0
  /\ Patient.age (anniversary (Patient.date_of_birth p) k) p = k
  /\ (Patient.age today p < 0
      <-> Date.ltb today (Patient.date_of_birth p) = true).
Proof.
  split; [|split].
  - destruct (age_cases (Patient.date_of_birth p) p) as [[H ->] | [H ->]];
      unfold birthday_ahead in *; lia.
  - destruct (age_cases (anniversary (Patient.date_of_birth p) k) p)
      as [[H ->] | [H ->]];
      unfold birthday_ahead, anniversary in *; simpl in *; lia.
  - rewrite Date_ltb_iff.
    destruct (age_cases today p) as [[H ->] | [H ->]];
      unfold birthday_ahead in *; lia.
Qed.

(** A patient the API has registered never shows a negative age: the
    date of birth was not after the day of registration, so the age on
    that day and on every later day is at least 0. *)
Theorem registered_age_nonnegative (now : DateTime.t) (body : PatientData)
    (db : DB) (p : Patient.t) (db' : DB) (today : Date.t) :
  PatientViewSet.create now body db
  = (Return (mkResponse (PatientBody p) HTTP_201_CREATED), db') ->
  Date_leb (DateTime.date now) today = true ->
  0 <= Patient.age today p.
Proof.
  intros H Hlater.
  destruct (registrable_dec now body db) as [Hr | Hr].
  - rewrite (register_view_accepts _ _ _ Hr) in H.
    injection H as <- _. destruct Hr as (_ & _ & Hdob & _).
    assert (Hage : ~ Patient.age today (registered_row body db) < 0).
    { intros Hneg.
      destruct (age_cases today (registered_row body db))
        as [[H1 E] | [H1 E]];
        rewrite E in Hneg; simpl in *;
        apply Date_leb_iff in Hlater;
        rewrite Date_ltb_iff in Hlater;
        apply not_true_iff_false in Hdob;
        rewrite Date_ltb_iff in Hdob;
        unfold birthday_ahead in *; lia. }
    lia.
  - destruct (register_view_rejects _ _ _ Hr) as (errors & _ & E).
    rewrite E in H. discriminate.
Qed.

Lemma registered_age_nonnegative_witness :
  0 <= Patient.age (ymd 2030 1 1) (registered_row pt0001 empty_db).
Proof.
  apply (registered_age_nonnegative booked_on pt0001 empty_db
           (registered_row pt0001 empty_db) db_registered (ymd 2030 1 1)).
  - vm_compute. reflexivity.
  - reflexivity.
Defined.

(* ================================================================== *)
(** * The listings of a patient                                         *)
(* ================================================================== *)

Lemma order_by_In (q : list Appointment.t) (r : Appointment.t) :
  In r (order_by_appointment_date q) <-> In r q.
Proof.
  split; intros H.
  - apply (Permutation_in _ (order_by_perm q)). exact H.
  - apply (Permutation_in _ (Permutation_sym (order_by_perm q))). exact H.
Qed.

Lemma ascending_filter (f : Appointment.t -> bool) (l : list Appointment.t) :
  ascending l -> ascending (filter f l).
Proof.
  induction l as [|x l IH]; simpl; [auto|]. intros [Hx Hl].
  destruct (f x); simpl.
  - split; [|apply IH; exact Hl].
    intros y Hy. apply Hx. apply filter_In in Hy as [Hy _]. exact Hy.
  - apply IH. exact Hl.
Qed.

Lemma patient_appointments_In (patient : Patient.t) (db : DB)
    (r : Appointment.t) :
  In r (patient_appointments patient db)
  <-> In r (appointments db)
      /\ Appointment.patient_id r = Patient.pk patient.
Proof.
  unfold patient_appointments. rewrite order_by_In, filter_In, Z.eqb_eq.
  tauto.
Qed.

Lemma status_value_inj (s s' : status_choice) :
  status_value s = status_value s' -> s = s'.
Proof. destruct s, s'; simpl; intros H; try reflexivity; discriminate. Qed.

(** The appointments of a patient: 404 for an unknown patient key;
    otherwise the listing holds exactly the stored appointments of that
    patient, in ascending order of date-time, restricted to the given
    status when the filter is a non-empty text (so a text that is no
    status value lists nothing), and unrestricted, with as many entries
    as [get_appointment_count] reports, when the filter is absent or
    empty.  The store is only read. *)
Theorem patient_appointments_listing (pk : Z) (status_filter : option string)
    (db : DB) :
  match find (fun p => Patient.pk p =? pk) (patients db) with
  | None =>
      PatientViewSet.appointments pk status_filter db = (Raise Http404, db)
  | Some patient =>
      exists l,
        PatientViewSet.appointments pk status_filter db
        = (Return (mkResponse (AppointmentListBody l) HTTP_200_OK), db)
        /\ ascending l
        /\ (forall r,
              In r l
              <-> In r (appointments db)
                  /\ Appointment.patient_id r = pk
                  /\ match status_filter with
                     | Some (String c rest) =>
                         status_value (Appointment.status r) = String c rest
                     | _ => True
                     end)
        /\ (forall s r,
              status_filter = Some (status_value s) ->
              In r l -> Appointment.status r = s)
        /\ (status_filter = None \/ status_filter = Some EmptyString ->
            count l = get_appointment_count patient db)
  end.
Proof.
  destruct (find (fun p => Patient.pk p =? pk) (patients db))
    as [patient|] eqn:Hf.
  - assert (Hpk : Patient.pk patient = pk).
    { apply find_some in Hf as [_ H]. apply Z.eqb_eq. exact H. }
    unfold PatientViewSet.appointments. unfold bind at 1.
    rewrite patient_get_object_eq, Hf. unfold_monad.
    eexists. split; [reflexivity|].
    assert (Hasc : ascending (patient_appointments patient db))
      by apply order_by_ascending.
    destruct status_filter as [[|c rest]|].
    + split; [exact Hasc|]. split.
      * intros r. rewrite patient_appointments_In, Hpk. tauto.
      * split; [|reflexivity]. intros s r E. destruct s; discriminate.
    + split; [apply ascending_filter; exact Hasc|]. split.
      * intros r. rewrite filter_In, patient_appointments_In, Hpk,
                    String.eqb_eq. tauto.
      * split.
        -- intros s r E Hin. injection E as E.
           apply filter_In in Hin as [_ Hin]. apply String.eqb_eq in Hin.
           apply status_value_inj. congruence.
        -- intros [E | E]; discriminate.
    + split; [exact Hasc|]. split.
      * intros r. rewrite patient_appointments_In, Hpk. tauto.
      * split; [|reflexivity]. intros s r E. discriminate.
  - unfold PatientViewSet.appointments. unfold bind at 1.
    rewrite patient_get_object_eq, Hf. reflexivity.
Qed.

Lemma bookable_is_active (s : status_choice) :
  bookable_status s = true -> status_in ACTIVE s = true.
Proof. destruct s; simpl; congruence. Qed.

Lemma NoDup_rows db :
  NoDup (map Appointment.pk (appointments db)) -> NoDup (appointments db).
Proof. apply NoDup_map_inv. Qed.

(** The upcoming appointments of a patient, in a store reachable through
    the API (the deletes and the updates of a patient included): 404 for an unknown patient key; otherwise exactly the stored
    appointments of that patient with status SCHEDULED or CONFIRMED
    scheduled now or later, in ascending order of date-time, and never
    two of them on the same calendar date. *)
Theorem upcoming_appointments_one_per_day (now : DateTime.t) (pk : Z)
    (db : DB) :
  reachable db ->
  match find (fun p => Patient.pk p =? pk) (patients db) with
  | None =>
      PatientViewSet.upcoming_appointments now pk db = (Raise Http404, db)
  | Some patient =>
      exists l,
        PatientViewSet.upcoming_appointments now pk db
        = (Return (mkResponse (AppointmentListBody l) HTTP_200_OK), db)
        /\ ascending l
        /\ (forall r,
              In r l
              <-> In r (appointments db)
                  /\ Appointment.patient_id r = pk
                  /\ not_before now r = true
                  /\ bookable r = true)
        /\ (forall d,
              (List.length
                 (filter (fun r =>
                            Date.eqb
                              (DateTime.date (Appointment.appointment_date r))
                              d) l)
               <= 1)%nat)
  end.
Proof.
  intros Hreach.
  destruct (reachable_invariants db Hreach) as [Hwf Hinv].
  destruct (find (fun p => Patient.pk p =? pk) (patients db))
    as [patient|] eqn:Hf.
  - assert (Hpk : Patient.pk patient = pk).
    { apply find_some in Hf as [_ H]. apply Z.eqb_eq. exact H. }
    unfold PatientViewSet.upcoming_appointments. unfold bind at 1.
    rewrite patient_get_object_eq, Hf. unfold_monad.
    eexists. split; [reflexivity|].
    split; [apply order_by_ascending|].
    assert (Hmem : forall r,
      In r (order_by_appointment_date
              (filter (fun r0 =>
                         DateTime.geb (Appointment.appointment_date r0) now
                         && status_in [SCHEDULED; CONFIRMED]
                                      (Appointment.status r0))
                      (patient_appointments patient db)))
      <-> In r (appointments db)
          /\ Appointment.patient_id r = pk
          /\ not_before now r = true
          /\ bookable r = true).
    { intros r. rewrite order_by_In, filter_In, patient_appointments_In,
                  andb_true_iff, status_in_bookable, Hpk.
      unfold not_before, bookable, DateTime.geb. tauto. }
    split; [exact Hmem|].
    intros d.
    eapply Nat.le_trans; [|apply (Hinv pk d)]. unfold active_on.
    apply NoDup_incl_length.
    + apply NoDup_filter.
      apply (Permutation_NoDup (Permutation_sym (order_by_perm _))).
      apply NoDup_filter.
      apply (Permutation_NoDup (Permutation_sym (order_by_perm _))).
      apply NoDup_filter. apply NoDup_rows. apply (wf_nodup db Hwf).
    + intros r Hr. apply filter_In in Hr as [Hr Hd].
      apply Hmem in Hr as (Hin & Hp & _ & Hb).
      apply filter_In. split; [exact Hin|].
      unfold same_day_active. rewrite Hp, Z.eqb_refl, Hd. simpl.
      apply bookable_is_active. exact Hb.
  - unfold PatientViewSet.upcoming_appointments. unfold bind at 1.
    rewrite patient_get_object_eq, Hf. reflexivity.
Qed.

(** The two visits of PT0001, on consecutive days. *)
Lemma upcoming_appointments_one_per_day_witness :
  exists l,
    PatientViewSet.upcoming_appointments booked_on 1 db_two_visits
    = (Return (mkResponse (AppointmentListBody l) HTTP_200_OK),
       db_two_visits)
    /\ ascending l
    /\ (forall r,
          In r l
          <-> In r (appointments db_two_visits)
              /\ Appointment.patient_id r = 1
              /\ not_before booked_on r = true
              /\ bookable r = true)
    /\ (forall d,
          (List.length
             (filter (fun r =>
                        Date.eqb
                          (DateTime.date (Appointment.appointment_date r))
                          d) l)
           <= 1)%nat).
Proof.
  apply (upcoming_appointments_one_per_day booked_on 1 db_two_visits).
  unfold db_two_visits, db_booked, db_registered.
  do 3 apply reachable_run. apply reachable_empty.
Defined.

(* ================================================================== *)
(** * Consistency of the statistics                                     *)
(* ================================================================== *)

Section GroupTotals.

Context {K : Type}.
Variable eqb : K -> K -> bool.
Hypothesis eqb_eq : forall a b, eqb a b = true <-> a = b.
Variable key : Appointment.t -> K.

Lemma bump_total (k : K) (groups : list (K * Z)) :
  dict_total (bump eqb k groups) = dict_total groups + 1.
Proof.
  induction groups as [|[k0 n] rest IH]; simpl; [lia|].
  destruct (eqb k0 k); simpl; [lia | rewrite IH; lia].
Qed.

Lemma bump_keys_In (k k' : K) (groups : list (K * Z)) :
  In k' (dict_keys (bump eqb k groups)) -> k' = k \/ In k' (dict_keys groups).
Proof.
  unfold dict_keys. induction groups as [|[k0 n] rest IH]; simpl.
  - intros [<- | []]. left. reflexivity.
  - destruct (eqb k0 k); simpl.
    + intros [<- | H]; right; [left; reflexivity | right; exact H].
    + intros [<- | H]; [right; left; reflexivity|].
      destruct (IH H) as [-> | H']; [left; reflexivity | right; right; exact H'].
Qed.

Lemma bump_keys_NoDup (k : K) (groups : list (K * Z)) :
  NoDup (dict_keys groups) -> NoDup (dict_keys (bump eqb k groups)).
Proof.
  unfold dict_keys. induction groups as [|[k0 n] rest IH]; simpl; intros H.
  - constructor; [intros [] | constructor].
  - inversion H as [|x xs Hnotin Hnd]; subst.
    destruct (eqb k0 k) eqn:E; simpl.
    + constructor; assumption.
    + constructor; [|apply IH; exact Hnd].
      intros Hin. apply bump_keys_In in Hin as [-> | Hin];
        [|contradiction].
      rewrite (proj2 (eqb_eq k k) eq_refl) in E. discriminate.
Qed.

Lemma bump_positive (k : K) (groups : list (K * Z)) :
  (forall kv, In kv groups -> 0 < snd kv) ->
  forall kv, In kv (bump eqb k groups) -> 0 < snd kv.
Proof.
  induction groups as [|[k0 n] rest IH]; simpl; intros H kv Hin.
  - destruct Hin as [<- | []]. simpl. lia.
  - destruct (eqb k0 k); simpl in Hin.
    + destruct Hin as [<- | Hin]; [|apply H; right; exact Hin].
      simpl. specialize (H (k0, n) (or_introl eq_refl)). simpl in H. lia.
    + destruct Hin as [<- | Hin]; [apply H; left; reflexivity|].
      apply IH; [|exact Hin]. intros kv' Hkv'. apply H. right. exact Hkv'.
Qed.

Lemma group_count_acc_facts (rows : list Appointment.t)
    (groups : list (K * Z)) :
  NoDup (dict_keys groups) ->
  (forall kv, In kv groups -> 0 < snd kv) ->
  let result :=
    fold_left (fun groups r => bump eqb (key r) groups) rows groups in
  dict_total result = dict_total groups + count rows
  /\ NoDup (dict_keys result)
  /\ (forall kv, In kv result -> 0 < snd kv).
Proof.
  revert groups. induction rows as [|r rows IH]; intros groups Hnd Hpos;
    cbv zeta; simpl.
  - split; [unfold count; simpl; lia|]. split; assumption.
  - destruct (IH (bump eqb (key r) groups)
                (bump_keys_NoDup _ _ Hnd) (bump_positive _ _ Hpos))
      as (Ht & Hk & Hp).
    split; [|split; assumption].
    rewrite Ht, bump_total. unfold count. simpl List.length. lia.
Qed.

(** The groups of a grouped count have distinct keys and positive
    counts, and the counts add up to the number of rows. *)
Lemma group_count_facts (rows : list Appointment.t) :
  dict_total (group_count eqb key rows) = count rows
  /\ NoDup (dict_keys (group_count eqb key rows))
  /\ (forall kv, In kv (group_count eqb key rows) -> 0 < snd kv).
Proof.
  unfold group_count.
  destruct (group_count_acc_facts rows [] (NoDup_nil K)
              (fun kv (H : In kv []) => match H with end))
    as (Ht & Hk & Hp).
  split; [rewrite Ht; simpl; lia|]. split; assumption.
Qed.

End GroupTotals.

Lemma filter_length_le {A} (f : A -> bool) (l : list A) :
  (List.length (filter f l) <= List.length l)%nat.
Proof.
  induction l as [|x l IH]; simpl; [lia|]. destruct (f x); simpl; lia.
Qed.

Lemma filter_length_impl {A} (f g : A -> bool) (l : list A) :
  (forall x, f x = true -> g x = true) ->
  (List.length (filter f l) <= List.length (filter g l))%nat.
Proof.
  intros H. induction l as [|x l IH]; simpl; [lia|].
  destruct (f x) eqn:E.
  - rewrite (H x E). simpl. lia.
  - destruct (g x); simpl; lia.
Qed.

(** The numbers [statistics] reports are consistent with each other: the
    counts per status add up to the total, and so do the counts per exam
    type; no status or exam type appears twice and no reported group is
    empty; the appointments of today and the upcoming ones are at most
    the total. *)
Theorem statistics_consistent (now : DateTime.t) (db : DB) :
  exists s,
    AppointmentViewSet.statistics now db
    = (Return (mkResponse (StatsBody s) HTTP_200_OK), db)
    /\ dict_total (Stats.by_status s) = Stats.total_appointments s
    /\ dict_total (Stats.by_exam_type s) = Stats.total_appointments s
    /\ NoDup (dict_keys (Stats.by_status s))
    /\ NoDup (dict_keys (Stats.by_exam_type s))
    /\ (forall kv, In kv (Stats.by_status s) -> 0 < snd kv)
    /\ (forall kv, In kv (Stats.by_exam_type s) -> 0 < snd kv)
    /\ 0 <= Stats.today s <= Stats.total_appointments s
    /\ 0 <= Stats.upcoming s <= Stats.total_appointments s.
Proof.
  eexists. split; [reflexivity|].
  cbn [Stats.total_appointments Stats.by_status Stats.by_exam_type
       Stats.today Stats.upcoming].
  destruct (group_count_facts status_eqb status_eqb_eq Appointment.status
              (appointments db)) as (Ht1 & Hk1 & Hp1).
  destruct (group_count_facts exam_type_eqb exam_type_eqb_eq
              Appointment.exam_type (appointments db)) as (Ht2 & Hk2 & Hp2).
  repeat (split; [assumption|]).
  unfold count. split.
  - pose proof (filter_length_le
                  (fun r => Date.eqb
                              (DateTime.date (Appointment.appointment_date r))
                              (DateTime.date now))
                  (appointments db)). lia.
  - pose proof (filter_length_le
                  (fun r => DateTime.geb (Appointment.appointment_date r) now
                            && status_in [SCHEDULED; CONFIRMED]
                                         (Appointment.status r))
                  (appointments db)). lia.
Qed.

Lemma today_view_eq now db :
  AppointmentViewSet.today now db
  = (Return (mkResponse
               (AppointmentListBody
                  (order_by_appointment_date
                     (filter (Appointment.is_today now) (appointments db))))
               HTTP_200_OK), db).
Proof. reflexivity. Qed.

(** The listings agree with the statistics taken at the same moment:
    [today] lists, in ascending order, exactly the appointments whose
    calendar date is today's, as many as the statistics count; the
    [upcoming] listing for any number of days holds at most as many
    appointments as the statistics count as upcoming, and each of them
    is stored, bookable and scheduled between now and the end date. *)
Theorem listings_agree_with_statistics (now : DateTime.t) (db : DB)
    (days : Z) (end_date : DateTime.t) :
  DateTime.add_days now days = Some end_date ->
  exists s today_list upcoming_list,
    AppointmentViewSet.statistics now db
    = (Return (mkResponse (StatsBody s) HTTP_200_OK), db)
    /\ AppointmentViewSet.today now db
       = (Return (mkResponse (AppointmentListBody today_list) HTTP_200_OK),
          db)
    /\ AppointmentViewSet.upcoming now (Some days) db
       = (Return (mkResponse (AppointmentListBody upcoming_list) HTTP_200_OK),
          db)
    /\ count today_list = Stats.today s
    /\ ascending today_list
    /\ (forall r,
          In r today_list
          <-> In r (appointments db) /\ Appointment.is_today now r = true)
    /\ count upcoming_list <= Stats.upcoming s
    /\ (forall r,
          In r upcoming_list
          <-> In r (appointments db)
              /\ between now end_date r = true /\ bookable r = true).
Proof.
  intros Hend.
  eexists. eexists. eexists.
  split; [reflexivity|]. split; [apply today_view_eq|].
  split.
  { unfold AppointmentViewSet.upcoming, or_default. rewrite Hend.
    unfold_monad. reflexivity. }
  cbn [Stats.today Stats.upcoming].
  split.
  { unfold count. f_equal. apply Permutation_length. apply order_by_perm. }
  split; [apply order_by_ascending|].
  split.
  { intros r. rewrite order_by_In, filter_In. tauto. }
  split.
  - unfold count. apply inj_le.
    rewrite (Permutation_length (order_by_perm _)).
    apply filter_length_impl. intros r H.
    apply andb_true_iff in H as [H Hs].
    apply andb_true_iff in H as [H1 _].
    apply andb_true_iff. split; [|exact Hs].
    unfold DateTime.geb. unfold DateTime.leb in H1. exact H1.
  - intros r. rewrite order_by_In, filter_In, !andb_true_iff,
                status_in_bookable.
    unfold between, bookable. rewrite andb_true_iff. tauto.
Qed.

Lemma listings_agree_with_statistics_witness :
  exists s today_list upcoming_list,
    AppointmentViewSet.statistics booked_on db_booked
    = (Return (mkResponse (StatsBody s) HTTP_200_OK), db_booked)
    /\ AppointmentViewSet.today booked_on db_booked
       = (Return (mkResponse (AppointmentListBody today_list) HTTP_200_OK),
          db_booked)
    /\ AppointmentViewSet.upcoming booked_on (Some 7) db_booked
       = (Return (mkResponse (AppointmentListBody upcoming_list) HTTP_200_OK),
          db_booked)
    /\ count today_list = Stats.today s
    /\ ascending today_list
    /\ (forall r,
          In r today_list
          <-> In r (appointments db_booked)
              /\ Appointment.is_today booked_on r = true)
    /\ count upcoming_list <= Stats.upcoming s
    /\ (forall r,
          In r upcoming_list
          <-> In r (appointments db_booked)
              /\ between booked_on
                   (DateTime.mk (ymd 2030 1 8) (DateTime.tod booked_on)) r
                 = true
              /\ bookable r = true).
Proof.
  apply (listings_agree_with_statistics booked_on db_booked 7
           (DateTime.mk (ymd 2030 1 8) (DateTime.tod booked_on))).
  vm_compute. reflexivity.
Defined.

(** The [days] parameter of [upcoming]: without one the listing is that
    of 7 days; with more than 999999999 days, forward or backward, the
    view raises [OverflowError] instead of answering, and writes
    nothing. *)
Theorem upcoming_days_bounds (now : DateTime.t) (days : Z) (db : DB) :
  999999999 < Z.abs days ->
  AppointmentViewSet.upcoming now (Some days) db = (Raise OverflowError, db)
  /\ AppointmentViewSet.upcoming now None db
     = AppointmentViewSet.upcoming now (Some 7) db.
Proof.
  intros H. split; [|reflexivity].
  unfold AppointmentViewSet.upcoming, or_default, DateTime.add_days.
  destruct (Z.leb_spec (Z.abs days) 999999999); [lia | reflexivity].
Qed.

Lemma upcoming_days_bounds_witness :
  AppointmentViewSet.upcoming booked_on (Some (-1000000000)) db_booked
  = (Raise OverflowError, db_booked)
  /\ AppointmentViewSet.upcoming booked_on None db_booked
     = AppointmentViewSet.upcoming booked_on (Some 7) db_booked.
Proof.
  apply (upcoming_days_bounds booked_on (-1000000000) db_booked).
  reflexivity.
Defined.

(* ================================================================== *)
(** * What an accepted update has passed                                *)
(* ================================================================== *)

(** In a well-formed store an update is accepted only if the record is
    stored, the body is partial or has the required fields, the patient
    it names (if any) is stored, the resulting scheduled date-time (the
    one of the body, else the stored one) is not earlier than now, and
    the resulting patient has no other active appointment on that
    calendar date.  In particular an update that leaves the date-time
    of a past appointment in place is never accepted, whatever it
    changes. *)
Theorem update_accepted_only_if (now : DateTime.t) (pk : Z) (partial : bool)
    (body : AppointmentData) (db : DB) (resp : Response) (db' : DB) :
  wf db ->
  AppointmentViewSet.update now pk partial body db = (Return resp, db') ->
  (exists p dt,
     candidate (WUpdate pk partial body) db = Some (p, dt, Some pk)
     /\ DateTime.ltb dt now = false
     /\ ~ other_active_exists db p (DateTime.date dt) (Some pk))
  /\ (d_appointment_date body = None ->
      exists instance,
        find (pk_is (Some pk)) (appointments db) = Some instance
        /\ Appointment.is_past now instance = false).
Proof.
  intros Hwf H.
  assert (Hmain : exists p dt,
     candidate (WUpdate pk partial body) db = Some (p, dt, Some pk)
     /\ DateTime.ltb dt now = false
     /\ ~ other_active_exists db p (DateTime.date dt) (Some pk)).
  { destruct (find (pk_is (Some pk)) (appointments db)) as [instance|] eqn:Hf.
    2: { rewrite (update_view_missing _ _ _ _ _ Hf) in H. discriminate. }
    destruct (AppointmentSerializer.field_validation_errors
                now partial body db) as [|err errs] eqn:Herr.
    2: { rewrite (update_view_invalid _ _ _ _ _ _ _ _ Hf Herr) in H.
         discriminate. }
    destruct (update_view_valid _ _ _ _ _ _ Hf Herr) as (p & Hp & E).
    destruct (find_pk_is _ _ _ Hf) as [Hin Hpk].
    assert (Hreq : partial || required_present body = true).
    { destruct partial; [reflexivity|].
      apply (no_field_errors_required _ _ _ Herr). }
    exists p, (or_default (d_appointment_date body)
                 (Appointment.appointment_date instance)).
    split; [simpl; rewrite Hf, Hreq, Hp; reflexivity|].
    assert (Hsaved : exists a db1,
              save now (AppointmentSerializer.set_attributes instance p body)
                   db = (Return a, db1)).
    { rewrite E in H.
      destruct (d_patient_id body), (d_appointment_date body);
        try (apply bind_Return_inv in H as (a & db1 & Hs & _); eauto; fail).
      destruct (exists_ _); [discriminate|].
      apply bind_Return_inv in H as (a & db1 & Hs & _). eauto. }
    destruct Hsaved as (a & db1 & Hs). rewrite save_eq in Hs.
    destruct (fst (clean now
                (AppointmentSerializer.set_attributes instance p body) db))
      as [[]|e] eqn:Hclean; [|discriminate].
    destruct (clean_passed _ _ _ Hclean) as [Hfut Hnone].
    { simpl. eapply patient_of_nonzero; eauto. }
    simpl in Hfut, Hnone. split; [exact Hfut|].
    rewrite <- (overlapping_exists_iff db _ _ (Some pk)
                  (wf_rows_have_keys db Hwf)).
    rewrite Hpk in Hnone. unfold overlapping in Hnone.
    rewrite Hnone. simpl. discriminate. }
  split; [exact Hmain|].
  intros Hd. destruct Hmain as (p & dt & Hc & Hfut & _). simpl in Hc.
  destruct (find (pk_is (Some pk)) (appointments db)) as [instance|];
    [|discriminate].
  exists instance. split; [reflexivity|].
  destruct (partial || required_present body); [|discriminate].
  destruct (patient_of body (Some (Appointment.patient_id instance)) db);
    [|discriminate].
  injection Hc as _ <-. rewrite Hd in Hfut. exact Hfut.
Qed.

(** Confirming the booking on the morning it was made. *)
Lemma update_accepted_only_if_witness :
  (exists p dt,
     candidate (WUpdate 1 true (patch_status CONFIRMED)) db_booked
     = Some (p, dt, Some 1)
     /\ DateTime.ltb dt booked_on = false
     /\ ~ other_active_exists db_booked p (DateTime.date dt) (Some 1))
  /\ (d_appointment_date (patch_status CONFIRMED) = None ->
      exists instance,
        find (pk_is (Some 1)) (appointments db_booked) = Some instance
        /\ Appointment.is_past booked_on instance = false).
Proof.
  apply (update_accepted_only_if booked_on 1 true (patch_status CONFIRMED)
           db_booked
           (mkResponse
              (AppointmentBody
                 (stored_update booked_on
                    (Appointment.set_status CONFIRMED visit_row)))
              HTTP_200_OK)
           db_confirmed).
  - apply reachable_invariants. unfold db_booked, db_registered.
    do 2 apply reachable_run. apply reachable_empty.
  - vm_compute. reflexivity.
Defined.

(* ================================================================== *)
(** * Day numbers: the arithmetic behind [timedelta]                    *)
(* ================================================================== *)

Lemma all_from_spec (fuel : nat) :
  forall n f,
    all_from fuel n f = true ->
    forall i, n <= i < n + Z.of_nat fuel -> f i = true.
Proof.
  induction fuel as [|k IH]; intros n f H i Hi; [lia|].
  simpl in H. apply andb_true_iff in H as [H0 H1].
  destruct (Z.eq_dec i n) as [->|Hne]; [exact H0|].
  apply (IH (n + 1) f H1). lia.
Qed.

Lemma all_from_range (k n : Z) (f : Z -> bool) :
  all_from (Z.to_nat k) n f = true ->
  forall i, n <= i < n + k -> f i = true.
Proof.
  intros H i Hi. apply (all_from_spec _ _ _ H).
  rewrite Z2Nat.id; lia.
Qed.

(** One cycle of 400 years, day by day: the date of a day number has
    that day number, and the next day number has a later date. *)
Lemma base_cycle :
  all_from (Z.to_nat 146097) 1
    (fun n =>
       (Date.toordinal (Date.ord2ymd n) =? n)
       && Date.ltb (Date.ord2ymd n) (Date.ord2ymd (n + 1))) = true.
Proof. vm_compute. reflexivity. Qed.

Lemma base_cycle_at (r : Z) :
  0 <= r < 146097 ->
  Date.toordinal (Date.ord2ymd (r + 1)) = r + 1
  /\ Date.ltb (Date.ord2ymd (r + 1)) (Date.ord2ymd (r + 1 + 1)) = true.
Proof.
  intros Hr.
  assert (H : (Date.toordinal (Date.ord2ymd (r + 1)) =? r + 1)
              && Date.ltb (Date.ord2ymd (r + 1)) (Date.ord2ymd (r + 1 + 1))
              = true).
  { apply (all_from_range 146097 1
             (fun n =>
                (Date.toordinal (Date.ord2ymd n) =? n)
                && Date.ltb (Date.ord2ymd n) (Date.ord2ymd (n + 1)))
             base_cycle).
    lia. }
  apply andb_true_iff in H as [H1 H2]. split; [|exact H2].
  apply Z.eqb_eq. exact H1.
Qed.

Lemma ord2ymd_cycle (n : Z) :
  Date.ord2ymd n
  = add_years (400 * ((n - 1) / 146097))
              (Date.ord2ymd ((n - 1) mod 146097 + 1)).
Proof.
  assert (Hr : 0 <= (n - 1) mod 146097 < 146097)
    by (apply Z.mod_pos_bound; lia).
  unfold Date.ord2ymd, Date.DI400Y. cbv zeta.
  replace ((n - 1) mod 146097 + 1 - 1) with ((n - 1) mod 146097) by lia.
  rewrite (Z.div_small ((n - 1) mod 146097) 146097) by exact Hr.
  rewrite (Z.mod_small ((n - 1) mod 146097) 146097) by exact Hr.
  set (r := (n - 1) mod 146097).
  set (q := (n - 1) / 146097).
  destruct ((r mod Date.DI100Y mod Date.DI4Y / 365 =? 4)
            || (r / Date.DI100Y =? 4)).
  - unfold add_years. cbn [Date.year Date.month Date.day]. f_equal. lia.
  - match goal with |- context [if ?c then _ else _] => destruct c end;
      unfold add_years; cbn [Date.year Date.month Date.day]; f_equal; lia.
Qed.

Lemma add_years_add_years (j k : Z) (d : Date.t) :
  add_years j (add_years k d) = add_years (k + j) d.
Proof. unfold add_years. simpl. f_equal. lia. Qed.

(** Moving a day number by whole cycles moves the date by 400 years
    each. *)
Lemma ord2ymd_shift (n q : Z) :
  Date.ord2ymd (n + 146097 * q) = add_years (400 * q) (Date.ord2ymd n).
Proof.
  rewrite (ord2ymd_cycle (n + 146097 * q)), (ord2ymd_cycle n).
  rewrite add_years_add_years.
  replace (n + 146097 * q - 1) with (n - 1 + q * 146097) by lia.
  rewrite Z.div_add, Z.mod_add by lia.
  f_equal. lia.
Qed.

Lemma is_leap_cycle (y q : Z) : Date.is_leap (y + 400 * q) = Date.is_leap y.
Proof.
  unfold Date.is_leap.
  replace ((y + 400 * q) mod 4) with (y mod 4)
    by (replace (y + 400 * q) with (y + (100 * q) * 4) by lia;
        rewrite Z.mod_add by lia; reflexivity).
  replace ((y + 400 * q) mod 100) with (y mod 100)
    by (replace (y + 400 * q) with (y + (4 * q) * 100) by lia;
        rewrite Z.mod_add by lia; reflexivity).
  replace ((y + 400 * q) mod 400) with (y mod 400)
    by (replace (y + 400 * q) with (y + q * 400) by lia;
        rewrite Z.mod_add by lia; reflexivity).
  reflexivity.
Qed.

Lemma toordinal_cycle (q : Z) (d : Date.t) :
  Date.toordinal (add_years (400 * q) d) = Date.toordinal d + 146097 * q.
Proof.
  unfold Date.toordinal, add_years, Date.days_before_month.
  cbn [Date.year Date.month Date.day].
  rewrite is_leap_cycle.
  assert (E : Date.days_before_year (Date.year d + 400 * q)
              = Date.days_before_year (Date.year d) + 146097 * q).
  { unfold Date.days_before_year. cbv zeta.
    replace (Date.year d + 400 * q - 1) with (Date.year d - 1 + 400 * q)
      by lia.
    set (y := Date.year d - 1).
    replace ((y + 400 * q) / 4) with (y / 4 + 100 * q)
      by (replace (y + 400 * q) with (y + (100 * q) * 4) by lia;
          rewrite Z.div_add by lia; reflexivity).
    replace ((y + 400 * q) / 100) with (y / 100 + 4 * q)
      by (replace (y + 400 * q) with (y + (4 * q) * 100) by lia;
          rewrite Z.div_add by lia; reflexivity).
    replace ((y + 400 * q) / 400) with (y / 400 + q)
      by (replace (y + 400 * q) with (y + q * 400) by lia;
          rewrite Z.div_add by lia; reflexivity).
    lia. }
  rewrite E. lia.
Qed.

Lemma split_cycle (n : Z) :
  n = ((n - 1) mod 146097 + 1) + 146097 * ((n - 1) / 146097)
  /\ 0 <= (n - 1) mod 146097 < 146097.
Proof.
  pose proof (Z.div_mod (n - 1) 146097 ltac:(lia)).
  pose proof (Z.mod_pos_bound (n - 1) 146097 ltac:(lia)). lia.
Qed.

(** The date of a day number has that day number. *)
Lemma toordinal_ord2ymd (n : Z) : Date.toordinal (Date.ord2ymd n) = n.
Proof.
  destruct (split_cycle n) as [Hn Hr]. rewrite Hn at 1.
  rewrite ord2ymd_shift, toordinal_cycle.
  rewrite (proj1 (base_cycle_at _ Hr)). lia.
Qed.

Lemma Date_ltb_add_years (k : Z) (a b : Date.t) :
  Date.ltb (add_years k a) (add_years k b) = Date.ltb a b.
Proof.
  apply eq_true_iff_eq. rewrite !Date_ltb_iff. unfold add_years. simpl. lia.
Qed.

Lemma ord2ymd_next (n : Z) :
  Date.ltb (Date.ord2ymd n) (Date.ord2ymd (n + 1)) = true.
Proof.
  destruct (split_cycle n) as [Hn Hr].
  set (r := (n - 1) mod 146097) in *. set (q := (n - 1) / 146097) in *.
  replace (n + 1) with ((r + 1 + 1) + 146097 * q) by lia.
  rewrite Hn at 1. rewrite !ord2ymd_shift, Date_ltb_add_years.
  apply (proj2 (base_cycle_at _ Hr)).
Qed.

Lemma Date_ltb_trans (a b c : Date.t) :
  Date.ltb a b = true -> Date.ltb b c = true -> Date.ltb a c = true.
Proof. rewrite !Date_ltb_iff. lia. Qed.

(** Later day numbers are later dates. *)
Lemma ord2ymd_increasing (a b : Z) :
  a < b -> Date.ltb (Date.ord2ymd a) (Date.ord2ymd b) = true.
Proof.
  intros Hab. replace b with (a + 1 + (b - a - 1)) by lia.
  assert (Hk : 0 <= b - a - 1) by lia.
  generalize (b - a - 1) Hk. clear Hab Hk b.
  apply natlike_ind.
  - rewrite Z.add_0_r. apply ord2ymd_next.
  - intros k Hk IH.
    eapply Date_ltb_trans; [exact IH|].
    replace (a + 1 + Z.succ k) with (a + 1 + k + 1) by lia.
    apply ord2ymd_next.
Qed.

Lemma ord2ymd_monotone (a b : Z) :
  a <= b -> Date.ltb (Date.ord2ymd b) (Date.ord2ymd a) = false.
Proof.
  intros Hab. destruct (Z.eq_dec a b) as [->|Hne].
  - apply not_true_is_false. rewrite Date_ltb_iff. lia.
  - assert (H : Date.ltb (Date.ord2ymd a) (Date.ord2ymd b) = true)
      by (apply ord2ymd_increasing; lia).
    apply not_true_is_false. rewrite Date_ltb_iff in *. lia.
Qed.

(** [dt + timedelta(days=n)] keeps the time of day and moves the day
    number by [n]. *)
Lemma add_days_spec (dt : DateTime.t) (n : Z) (e : DateTime.t) :
  DateTime.add_days dt n = Some e ->
  DateTime.date e = Date.ord2ymd (Date.toordinal (DateTime.date dt) + n)
  /\ DateTime.tod e = DateTime.tod dt
  /\ Date.toordinal (DateTime.date e)
     = Date.toordinal (DateTime.date dt) + n.
Proof.
  unfold DateTime.add_days, Date.fromordinal. intros H.
  destruct (Z.abs n <=? 999999999); [|discriminate].
  destruct ((1 <=? Date.toordinal (DateTime.date dt) + n)
            && (Date.toordinal (DateTime.date dt) + n <=? Date.MAXORDINAL));
    [|discriminate].
  injection H as <-. simpl. rewrite toordinal_ord2ymd. repeat split.
Qed.

(* ================================================================== *)
(** * The window of [upcoming]                                          *)
(* ================================================================== *)

Lemma upcoming_view_eq now days end_date db :
  DateTime.add_days now days = Some end_date ->
  AppointmentViewSet.upcoming now (Some days) db
  = (Return (mkResponse
               (AppointmentListBody
                  (order_by_appointment_date
                     (filter (fun r => between now end_date r && bookable r)
                             (appointments db))))
               HTTP_200_OK), db).
Proof.
  intros Hend. unfold AppointmentViewSet.upcoming, or_default. rewrite Hend.
  unfold_monad. do 5 f_equal. apply filter_ext_eq. intros r.
  unfold between, bookable. rewrite status_in_bookable. reflexivity.
Qed.

Lemma end_dates_ordered now n m e1 e2 :
  DateTime.add_days now n = Some e1 ->
  DateTime.add_days now m = Some e2 ->
  n <= m ->
  DateTime.leb e1 e2 = true.
Proof.
  intros H1 H2 Hnm.
  destruct (add_days_spec _ _ _ H1) as (D1 & T1 & _).
  destruct (add_days_spec _ _ _ H2) as (D2 & T2 & _).
  unfold DateTime.leb, DateTime.ltb. rewrite D1, D2, T1, T2.
  rewrite ord2ymd_monotone by lia. rewrite Z.ltb_irrefl, andb_false_r.
  reflexivity.
Qed.

(** Asking [upcoming] for more days never loses an appointment: what is
    listed for [n] days is listed for every [m >= n] days, so the
    listing can only grow. *)
Theorem upcoming_grows_with_days (now : DateTime.t) (n m : Z)
    (e1 e2 : DateTime.t) (db : DB) :
  DateTime.add_days now n = Some e1 ->
  DateTime.add_days now m = Some e2 ->
  n <= m ->
  exists l1 l2,
    AppointmentViewSet.upcoming now (Some n) db
    = (Return (mkResponse (AppointmentListBody l1) HTTP_200_OK), db)
    /\ AppointmentViewSet.upcoming now (Some m) db
       = (Return (mkResponse (AppointmentListBody l2) HTTP_200_OK), db)
    /\ (forall r, In r l1 -> In r l2)
    /\ count l1 <= count l2.
Proof.
  intros H1 H2 Hnm.
  pose proof (end_dates_ordered _ _ _ _ _ H1 H2 Hnm) as Hle.
  eexists. eexists.
  split; [apply upcoming_view_eq; exact H1|].
  split; [apply upcoming_view_eq; exact H2|].
  assert (Himp : forall r,
            between now e1 r && bookable r = true ->
            between now e2 r && bookable r = true).
  { intros r H. apply andb_true_iff in H as [Hb Hs].
    apply andb_true_iff in Hb as [Ha Hb].
    unfold between. rewrite Ha, Hs, andb_true_r. simpl.
    eapply DateTime_leb_trans; eassumption. }
  split.
  - intros r. rewrite !order_by_In, !filter_In.
    intros [Hin H]. split; [exact Hin | apply Himp; exact H].
  - unfold count. apply inj_le.
    rewrite !(Permutation_length (order_by_perm _)).
    apply filter_length_impl. exact Himp.
Qed.

Lemma upcoming_grows_with_days_witness :
  exists l1 l2,
    AppointmentViewSet.upcoming booked_on (Some 1) db_booked
    = (Return (mkResponse (AppointmentListBody l1) HTTP_200_OK), db_booked)
    /\ AppointmentViewSet.upcoming booked_on (Some 7) db_booked
       = (Return (mkResponse (AppointmentListBody l2) HTTP_200_OK),
          db_booked)
    /\ (forall r, In r l1 -> In r l2)
    /\ count l1 <= count l2.
Proof.
  apply (upcoming_grows_with_days booked_on 1 7
           (DateTime.mk (ymd 2030 1 2) (DateTime.tod booked_on))
           (DateTime.mk (ymd 2030 1 8) (DateTime.tod booked_on))
           db_booked).
  - vm_compute. reflexivity.
  - vm_compute. reflexivity.
  - lia.
Defined.

Lemma filter_none {A} (f : A -> bool) (l : list A) :
  (forall x, In x l -> f x = false) -> filter f l = [].
Proof.
  induction l as [|x l IH]; intros H; simpl; [reflexivity|].
  rewrite (H x (or_introl eq_refl)). apply IH.
  intros y Hy. apply H. right. exact Hy.
Qed.

(** With a negative number of days the window ends before it starts:
    [upcoming] answers 200 with an empty listing, whatever is stored. *)
Theorem upcoming_negative_days_empty (now : DateTime.t) (days : Z)
    (end_date : DateTime.t) (db : DB) :
  calendar_date (DateTime.date now) ->
  days < 0 ->
  DateTime.add_days now days = Some end_date ->
  AppointmentViewSet.upcoming now (Some days) db
  = (Return (mkResponse (AppointmentListBody []) HTTP_200_OK), db).
Proof.
  intros Hcal Hneg Hend.
  rewrite (upcoming_view_eq _ _ _ _ Hend).
  rewrite filter_none; [reflexivity|].
  intros r _. apply andb_false_iff. left.
  destruct (between now end_date r) eqn:E; [|reflexivity]. exfalso.
  unfold between in E. apply andb_true_iff in E as [Ha Hb].
  pose proof (DateTime_leb_trans _ _ _ Ha Hb) as Hle.
  destruct (add_days_spec _ _ _ Hend) as (D & _ & _).
  unfold DateTime.leb, DateTime.ltb in Hle. rewrite D in Hle.
  unfold calendar_date in Hcal. rewrite <- Hcal in Hle at 2.
  rewrite ord2ymd_increasing in Hle by lia. discriminate.
Qed.

Lemma upcoming_negative_days_empty_witness :
  AppointmentViewSet.upcoming (at_time visit_day 15 0) (Some (-1)) db_booked
  = (Return (mkResponse (AppointmentListBody []) HTTP_200_OK), db_booked).
Proof.
  apply (upcoming_negative_days_empty (at_time visit_day 15 0) (-1)
           (at_time (ymd 2030 1 1) 15 0) db_booked).
  - vm_compute. reflexivity.
  - lia.
  - vm_compute. reflexivity.
Defined.

(* ================================================================== *)
(** * The sample-data command                                           *)
(* ================================================================== *)

Lemma randint_range (a b draw : Z) :
  a <= b -> a <= randint a b draw <= b.
Proof.
  intros H. unfold randint.
  pose proof (Z.mod_pos_bound draw (b - a + 1) ltac:(lia)). lia.
Qed.

Lemma choice_In {A} (seq : list A) (draw : nat) (x : A) :
  choice seq draw = Some x -> In x seq.
Proof. unfold choice. apply nth_error_In. Qed.

Lemma choice_nil {A} (draw : nat) : choice (@nil A) draw = None.
Proof. unfold choice. simpl. destruct draw; reflexivity. Qed.

Lemma str_inj (n m : Z) : str n = str m -> n = m.
Proof.
  unfold str. intros H.
  assert (Hnil : forall z, Z.to_int z <> Decimal.Pos Decimal.Nil
                           /\ Z.to_int z <> Decimal.Neg Decimal.Nil).
  { intros z. split; intros E; pose proof (f_equal Z.of_int E) as E0;
      rewrite DecimalZ.of_to in E0; simpl in E0; subst z; discriminate. }
  apply DecimalZ.to_int_inj.
  assert (E : NilZero.int_of_string (NilZero.string_of_int (Z.to_int n))
              = NilZero.int_of_string (NilZero.string_of_int (Z.to_int m)))
    by (rewrite H; reflexivity).
  rewrite !NilZero.isi in E; try apply Hnil. congruence.
Qed.

(** The three parts of a generated phone number, digit by digit. *)
Lemma str_three_digits (a : Z) :
  200 <= a <= 999 ->
  match list_ascii_of_string (str a) with
  | [x; y; z] => forallb is_digit [x; y; z]
  | _ => false
  end = true.
Proof.
  intros Ha.
  assert (H : all_from (Z.to_nat 800) 200
                (fun a => match list_ascii_of_string (str a) with
                          | [x; y; z] => forallb is_digit [x; y; z]
                          | _ => false
                          end) = true)
    by (vm_compute; reflexivity).
  apply (all_from_range 800 200 _ H). lia.
Qed.

Lemma str_four_digits (a : Z) :
  1000 <= a <= 9999 ->
  match list_ascii_of_string (str a) with
  | [w; x; y; z] => forallb is_digit [w; x; y; z]
  | _ => false
  end = true.
Proof.
  intros Ha.
  assert (H : all_from (Z.to_nat 9000) 1000
                (fun a => match list_ascii_of_string (str a) with
                          | [w; x; y; z] => forallb is_digit [w; x; y; z]
                          | _ => false
                          end) = true)
    by (vm_compute; reflexivity).
  apply (all_from_range 9000 1000 _ H). lia.
Qed.

Lemma three_digit_string (s : string) :
  match list_ascii_of_string s with
  | [x; y; z] => forallb is_digit [x; y; z]
  | _ => false
  end = true ->
  exists x y z,
    s = String x (String y (String z EmptyString))
    /\ is_digit x = true /\ is_digit y = true /\ is_digit z = true.
Proof.
  destruct s as [|x [|y [|z [|]]]]; simpl; try discriminate.
  intros H. rewrite andb_true_r, !andb_true_iff in H.
  destruct H as (Hx & Hy & Hz). exists x, y, z. repeat split; assumption.
Qed.

Lemma four_digit_string (s : string) :
  match list_ascii_of_string s with
  | [w; x; y; z] => forallb is_digit [w; x; y; z]
  | _ => false
  end = true ->
  exists w x y z,
    s = String w (String x (String y (String z EmptyString)))
    /\ is_digit w = true /\ is_digit x = true
    /\ is_digit y = true /\ is_digit z = true.
Proof.
  destruct s as [|w [|x [|y [|z [|]]]]]; simpl; try discriminate.
  intros H. rewrite andb_true_r, !andb_true_iff in H.
  destruct H as (Hw & Hx & Hy & Hz). exists w, x, y, z.
  repeat split; assumption.
Qed.

(** An ASCII character is its own code point, and an ASCII digit is a
    decimal digit. *)
Lemma code_points_ascii (c : ascii) (rest : string) :
  byte c < 128 ->
  code_points (String c rest) = byte c :: code_points rest.
Proof.
  intros H. apply Z.ltb_lt in H. cbn [code_points]. cbv zeta.
  rewrite H. reflexivity.
Qed.

Lemma is_digit_byte (c : ascii) :
  is_digit c = true -> 48 <= byte c <= 57.
Proof.
  unfold is_digit, byte. cbv zeta. rewrite andb_true_iff.
  intros [H1 H2]. apply N.leb_le in H1. apply N.leb_le in H2. lia.
Qed.

Lemma is_digit_decimal (c : ascii) :
  is_digit c = true -> is_decimal (byte c) = true.
Proof.
  intros H. apply is_digit_byte in H. unfold is_decimal.
  apply existsb_exists. exists (48, 57).
  split; [left; reflexivity|]. simpl.
  apply andb_true_iff. split; apply Z.leb_le; lia.
Qed.

Lemma code_points_digit (c : ascii) (rest : string) :
  is_digit c = true ->
  code_points (String c rest) = byte c :: code_points rest.
Proof.
  intros H. apply code_points_ascii. apply is_digit_byte in H. lia.
Qed.

(** Every phone number the command generates has the format the API
    asks for. *)
Lemma generated_phone_matches (a b c : Z) :
  phone_regex (str (randint 200 999 a) ++ "-"
               ++ str (randint 200 999 b) ++ "-"
               ++ str (randint 1000 9999 c)) = true.
Proof.
  destruct (three_digit_string _
              (str_three_digits _ (randint_range 200 999 a ltac:(lia))))
    as (a1 & a2 & a3 & -> & Ha1 & Ha2 & Ha3).
  destruct (three_digit_string _
              (str_three_digits _ (randint_range 200 999 b ltac:(lia))))
    as (b1 & b2 & b3 & -> & Hb1 & Hb2 & Hb3).
  destruct (four_digit_string _
              (str_four_digits _ (randint_range 1000 9999 c ltac:(lia))))
    as (c1 & c2 & c3 & c4 & -> & Hc1 & Hc2 & Hc3 & Hc4).
  cbn [append]. unfold phone_regex.
  rewrite !(code_points_digit _ _ Ha1), !(code_points_digit _ _ Ha2),
          !(code_points_digit _ _ Ha3).
  rewrite (code_points_ascii "-") by (vm_compute; reflexivity).
  rewrite !(code_points_digit _ _ Hb1), !(code_points_digit _ _ Hb2),
          !(code_points_digit _ _ Hb3).
  rewrite (code_points_ascii "-") by (vm_compute; reflexivity).
  rewrite !(code_points_digit _ _ Hc1), !(code_points_digit _ _ Hc2),
          !(code_points_digit _ _ Hc3), !(code_points_digit _ _ Hc4).
  cbn [code_points forallb].
  rewrite !is_digit_decimal by assumption. reflexivity.
Qed.

Lemma create_patients_facts (draws : list PatientDraw) :
  forall i db created db',
    Command.create_patients i draws db = (created, db') ->
    patients db' = (patients db ++ created)%list
    /\ appointments db' = appointments db
    /\ patient_seq db' = patient_seq db + Z.of_nat (List.length draws)
    /\ appointment_seq db' = appointment_seq db
    /\ List.length created = List.length draws
    /\ forall j p,
         nth_error created j = Some p ->
         Patient.pk p = patient_seq db + Z.of_nat j
         /\ Patient.patient_id p = ("PT" ++ str (1000 + i + Z.of_nat j))%string
         /\ phone_regex (Patient.phone p) = true.
Proof.
  induction draws as [|d rest IH]; intros i db created db' H; simpl in H.
  - injection H as <- <-. rewrite app_nil_r. simpl.
    repeat split; try lia. all: destruct j; discriminate.
  - destruct (Command.create_patients (i + 1) rest _) as [created1 db2] eqn:E.
    injection H as <- <-.
    destruct (IH _ _ _ _ E) as (Hp & Ha & Hps & Has & Hlen & Hnth).
    simpl in Hp, Ha, Hps, Has.
    split; [rewrite Hp, <- app_assoc; reflexivity|].
    split; [exact Ha|].
    split; [rewrite Hps; simpl List.length; lia|].
    split; [exact Has|].
    split; [simpl; rewrite Hlen; reflexivity|].
    intros j p Hj. destruct j as [|j]; simpl in Hj.
    + injection Hj as <-. unfold Command.new_patient.
      cbn [Patient.pk Patient.patient_id Patient.phone].
      split; [simpl; lia|]. split; [do 2 f_equal; simpl; lia|].
      apply generated_phone_matches.
    + destruct (Hnth j p Hj) as (H1 & H2 & H3).
      cbn [patient_seq] in H1.
      split; [rewrite H1; lia|]. split; [rewrite H2; do 2 f_equal; lia|].
      exact H3.
Qed.

Lemma NoDup_map_nth {A B} (f : A -> B) (l : list A) :
  (forall j k x y,
     nth_error l j = Some x -> nth_error l k = Some y ->
     f x = f y -> j = k) ->
  NoDup (map f l).
Proof.
  intros H. apply NoDup_nth_error. intros j k Hj E.
  rewrite length_map in Hj.
  rewrite !nth_error_map in E.
  destruct (nth_error l j) as [x|] eqn:Ex.
  - destruct (nth_error l k) as [y|] eqn:Ey; [|discriminate].
    simpl in E. injection E as E. apply (H j k x y Ex Ey E).
  - apply nth_error_None in Ex. lia.
Qed.

Lemma created_patients_valid i draws db created db' :
  1 <= patient_seq db ->
  Command.create_patients i draws (cleared db) = (created, db') ->
  patients db' = created
  /\ appointments db' = []
  /\ appointment_seq db' = appointment_seq db
  /\ List.length created = List.length draws
  /\ patients_valid db'
  /\ (forall p, In p created -> 1 <= Patient.pk p < patient_seq db')
  /\ 1 <= patient_seq db'.
Proof.
  intros Hseq H.
  destruct (create_patients_facts _ _ _ _ _ H)
    as (Hp & Ha & Hps & Has & Hlen & Hnth).
  simpl in Hp, Ha, Hps, Has.
  assert (Hrange : forall p, In p created ->
                     1 <= Patient.pk p < patient_seq db').
  { intros p Hin. apply In_nth_error in Hin as [j Hj].
    destruct (Hnth j p Hj) as (H1 & _). cbn [cleared patient_seq] in H1.
    assert (j < List.length created)%nat
      by (apply nth_error_Some; congruence).
    lia. }
  repeat (split; [assumption || lia|]).
  split; [|split; [exact Hrange | lia]].
  unfold patients_valid. rewrite Hp. split; [|split].
  - apply NoDup_map_nth. intros j k x y Hj Hk E.
    destruct (Hnth j x Hj) as (_ & Ex & _).
    destruct (Hnth k y Hk) as (_ & Ey & _).
    rewrite Ex, Ey in E. injection E as E. apply str_inj in E. lia.
  - apply NoDup_map_nth. intros j k x y Hj Hk E.
    destruct (Hnth j x Hj) as (Ex & _).
    destruct (Hnth k y Hk) as (Ey & _). lia.
  - intros p Hin. apply In_nth_error in Hin as [j Hj].
    destruct (Hnth j p Hj) as (_ & E & Hph). split; [|exact Hph].
    rewrite E. simpl. destruct (str _); reflexivity.
Qed.

Lemma new_appointment_facts now start_date patients d a :
  Command.new_appointment now start_date patients d = inr a ->
  Appointment.pk a = None
  /\ (exists patient,
        In patient patients
        /\ Appointment.patient_id a = Patient.pk patient)
  /\ (exists e h m,
        DateTime.add_days start_date (randint 0 90 (offset_draw d) - 30)
        = Some e
        /\ 7 <= h <= 18
        /\ In m [0; 15; 30; 45]
        /\ Appointment.appointment_date a = at_time (DateTime.date e) h m)
  /\ In (Appointment.status a)
        (if DateTime.ltb (Appointment.appointment_date a) now
         then Command.past_statuses else Command.future_statuses)
  /\ In (Appointment.duration_minutes a)
        (Command.duration_choices (Appointment.exam_type a))
  /\ In (Appointment.referring_physician a) Command.physicians
  /\ In (Appointment.clinical_indication a) Command.clinical_indications
  /\ Appointment.special_instructions a = EmptyString.
Proof.
  unfold Command.new_appointment. cbv zeta.
  destruct (DateTime.add_days start_date _) as [e|] eqn:He; [|discriminate].
  destruct (choice [0; 15; 30; 45] (minute_draw d)) as [m|] eqn:Hm;
    [|discriminate].
  destruct (choice _ (status_draw d)) as [st|] eqn:Hst; [|discriminate].
  destruct (choice Command.exam_types (exam_type_draw d)) as [et|] eqn:Het;
    [|discriminate].
  destruct (choice (Command.duration_choices et) (duration_draw d))
    as [du|] eqn:Hdu; [|discriminate].
  destruct (choice patients (patient_draw d)) as [patient|] eqn:Hpa;
    [|discriminate].
  destruct (choice Command.physicians (physician_draw d)) as [ph|] eqn:Hph;
    [|discriminate].
  destruct (choice Command.clinical_indications (indication_draw d))
    as [ind|] eqn:Hind; [|discriminate].
  intros H. injection H as <-. cbn [Appointment.pk Appointment.patient_id
    Appointment.appointment_date Appointment.status
    Appointment.duration_minutes Appointment.exam_type
    Appointment.referring_physician Appointment.clinical_indication
    Appointment.special_instructions].
  split; [reflexivity|].
  split; [exists patient; split; [apply (choice_In _ _ _ Hpa) | reflexivity]|].
  split.
  { exists e, (randint 7 18 (hour_draw d)), m.
    split; [reflexivity|]. split; [apply randint_range; lia|].
    split; [apply (choice_In _ _ _ Hm) | reflexivity]. }
  split; [apply (choice_In _ _ _ Hst)|].
  split; [apply (choice_In _ _ _ Hdu)|].
  split; [apply (choice_In _ _ _ Hph)|].
  split; [apply (choice_In _ _ _ Hind) | reflexivity].
Qed.

Lemma new_appointments_facts now start_date patients draws :
  forall l,
    Command.new_appointments now start_date patients draws = inr l ->
    List.length l = List.length draws
    /\ forall a, In a l ->
         exists d, In d draws
                   /\ Command.new_appointment now start_date patients d
                      = inr a.
Proof.
  induction draws as [|d rest IH]; intros l H; simpl in H.
  - injection H as <-. split; [reflexivity | intros a []].
  - destruct (Command.new_appointment now start_date patients d)
      as [e|a0] eqn:E; [discriminate|].
    destruct (Command.new_appointments now start_date patients rest)
      as [e|l0]; [discriminate|].
    injection H as <-. destruct (IH l0 eq_refl) as [Hlen Hall].
    split; [simpl; rewrite Hlen; reflexivity|].
    intros a [<- | Hin].
    + exists d. split; [left; reflexivity | exact E].
    + destruct (Hall a Hin) as (d' & Hd' & E').
      exists d'. split; [right; exact Hd' | exact E'].
Qed.

Lemma bulk_create_facts now (objs : list Appointment.t) :
  forall db,
    patients (Command.bulk_create now objs db) = patients db
    /\ patient_seq (Command.bulk_create now objs db) = patient_seq db
    /\ appointment_seq (Command.bulk_create now objs db)
       = appointment_seq db + Z.of_nat (List.length objs)
    /\ exists rows,
         appointments (Command.bulk_create now objs db)
         = (appointments db ++ rows)%list
         /\ List.length rows = List.length objs
         /\ forall j row,
              nth_error rows j = Some row ->
              exists obj,
                nth_error objs j = Some obj
                /\ row = stored_insert now (appointment_seq db + Z.of_nat j)
                           obj.
Proof.
  induction objs as [|obj rest IH]; intros db; simpl.
  - repeat split; try lia. exists []. rewrite app_nil_r.
    repeat split. intros j row Hj. destruct j; discriminate.
  - destruct (IH (mkDB (patients db)
                    (appointments db
                     ++ [Appointment.set_pk (Some (appointment_seq db))
                           (Appointment.set_stamps (Some now) (Some now)
                              obj)])
                    (patient_seq db) (appointment_seq db + 1)))
      as (Hp & Hps & Has & rows & Hrows & Hlen & Hnth).
    simpl in Hp, Hps, Has, Hrows.
    split; [exact Hp|]. split; [exact Hps|]. split; [lia|].
    exists (stored_insert now (appointment_seq db) obj :: rows).
    split; [rewrite Hrows, <- app_assoc; reflexivity|].
    split; [simpl; rewrite Hlen; reflexivity|].
    intros j row Hj. destruct j as [|j]; simpl in Hj.
    + injection Hj as <-. exists obj. split; [reflexivity|].
      rewrite Z.add_0_r. reflexivity.
    + destruct (Hnth j row Hj) as (obj' & Hobj & ->).
      exists obj'. split; [exact Hobj|]. cbn [appointment_seq].
      f_equal. lia.
Qed.

Lemma created_patients_facts_cleared i draws db created db1 :
  Command.create_patients i draws (cleared db) = (created, db1) ->
  patients db1 = created
  /\ appointments db1 = []
  /\ appointment_seq db1 = appointment_seq db.
Proof.
  intros H.
  destruct (create_patients_facts _ _ _ _ _ H) as (Hp & Ha & _ & Has & _).
  repeat split; assumption.
Qed.

(** A run that ends well went through the four stages in turn. *)
Lemma command_done now pds ads db db' :
  Command.handle now pds ads db = (Command.Done, db') ->
  exists created db1 start_date objs,
    Command.create_patients 0 pds (cleared db) = (created, db1)
    /\ DateTime.add_days now (-30) = Some start_date
    /\ Command.new_appointments now start_date created ads = inr objs
    /\ db' = Command.bulk_create now objs db1.
Proof.
  unfold Command.handle. fold (cleared db).
  destruct (Command.create_patients 0 pds (cleared db)) as [created db1].
  destruct (DateTime.add_days now (-30)) as [start_date|];
    [|intros H; discriminate].
  destruct (DateTime.add_days now 60); [|intros H; discriminate].
  destruct (Command.new_appointments now start_date created ads)
    as [e|objs] eqn:E; [intros H; discriminate|].
  intros H. injection H as <-.
  exists created, db1, start_date, objs. repeat split. exact E.
Qed.

(** The rows of a run that ends well: the patients created, and one
    appointment per draw, stored as drawn. *)
Lemma command_rows now pds ads db db' :
  Command.handle now pds ads db = (Command.Done, db') ->
  exists db1 start_date,
    Command.create_patients 0 pds (cleared db) = (patients db', db1)
    /\ patient_seq db' = patient_seq db1
    /\ DateTime.add_days now (-30) = Some start_date
    /\ appointment_seq db'
       = appointment_seq db + Z.of_nat (List.length ads)
    /\ List.length (appointments db') = List.length ads
    /\ forall j row,
         nth_error (appointments db') j = Some row ->
         exists d obj,
           In d ads
           /\ Command.new_appointment now start_date (patients db') d
              = inr obj
           /\ row = stored_insert now (appointment_seq db + Z.of_nat j) obj.
Proof.
  intros H.
  destruct (command_done _ _ _ _ _ H)
    as (created & db1 & start_date & objs & Hc & Hs & Hn & ->).
  destruct (created_patients_facts_cleared _ _ _ _ _ Hc) as (Hp & Ha & Has).
  destruct (bulk_create_facts now objs db1)
    as (Bp & Bps & Bas & rows & Brows & Blen & Bnth).
  destruct (new_appointments_facts _ _ _ _ _ Hn) as (Nlen & Nall).
  rewrite Ha in Brows. simpl in Brows.
  exists db1, start_date.
  split; [rewrite Bp, Hp; exact Hc|].
  split; [exact Bps|]. split; [exact Hs|].
  split; [rewrite Bas, Has, Nlen; reflexivity|].
  split; [rewrite Brows, Blen, Nlen; reflexivity|].
  intros j row Hj. rewrite Brows in Hj.
  destruct (Bnth j row Hj) as (obj & Hobj & ->).
  destruct (Nall obj (nth_error_In _ _ Hobj)) as (d & Hd & E).
  exists d, obj. split; [exact Hd|].
  split; [rewrite Bp, Hp; exact E|]. rewrite Has. reflexivity.
Qed.

(** A run of [generate_sample_data] that ends well leaves a store
    with one patient per [--patients] round and one appointment per
    [--appointments] round, whose keys are distinct and below the next
    key, whose appointments all refer to a stored patient, and whose
    patients have distinct identifiers [PT...] and phone numbers the
    patient serializer accepts. *)
Theorem seeded_store_well_formed now pds ads db db' :
  1 <= patient_seq db ->
  1 <= appointment_seq db ->
  Command.handle now pds ads db = (Command.Done, db') ->
  wf db'
  /\ referential_integrity db'
  /\ patients_valid db'
  /\ List.length (patients db') = List.length pds
  /\ List.length (appointments db') = List.length ads.
Proof.
  intros Hps Has H.
  destruct (command_rows _ _ _ _ _ H)
    as (db1 & start_date & Hc & Hseq & _ & Haseq & Hlen & Hrows).
  destruct (created_patients_valid _ _ _ _ _ Hps Hc)
    as (Hp1 & _ & _ & Hplen & Hvalid & Hrange & Hpos).
  assert (Href : referential_integrity db').
  { intros a Hin. apply In_nth_error in Hin as [j Hj].
    destruct (Hrows j a Hj) as (d & obj & _ & E & ->).
    destruct (new_appointment_facts _ _ _ _ _ E)
      as (_ & (p & Hp & Hfk) & _).
    exists p. split; [exact Hp|]. symmetry. exact Hfk. }
  assert (Hrange' : forall p, In p (patients db') ->
                      1 <= Patient.pk p < patient_seq db').
  { intros p Hin. rewrite Hseq. apply Hrange. exact Hin. }
  split; [|split; [exact Href|split; [|split; [exact Hplen | exact Hlen]]]].
  - constructor.
    + intros r Hin. apply In_nth_error in Hin as [j Hj].
      assert (j < List.length (appointments db'))%nat
        by (apply nth_error_Some; congruence).
      destruct (Hrows j r Hj) as (d & obj & _ & _ & ->).
      exists (appointment_seq db + Z.of_nat j).
      split; [reflexivity | lia].
    + apply NoDup_map_nth. intros j k x y Hj Hk E.
      destruct (Hrows j x Hj) as (? & ? & _ & _ & ->).
      destruct (Hrows k y Hk) as (? & ? & _ & _ & ->).
      simpl in E. injection E as E. lia.
    + intros r Hin. destruct (Href r Hin) as (p & Hp & E).
      specialize (Hrange' p Hp). lia.
    + exact Hrange'.
    + rewrite Hseq. split; lia.
  - unfold patients_valid in *. rewrite Hp1 in Hvalid. exact Hvalid.
Qed.

Lemma seeded_store_well_formed_witness :
  wf db_seeded
  /\ referential_integrity db_seeded
  /\ patients_valid db_seeded
  /\ List.length (patients db_seeded) = List.length [seed_patient]
  /\ List.length (appointments db_seeded)
     = List.length [seed_visit; seed_visit].
Proof.
  apply (seeded_store_well_formed booked_on [seed_patient]
           [seed_visit; seed_visit] db_booked).
  - simpl. lia.
  - simpl. lia.
  - vm_compute. reflexivity.
Defined.

(** The substring tests of the duration rule sort the exam types by
    kind. *)
Lemma duration_choices_by_kind (e : exam_type_choice) :
  Command.duration_choices e
  = match e with
    | MRI_BRAIN | MRI_SPINE | MRI_KNEE | MRI_SHOULDER | MRI_ABDOMEN =>
        [30; 45; 60]
    | CT_HEAD | CT_CHEST | CT_ABDOMEN => [15; 20; 30]
    | XRAY_CHEST | XRAY_SPINE | ULTRASOUND => [10; 15; 20]
    end.
Proof. destruct e; reflexivity. Qed.

(** Every appointment [generate_sample_data] stores has a status
    that fits its date: one of COMPLETED, NO_SHOW and CANCELLED when it
    lies before the time of the run, one of SCHEDULED, CONFIRMED and
    CANCELLED otherwise; it starts at a quarter hour between 07:00 and
    18:45, lasts one of the durations of its kind of exam, and has no
    special instructions. *)
Theorem seeded_appointment_shape now pds ads db db' a :
  Command.handle now pds ads db = (Command.Done, db') ->
  In a (appointments db') ->
  In (Appointment.status a)
     (if Appointment.is_past now a
      then [COMPLETED; NO_SHOW; CANCELLED]
      else [SCHEDULED; CONFIRMED; CANCELLED])
  /\ (exists h m,
        7 <= h <= 18 /\ In m [0; 15; 30; 45]
        /\ DateTime.tod (Appointment.appointment_date a)
           = (h * 60 + m) * 60 * 1000000)
  /\ In (Appointment.duration_minutes a)
        match Appointment.exam_type a with
        | MRI_BRAIN | MRI_SPINE | MRI_KNEE | MRI_SHOULDER | MRI_ABDOMEN =>
            [30; 45; 60]
        | CT_HEAD | CT_CHEST | CT_ABDOMEN => [15; 20; 30]
        | XRAY_CHEST | XRAY_SPINE | ULTRASOUND => [10; 15; 20]
        end
  /\ Appointment.special_instructions a = EmptyString
  /\ Appointment.created_at a = Some now
  /\ Appointment.updated_at a = Some now.
Proof.
  intros H Hin.
  destruct (command_rows _ _ _ _ _ H)
    as (db1 & start_date & _ & _ & _ & _ & _ & Hrows).
  apply In_nth_error in Hin as [j Hj].
  destruct (Hrows j a Hj) as (d & obj & _ & E & ->).
  destruct (new_appointment_facts _ _ _ _ _ E)
    as (_ & _ & (e & h & m & _ & Hh & Hm & Hdate) & Hst & Hdu & _ & _ & Hsp).
  unfold stored_insert, Appointment.is_past.
  cbn [Appointment.set_pk Appointment.set_stamps Appointment.status
       Appointment.appointment_date Appointment.duration_minutes
       Appointment.exam_type Appointment.special_instructions
       Appointment.created_at Appointment.updated_at].
  split; [exact Hst|].
  split; [exists h, m; rewrite Hdate; repeat split; assumption || lia|].
  split; [rewrite <- duration_choices_by_kind; exact Hdu|].
  split; [exact Hsp|]. split; reflexivity.
Qed.

Lemma seeded_appointment_shape_witness :
  In (Appointment.status seeded_row)
     (if Appointment.is_past booked_on seeded_row
      then [COMPLETED; NO_SHOW; CANCELLED]
      else [SCHEDULED; CONFIRMED; CANCELLED])
  /\ (exists h m,
        7 <= h <= 18 /\ In m [0; 15; 30; 45]
        /\ DateTime.tod (Appointment.appointment_date seeded_row)
           = (h * 60 + m) * 60 * 1000000)
  /\ In (Appointment.duration_minutes seeded_row)
        match Appointment.exam_type seeded_row with
        | MRI_BRAIN | MRI_SPINE | MRI_KNEE | MRI_SHOULDER | MRI_ABDOMEN =>
            [30; 45; 60]
        | CT_HEAD | CT_CHEST | CT_ABDOMEN => [15; 20; 30]
        | XRAY_CHEST | XRAY_SPINE | ULTRASOUND => [10; 15; 20]
        end
  /\ Appointment.special_instructions seeded_row = EmptyString
  /\ Appointment.created_at seeded_row = Some booked_on
  /\ Appointment.updated_at seeded_row = Some booked_on.
Proof.
  apply (seeded_appointment_shape booked_on [seed_patient]
           [seed_visit; seed_visit] db_booked db_seeded seeded_row).
  - vm_compute. reflexivity.
  - vm_compute. left. reflexivity.
Defined.

(** The dates of the sample appointments, in days from the day of
    the run: the appointment of a round lies [offset mod 91 - 60] days
    from it, where [offset] is the round's first draw, so every one is
    between 60 days before and 30 days after the run. *)
Theorem seeded_dates_window now pds ads db db' a :
  Command.handle now pds ads db = (Command.Done, db') ->
  In a (appointments db') ->
  let day x := Date.toordinal (DateTime.date x) in
  (exists d,
     In d ads
     /\ day (Appointment.appointment_date a)
        = day now + (offset_draw d mod 91 - 60))
  /\ day now - 60 <= day (Appointment.appointment_date a) <= day now + 30.
Proof.
  intros H Hin day.
  destruct (command_rows _ _ _ _ _ H)
    as (db1 & start_date & _ & _ & Hs & _ & _ & Hrows).
  apply In_nth_error in Hin as [j Hj].
  destruct (Hrows j a Hj) as (d & obj & Hd & E & ->).
  destruct (new_appointment_facts _ _ _ _ _ E)
    as (_ & _ & (e & h & m & He & _ & _ & Hdate) & _).
  destruct (add_days_spec _ _ _ Hs) as (_ & _ & Os).
  destruct (add_days_spec _ _ _ He) as (_ & _ & Oe).
  assert (Eq : day (Appointment.appointment_date
                      (stored_insert now (appointment_seq db + Z.of_nat j)
                         obj))
               = day now + (offset_draw d mod 91 - 60)).
  { unfold day, stored_insert.
    cbn [Appointment.set_pk Appointment.set_stamps
         Appointment.appointment_date].
    rewrite Hdate. unfold at_time. cbn [DateTime.date].
    rewrite Oe, Os. unfold randint.
    replace (90 - 0 + 1) with 91 by reflexivity. lia. }
  split; [exists d; split; [exact Hd | exact Eq]|].
  rewrite Eq. pose proof (Z.mod_pos_bound (offset_draw d) 91 ltac:(lia)).
  lia.
Qed.

Lemma seeded_dates_window_witness :
  let day x := Date.toordinal (DateTime.date x) in
  (exists d,
     In d [seed_visit; seed_visit]
     /\ day (Appointment.appointment_date seeded_row)
        = day booked_on + (offset_draw d mod 91 - 60))
  /\ day booked_on - 60 <= day (Appointment.appointment_date seeded_row)
     <= day booked_on + 30.
Proof.
  apply (seeded_dates_window booked_on [seed_patient]
           [seed_visit; seed_visit] db_booked db_seeded seeded_row).
  - vm_compute. reflexivity.
  - vm_compute. left. reflexivity.
Defined.

Lemma new_appointment_no_patients now start_date d :
  exists e, Command.new_appointment now start_date [] d = inl e.
Proof.
  unfold Command.new_appointment. cbv zeta. rewrite choice_nil.
  destruct (DateTime.add_days start_date _); [|eexists; reflexivity].
  destruct (choice [0; 15; 30; 45] _); [|eexists; reflexivity].
  destruct (choice _ (status_draw d)); [|eexists; reflexivity].
  destruct (choice Command.exam_types _) as [et|]; [|eexists; reflexivity].
  destruct (choice (Command.duration_choices et) _);
    eexists; reflexivity.
Qed.

(** Asked for appointments but no patients, the command fails and
    leaves both tables empty: what it deleted at its start stays
    deleted. *)
Theorem seeding_without_patients_fails now ads db :
  ads <> [] ->
  exists e,
    Command.handle now [] ads db = (Command.Failed e, cleared db).
Proof.
  intros Hne. destruct ads as [|d rest]; [contradiction|].
  unfold Command.handle. fold (cleared db). cbn [Command.create_patients].
  destruct (DateTime.add_days now (-30)) as [start_date|];
    [|eexists; reflexivity].
  destruct (DateTime.add_days now 60); [|eexists; reflexivity].
  cbn [Command.new_appointments].
  destruct (new_appointment_no_patients now start_date d) as [e ->].
  exists e. reflexivity.
Qed.

Lemma seeding_without_patients_fails_witness :
  exists e,
    Command.handle booked_on [] [seed_visit] db_booked
    = (Command.Failed e, cleared db_booked).
Proof.
  apply (seeding_without_patients_fails booked_on [seed_visit] db_booked).
  discriminate.
Defined.

(** A failed run is not rolled back: the appointments are gone,
    and the patient table holds the new patients, one per round, and
    nothing of what was stored before. *)
Theorem seeding_failure_not_rolled_back now pds ads db e db' :
  Command.handle now pds ads db = (Command.Failed e, db') ->
  appointments db' = []
  /\ List.length (patients db') = List.length pds
  /\ Command.create_patients 0 pds (cleared db) = (patients db', db').
Proof.
  unfold Command.handle. fold (cleared db).
  destruct (Command.create_patients 0 pds (cleared db))
    as [created db1] eqn:Hc.
  destruct (create_patients_facts _ _ _ _ _ Hc)
    as (Hp & Ha & _ & _ & Hlen & _).
  simpl in Hp, Ha.
  assert (Hgoal : appointments db1 = []
                  /\ List.length (patients db1) = List.length pds
                  /\ (created, db1) = (patients db1, db1)).
  { rewrite Hp. repeat split; assumption. }
  destruct (DateTime.add_days now (-30)) as [start_date|].
  - destruct (DateTime.add_days now 60).
    + destruct (Command.new_appointments now start_date created ads).
      * intros H. injection H as _ <-. exact Hgoal.
      * intros H. discriminate.
    + intros H. injection H as _ <-. exact Hgoal.
  - intros H. injection H as _ <-. exact Hgoal.
Qed.

(** Run in the first days of the calendar, the command fails on the
    date thirty days back, after it has stored the new patient. *)
Lemma seeding_failure_not_rolled_back_witness :
  appointments db_seed_failed = []
  /\ List.length (patients db_seed_failed) = List.length [seed_patient]
  /\ Command.create_patients 0 [seed_patient] (cleared db_booked)
     = (patients db_seed_failed, db_seed_failed).
Proof.
  apply (seeding_failure_not_rolled_back first_days [seed_patient]
           [seed_visit] db_booked Command.DateOverflowError db_seed_failed).
  vm_compute. reflexivity.
Defined.

(** [bulk_create] skips validation, so the sample data can break
    the rule the API keeps: when two rounds draw the same values and the
    status drawn is an active one, the patient drawn has two active
    appointments on one day. *)
Theorem seeding_can_double_book now pds d ads db db' a :
  Command.handle now pds (d :: d :: ads) db = (Command.Done, db') ->
  nth_error (appointments db') 0 = Some a ->
  active (Appointment.status a) ->
  ~ no_double_booking db'.
Proof.
  intros H Ha Hact Hno.
  destruct (command_done _ _ _ _ _ H)
    as (created & db1 & start_date & objs & Hc & _ & Hn & ->).
  destruct (created_patients_facts_cleared _ _ _ _ _ Hc) as (_ & Hap & _).
  cbn [Command.new_appointments] in Hn.
  destruct (Command.new_appointment now start_date created d) as [?|o];
    [discriminate|].
  destruct (Command.new_appointments now start_date created ads)
    as [?|rest]; [discriminate|].
  injection Hn as <-.
  destruct (bulk_create_facts now (o :: o :: rest) db1)
    as (_ & _ & _ & rows & Brows & Blen & Bnth).
  rewrite Hap in Brows. change ([] ++ rows)%list with rows in Brows.
  destruct rows as [|r0 [|r1 rows]]; [discriminate | discriminate |].
  destruct (Bnth 0%nat r0 eq_refl) as (o0 & Ho0 & E0).
  destruct (Bnth 1%nat r1 eq_refl) as (o1 & Ho1 & E1).
  simpl in Ho0, Ho1. injection Ho0 as <-. injection Ho1 as <-.
  rewrite Brows in Ha. simpl in Ha. injection Ha as <-.
  specialize (Hno (Appointment.patient_id o)
                  (DateTime.date (Appointment.appointment_date o))).
  unfold active_on in Hno. rewrite Brows in Hno.
  assert (Hsame : forall k,
            same_day_active (Appointment.patient_id o)
              (DateTime.date (Appointment.appointment_date o))
              (stored_insert now k o) = true).
  { intros k. apply same_day_active_iff. repeat split.
    rewrite E0 in Hact. exact Hact. }
  rewrite E0, E1 in Hno. simpl in Hno. rewrite !Hsame in Hno.
  simpl in Hno. lia.
Qed.

Lemma seeding_can_double_book_witness : ~ no_double_booking db_seeded.
Proof.
  apply (seeding_can_double_book booked_on [seed_patient] seed_visit []
           db_booked db_seeded seeded_row).
  - vm_compute. reflexivity.
  - vm_compute. reflexivity.
  - left. reflexivity.
Defined.
